(** * r1-creations: the sleuth response bridge and the cyberdeck content filter

    A shallow embedding of [sleuth/js/app.js] (payload normaliser, capture
    state machine, settings storage) and of the [ProfanityFilter] module,
    with the properties of their specification.

    Conventions of the embedding.
    - A JavaScript string is a Rocq [string], one [ascii] per code unit.
      White space, case mapping and word characters follow the ASCII tables.
    - A JavaScript value is a [jsvalue]: the JSON shapes plus [undefined].
      An object is the list of its own properties in enumeration order.
    - A number is kept as what the program can observe of it: whether it is
      truthy, and its decimal text.
    - [null] returned by a function is [VNull]; a thrown exception is [None]
      in an [option] result.
    - The diagnostic log ([dbg], [dbgJson], [dbgSnapshot]) writes to the
      console and to a debug overlay only and is left out. *)

From Stdlib Require Import String Ascii List Bool Arith NArith Lia.
Import ListNotations.
Set Warnings "-register-all".
Local Open Scope string_scope.
Local Open Scope list_scope.
Local Open Scope nat_scope.

(** ** JavaScript strings *)

Module JSString.

Definition dquote : ascii := ascii_of_nat 34.
Definition backslash : ascii := ascii_of_nat 92.
Definition backtick : ascii := ascii_of_nat 96.

Definition code (c : ascii) : nat := nat_of_ascii c.

(** [\s] of a regular expression and the characters [trim] strips. *)
Definition is_space (c : ascii) : bool :=
  let n := code c in
  ((9 <=? n) && (n <=? 13)) || (n =? 32).

Definition is_digit (c : ascii) : bool :=
  let n := code c in (48 <=? n) && (n <=? 57).

Definition is_lower (c : ascii) : bool :=
  let n := code c in (97 <=? n) && (n <=? 122).

Definition is_upper (c : ascii) : bool :=
  let n := code c in (65 <=? n) && (n <=? 90).

(** [\w] of a regular expression. *)
Definition is_word (c : ascii) : bool :=
  is_digit c || is_lower c || is_upper c || (code c =? 95).

Definition upper_char (c : ascii) : ascii :=
  if is_lower c then ascii_of_nat (code c - 32) else c.

Definition lower_char (c : ascii) : ascii :=
  if is_upper c then ascii_of_nat (code c + 32) else c.

Fixpoint map_chars (f : ascii -> ascii) (s : string) : string :=
  match s with
  | EmptyString => EmptyString
  | String c r => String (f c) (map_chars f r)
  end.

Definition toUpperCase : string -> string := map_chars upper_char.
Definition toLowerCase : string -> string := map_chars lower_char.

Definition is_empty (s : string) : bool :=
  match s with EmptyString => true | _ => false end.

Fixpoint all_chars (p : ascii -> bool) (s : string) : bool :=
  match s with
  | EmptyString => true
  | String c r => p c && all_chars p r
  end.

Fixpoint trimStart (s : string) : string :=
  match s with
  | String c r => if is_space c then trimStart r else s
  | EmptyString => EmptyString
  end.

Fixpoint trimEnd (s : string) : string :=
  match s with
  | EmptyString => EmptyString
  | String c r =>
      let r' := trimEnd r in
      if is_space c && is_empty r' then EmptyString else String c r'
  end.

Definition trim (s : string) : string := trimEnd (trimStart s).

(** [s.startsWith(p)] *)
Fixpoint startsWith (s p : string) {struct p} : bool :=
  match p with
  | EmptyString => true
  | String a p' =>
      match s with
      | String b s' => Ascii.eqb a b && startsWith s' p'
      | EmptyString => false
      end
  end.

(** [hay.includes(needle)] *)
Fixpoint includes (hay needle : string) : bool :=
  startsWith hay needle ||
  match hay with
  | EmptyString => false
  | String _ r => includes r needle
  end.

(** [s.indexOf(c)] for a one-character needle; [None] is [-1]. *)
Fixpoint indexOf (s : string) (c : ascii) : option nat :=
  match s with
  | EmptyString => None
  | String d r =>
      if Ascii.eqb d c then Some 0
      else option_map S (indexOf r c)
  end.

(** [s.lastIndexOf(c)] for a one-character needle. *)
Fixpoint lastIndexOf (s : string) (c : ascii) : option nat :=
  match s with
  | EmptyString => None
  | String d r =>
      match lastIndexOf r c with
      | Some i => Some (S i)
      | None => if Ascii.eqb d c then Some 0 else None
      end
  end.

(** [s.slice(i, j)] for [0 <= i <= j]. *)
Definition slice (s : string) (i j : nat) : string := substring i (j - i) s.

Fixpoint join (sep : string) (l : list string) : string :=
  match l with
  | [] => ""
  | [x] => x
  | x :: r => (x ++ sep ++ join sep r)%string
  end.

(** Case-insensitive prefix test, as a regular expression with flag [i]
    matches a literal. *)
Fixpoint prefix_ci (p s : string) : option string :=
  match p with
  | EmptyString => Some s
  | String a p' =>
      match s with
      | String b s' =>
          if Ascii.eqb (upper_char a) (upper_char b) then prefix_ci p' s' else None
      | EmptyString => None
      end
  end.

End JSString.
Import JSString.

(** ** JavaScript values *)

Inductive jsvalue : Type :=
| VUndefined
| VNull
| VBool (b : bool)
| VNumber (nonzero : bool) (shown : string)
| VString (s : string)
| VArray (items : list jsvalue)
| VObject (props : list (string * jsvalue)).

Definition props := list (string * jsvalue).

(** The value a conditional sees. *)
Definition truthy (v : jsvalue) : bool :=
  match v with
  | VUndefined | VNull => false
  | VBool b => b
  | VNumber nz _ => nz
  | VString s => negb (is_empty s)
  | VArray _ | VObject _ => true
  end.

Definition typeof (v : jsvalue) : string :=
  match v with
  | VUndefined => "undefined"
  | VNull => "object"
  | VBool _ => "boolean"
  | VNumber _ _ => "number"
  | VString _ => "string"
  | VArray _ | VObject _ => "object"
  end.

(** [v == null] *)
Definition is_nullish (v : jsvalue) : bool :=
  match v with VUndefined | VNull => true | _ => false end.

Definition isArray (v : jsvalue) : bool :=
  match v with VArray _ => true | _ => false end.

Fixpoint lookup (ps : props) (k : string) : option jsvalue :=
  match ps with
  | [] => None
  | (k', v) :: r => if String.eqb k' k then Some v else lookup r k
  end.

(** [v.k] and [v[k]] for a property name that no prototype defines. *)
Definition get (v : jsvalue) (k : string) : jsvalue :=
  match v with
  | VObject ps => match lookup ps k with Some x => x | None => VUndefined end
  | _ => VUndefined
  end.

(** [Object.prototype.hasOwnProperty.call(v, k)] for a name that is not an
    array index and not [length]. *)
Definition hasOwn (v : jsvalue) (k : string) : bool :=
  match v with
  | VObject ps => match lookup ps k with Some _ => true | None => false end
  | _ => false
  end.

(** [Object.keys(v)] of a plain object. *)
Definition keys (ps : props) : list string := map fst ps.

(** [a || b] *)
Definition or_else (a b : jsvalue) : jsvalue := if truthy a then a else b.
Infix "<|>" := or_else (at level 51, left associativity).

(** [String(v)] *)
Fixpoint toStr (v : jsvalue) : string :=
  match v with
  | VUndefined => "undefined"
  | VNull => "null"
  | VBool true => "true"
  | VBool false => "false"
  | VNumber _ s => s
  | VString s => s
  | VArray l =>
      join "," (map (fun x => if is_nullish x then "" else toStr x) l)
  | VObject _ => "[object Object]"
  end.

(** ** JSON text *)

Module JSON.

Definition hex_digit (n : nat) : ascii :=
  if n <? 10 then ascii_of_nat (48 + n) else ascii_of_nat (87 + n).

(** [QuoteJSONString]: the two-character escapes, [\u00xx] for the other
    control characters, everything else as it is. *)
Definition quote_char (c : ascii) : string :=
  let n := code c in
  if n =? 34 then String backslash (String dquote "")
  else if n =? 92 then String backslash (String backslash "")
  else if n =? 8 then String backslash "b"
  else if n =? 9 then String backslash "t"
  else if n =? 10 then String backslash "n"
  else if n =? 12 then String backslash "f"
  else if n =? 13 then String backslash "r"
  else if n <? 32 then
    String backslash (String "u" (String "0" (String "0"
      (String (hex_digit (n / 16)) (String (hex_digit (n mod 16)) "")))))
  else String c "".

Fixpoint quote_body (s : string) : string :=
  match s with
  | EmptyString => String dquote ""
  | String c r => (quote_char c ++ quote_body r)%string
  end.

Definition quote (s : string) : string := String dquote (quote_body s).

(** [NaN] and the infinities serialise as [null]. *)
Definition finite_text (shown : string) : bool :=
  negb (String.eqb shown "NaN" || String.eqb shown "Infinity" || String.eqb shown "-Infinity").

(** [JSON.stringify(v)] without a replacer or indentation; [None] is the
    result [undefined]. *)
Fixpoint stringify (v : jsvalue) : option string :=
  match v with
  | VUndefined => None
  | VNull => Some "null"
  | VBool true => Some "true"
  | VBool false => Some "false"
  | VNumber _ s => Some (if finite_text s then s else "null")
  | VString s => Some (quote s)
  | VArray l =>
      let item x := match stringify x with Some t => t | None => "null" end in
      Some ("[" ++ join "," (map item l) ++ "]")%string
  | VObject ps =>
      let member (kv : string * jsvalue) :=
        match stringify (snd kv) with
        | Some t => [(quote (fst kv) ++ ":" ++ t)%string]
        | None => []
        end in
      Some ("{" ++ join "," (flat_map member ps) ++ "}")%string
  end.

(** What [JSON.parse] leaves to the number and code-unit tables of the
    engine: the number a numeric literal denotes (its truthiness and its
    decimal text), and the text of a [\uXXXX] escape above the code units
    a [string] holds. *)
Class Engine := {
  number_of_literal : string -> bool * string;
  unit_of_escape : nat -> string;
}.

(** *** Lexical analysis *)

Inductive token :=
| TLBrace | TRBrace | TLBrack | TRBrack | TColon | TComma
| TStr (s : string)
| TWord (w : string).

Inductive lexmode :=
| LDefault
| LWord (acc : string)
| LStr (acc : string)
| LEsc (acc : string)
| LUni (acc : string) (digits : list nat).

Definition is_json_ws (c : ascii) : bool :=
  let n := code c in
  (n =? 32) || (n =? 9) || (n =? 10) || (n =? 13).

Definition punct (c : ascii) : option token :=
  match c with
  | "{"%char => Some TLBrace
  | "}"%char => Some TRBrace
  | "["%char => Some TLBrack
  | "]"%char => Some TRBrack
  | ":"%char => Some TColon
  | ","%char => Some TComma
  | _ => None
  end.

Definition hex_value (c : ascii) : option nat :=
  let n := code c in
  if is_digit c then Some (n - 48)
  else if (97 <=? n) && (n <=? 102) then Some (n - 87)
  else if (65 <=? n) && (n <=? 70) then Some (n - 55)
  else None.

Definition snoc (s : string) (c : ascii) : string := (s ++ String c "")%string.

Definition escape_char (c : ascii) : option ascii :=
  match c with
  | "/"%char => Some "/"%char
  | "b"%char => Some (ascii_of_nat 8)
  | "f"%char => Some (ascii_of_nat 12)
  | "n"%char => Some (ascii_of_nat 10)
  | "r"%char => Some (ascii_of_nat 13)
  | "t"%char => Some (ascii_of_nat 9)
  | _ => if Ascii.eqb c dquote then Some dquote
         else if Ascii.eqb c backslash then Some backslash
         else None
  end.

Section Lexer.
Context {E : Engine}.

Definition unit_text (n : nat) : string :=
  if n <? 256 then String (ascii_of_nat n) "" else unit_of_escape n.

(** A character met outside a string and outside a word. *)
Definition lex_default (c : ascii) : lexmode * list token :=
  if is_json_ws c then (LDefault, [])
  else match punct c with
       | Some t => (LDefault, [t])
       | None =>
           if Ascii.eqb c dquote then (LStr "", [])
           else (LWord (String c ""), [])
       end.

Definition lex_step (m : lexmode) (c : ascii) : option (lexmode * list token) :=
  match m with
  | LDefault => Some (lex_default c)
  | LWord acc =>
      if is_json_ws c || (match punct c with Some _ => true | None => false end)
         || Ascii.eqb c dquote
      then let (m', ts) := lex_default c in Some (m', TWord acc :: ts)
      else Some (LWord (snoc acc c), [])
  | LStr acc =>
      if Ascii.eqb c dquote then Some (LDefault, [TStr acc])
      else if Ascii.eqb c backslash then Some (LEsc acc, [])
      else if code c <? 32 then None
      else Some (LStr (snoc acc c), [])
  | LEsc acc =>
      if Ascii.eqb c "u"%char then Some (LUni acc [], [])
      else match escape_char c with
           | Some d => Some (LStr (snoc acc d), [])
           | None => None
           end
  | LUni acc ds =>
      match hex_value c with
      | None => None
      | Some h =>
          match ds with
          | [a; b; d] =>
              Some (LStr (acc ++ unit_text (((a * 16 + b) * 16 + d) * 16 + h))%string, [])
          | _ => Some (LUni acc (ds ++ [h]), [])
          end
      end
  end.

Fixpoint lex_from (m : lexmode) (s : string) : option (list token) :=
  match s with
  | EmptyString =>
      match m with
      | LDefault => Some []
      | LWord acc => Some [TWord acc]
      | _ => None
      end
  | String c r =>
      match lex_step m c with
      | None => None
      | Some (m', ts) =>
          match lex_from m' r with
          | Some rest => Some (ts ++ rest)
          | None => None
          end
      end
  end.

Definition lex (s : string) : option (list token) := lex_from LDefault s.

End Lexer.

(** *** Numbers and the three literal names *)

Fixpoint span_digits (s : string) : string * string :=
  match s with
  | String c r =>
      if is_digit c then let (d, t) := span_digits r in (String c d, t)
      else (EmptyString, s)
  | EmptyString => (EmptyString, EmptyString)
  end.

Definition valid_int (d : string) : bool :=
  match d with
  | EmptyString => false
  | String "0" EmptyString => true
  | String c _ => negb (Ascii.eqb c "0"%char)
  end.

Definition valid_exp (s : string) : bool :=
  match s with
  | EmptyString => true
  | String e r =>
      if Ascii.eqb e "e"%char || Ascii.eqb e "E"%char then
        let r' := match r with
                  | String sg t =>
                      if Ascii.eqb sg "+"%char || Ascii.eqb sg "-"%char then t else r
                  | EmptyString => r
                  end in
        let (d, t) := span_digits r' in
        negb (is_empty d) && is_empty t
      else false
  end.

(** The JSON grammar of a number: [-? int frac? exp?]. *)
Definition valid_number (w : string) : bool :=
  let w1 := match w with
            | String c r => if Ascii.eqb c "-"%char then r else w
            | EmptyString => w
            end in
  let (i, r1) := span_digits w1 in
  valid_int i &&
  match r1 with
  | String "." r2 =>
      let (f, r3) := span_digits r2 in
      negb (is_empty f) && valid_exp r3
  | _ => valid_exp r1
  end.

Section Parser.
Context {E : Engine}.

Definition word_value (w : string) : option jsvalue :=
  if String.eqb w "true" then Some (VBool true)
  else if String.eqb w "false" then Some (VBool false)
  else if String.eqb w "null" then Some VNull
  else if valid_number w then
    let (nz, shown) := number_of_literal w in Some (VNumber nz shown)
  else None.

(** *** Property order

    An object lists its array-index keys first, in ascending order, and
    then its other keys in the order of their first definition; defining a
    key again keeps its place. *)

Fixpoint decimal (s : string) (acc : N) : N :=
  match s with
  | EmptyString => acc
  | String c r => decimal r (acc * 10 + N.of_nat (code c - 48))%N
  end.

Definition array_index (k : string) : option N :=
  if valid_int k && all_chars is_digit k && (String.length k <=? 10) then
    let n := decimal k 0%N in
    if (n <? 4294967295)%N then Some n else None
  else None.

Fixpoint replace_prop (ps : props) (k : string) (v : jsvalue) : props :=
  match ps with
  | [] => []
  | (k', x) :: r =>
      if String.eqb k' k then (k', v) :: r else (k', x) :: replace_prop r k v
  end.

Fixpoint insert_index (ps : props) (i : N) (k : string) (v : jsvalue) : props :=
  match ps with
  | [] => [(k, v)]
  | (k', x) :: r =>
      match array_index k' with
      | Some j => if (j <? i)%N then (k', x) :: insert_index r i k v
                  else (k, v) :: ps
      | None => (k, v) :: ps
      end
  end.

Definition obj_set (ps : props) (k : string) (v : jsvalue) : props :=
  match lookup ps k with
  | Some _ => replace_prop ps k v
  | None =>
      match array_index k with
      | Some i => insert_index ps i k v
      | None => ps ++ [(k, v)]
      end
  end.

(** *** The grammar, over tokens, with an explicit stack *)

Inductive frame :=
| FArr (items : list jsvalue)
| FObj (ps : props) (key : string).

Inductive expect :=
| XValue (may_close : bool)
| XKey (may_close : bool)
| XColon (key : string)
| XNext
| XDone (v : jsvalue).

Definition pstate := (list frame * expect)%type.

(** A value is complete: file it in the enclosing container. *)
Definition complete (stack : list frame) (v : jsvalue) : pstate :=
  match stack with
  | [] => ([], XDone v)
  | FArr items :: st => (FArr (items ++ [v]) :: st, XNext)
  | FObj ps k :: st => (FObj (obj_set ps k v) k :: st, XNext)
  end.

Definition close_frame (stack : list frame) (closer : token) : option pstate :=
  match stack, closer with
  | FArr items :: st, TRBrack => Some (complete st (VArray items))
  | FObj ps _ :: st, TRBrace => Some (complete st (VObject ps))
  | _, _ => None
  end.

Definition parse_step (p : pstate) (t : token) : option pstate :=
  let (stack, x) := p in
  match x with
  | XValue may_close =>
      match t with
      | TLBrace => Some (FObj [] "" :: stack, XKey true)
      | TLBrack => Some (FArr [] :: stack, XValue true)
      | TStr s => Some (complete stack (VString s))
      | TWord w =>
          match word_value w with
          | Some v => Some (complete stack v)
          | None => None
          end
      | TRBrack => if may_close then close_frame stack t else None
      | _ => None
      end
  | XKey may_close =>
      match t, stack with
      | TStr k, FObj ps _ :: st => Some (FObj ps k :: st, XColon k)
      | TRBrace, _ => if may_close then close_frame stack t else None
      | _, _ => None
      end
  | XColon _ =>
      match t with
      | TColon => Some (stack, XValue false)
      | _ => None
      end
  | XNext =>
      match t, stack with
      | TComma, FArr _ :: _ => Some (stack, XValue false)
      | TComma, FObj _ _ :: _ => Some (stack, XKey false)
      | TRBrack, _ => close_frame stack t
      | TRBrace, _ => close_frame stack t
      | _, _ => None
      end
  | XDone _ => None
  end.

Fixpoint parse_tokens (p : pstate) (ts : list token) : option jsvalue :=
  match ts with
  | [] => match p with
          | ([], XDone v) => Some v
          | _ => None
          end
  | t :: r =>
      match parse_step p t with
      | Some p' => parse_tokens p' r
      | None => None
      end
  end.

(** [JSON.parse(s)] without a reviver; [None] is a [SyntaxError]. *)
Definition parse (s : string) : option jsvalue :=
  match lex s with
  | Some ts => parse_tokens ([], XValue false) ts
  | None => None
  end.

End Parser.

End JSON.

(** A reference engine, for evaluating examples: exact on zero and on
    integer literals written without exponent that a double holds exactly;
    an escape above the code units of a [string] shows as [?]. *)
Module Reference.

Fixpoint mantissa (w : string) : string :=
  match w with
  | EmptyString => EmptyString
  | String c r =>
      if Ascii.eqb c "e"%char || Ascii.eqb c "E"%char then EmptyString
      else String c (mantissa r)
  end.

Definition number (w : string) : bool * string :=
  let nz := negb (all_chars (fun c => negb (is_digit c) || Ascii.eqb c "0"%char) (mantissa w)) in
  (nz, if nz then w else "0").

#[export] Instance engine : JSON.Engine := {
  JSON.number_of_literal := number;
  JSON.unit_of_escape := fun _ => "?";
}.

(** JSON text is written with [']; this puts the double quotes in. *)
Definition dq (s : string) : string :=
  map_chars (fun c => if Ascii.eqb c "'"%char then dquote else c) s.

End Reference.

(** ** [btoa] and [atob] *)

Module Base64.

Definition b64_char (n : nat) : ascii :=
  if n <? 26 then ascii_of_nat (65 + n)
  else if n <? 52 then ascii_of_nat (97 + (n - 26))
  else if n <? 62 then ascii_of_nat (48 + (n - 52))
  else if n =? 62 then "+"%char
  else "/"%char.

Definition b64_index (c : ascii) : option nat :=
  let n := code c in
  if is_upper c then Some (n - 65)
  else if is_lower c then Some (n - 97 + 26)
  else if is_digit c then Some (n - 48 + 52)
  else if n =? 43 then Some 62
  else if n =? 47 then Some 63
  else None.

Fixpoint encode (s : string) : string :=
  match s with
  | EmptyString => EmptyString
  | String a EmptyString =>
      let x := code a in
      String (b64_char (x / 4)) (String (b64_char ((x mod 4) * 16)) "==")
  | String a (String b EmptyString) =>
      let x := code a in let y := code b in
      String (b64_char (x / 4)) (String (b64_char ((x mod 4) * 16 + y / 16))
        (String (b64_char ((y mod 16) * 4)) "="))
  | String a (String b (String c r)) =>
      let x := code a in let y := code b in let z := code c in
      String (b64_char (x / 4)) (String (b64_char ((x mod 4) * 16 + y / 16))
        (String (b64_char ((y mod 16) * 4 + z / 64)) (String (b64_char (z mod 64))
          (encode r))))
  end.

(** [btoa(s)]: every code unit of a [string] is below 256, so it never
    throws. *)
Definition btoa (s : string) : string := encode s.

(** The white space the forgiving decoder removes: TAB, LF, FF, CR, SPACE. *)
Definition is_ascii_ws (c : ascii) : bool :=
  let n := code c in
  (n =? 9) || (n =? 10) || (n =? 12) || (n =? 13) || (n =? 32).

Fixpoint remove_ws (s : string) : string :=
  match s with
  | EmptyString => EmptyString
  | String c r => if is_ascii_ws c then remove_ws r else String c (remove_ws r)
  end.

Fixpoint strip_padding (s : string) : string :=
  match s with
  | String "=" EmptyString => EmptyString
  | String "=" (String "=" EmptyString) => EmptyString
  | String c r => String c (strip_padding r)
  | EmptyString => EmptyString
  end.

Fixpoint sextets (s : string) : option (list nat) :=
  match s with
  | EmptyString => Some []
  | String c r =>
      match b64_index c, sextets r with
      | Some n, Some l => Some (n :: l)
      | _, _ => None
      end
  end.

Fixpoint bytes_of (l : list nat) : string :=
  match l with
  | a :: b :: c :: d :: r =>
      String (ascii_of_nat (a * 4 + b / 16))
        (String (ascii_of_nat ((b mod 16) * 16 + c / 4))
          (String (ascii_of_nat ((c mod 4) * 64 + d)) (bytes_of r)))
  | [a; b; c] =>
      String (ascii_of_nat (a * 4 + b / 16))
        (String (ascii_of_nat ((b mod 16) * 16 + c / 4)) "")
  | [a; b] => String (ascii_of_nat (a * 4 + b / 16)) ""
  | _ => EmptyString
  end.

(** [atob(s)], the forgiving decoder; [None] is an
    [InvalidCharacterError]. *)
Definition atob (s : string) : option string :=
  let data := remove_ws s in
  let data := if String.length data mod 4 =? 0 then strip_padding data else data in
  if String.length data mod 4 =? 1 then None
  else match sextets data with
       | Some l => Some (bytes_of l)
       | None => None
       end.

End Base64.

(** ** sleuth: the payload normaliser ([sleuth/js/app.js]) *)

Module Sleuth.

(** Loops that return at the first usable result. *)
Fixpoint first_nonempty {A : Type} (f : A -> string) (l : list A) : string :=
  match l with
  | [] => ""
  | x :: r => let nested := f x in
              if is_empty nested then first_nonempty f r else nested
  end.

Fixpoint first_truthy {A : Type} (f : A -> jsvalue) (l : list A) : jsvalue :=
  match l with
  | [] => VNull
  | x :: r => let nested := f x in
              if truthy nested then nested else first_truthy f r
  end.

(** [.replace(/^```json\s*/i, '')] *)
Definition strip_fence_json (s : string) : string :=
  match prefix_ci "```json" s with
  | Some r => trimStart r
  | None => s
  end.

(** [.replace(/^```\s*/i, '')] *)
Definition strip_fence_open (s : string) : string :=
  match prefix_ci "```" s with
  | Some r => trimStart r
  | None => s
  end.

(** [.replace(/```\s*$/i, '')]: the leftmost fence that only white space
    follows goes, with that white space. *)
Fixpoint strip_fence_close (s : string) : string :=
  match s with
  | EmptyString => EmptyString
  | String c r =>
      match prefix_ci "```" s with
      | Some t => if all_chars is_space t then EmptyString
                  else String c (strip_fence_close r)
      | None => String c (strip_fence_close r)
      end
  end.

Definition cleanJSONText (raw : string) : string :=
  trim (strip_fence_close (strip_fence_open (strip_fence_json raw))).

Definition isResultPayload (value : jsvalue) : bool :=
  truthy value && String.eqb (typeof value) "object" && (
    String.eqb (typeof (get value "name")) "string" ||
    String.eqb (typeof (get value "category")) "string" ||
    String.eqb (typeof (get value "description")) "string" ||
    String.eqb (typeof (get value "fun_fact")) "string" ||
    String.eqb (typeof (get value "reason")) "string" ||
    String.eqb (typeof (get value "result")) "string").

Definition text_keys : list string :=
  ["data"; "message"; "response"; "output"; "content"; "text"; "output_text";
   "assistant"; "answer"; "reply"; "transcript"].

Definition wrapperKeys : list string :=
  ["data"; "parsedData"; "message"; "response"; "payload"; "result"; "output";
   "output_text"; "content"; "text"; "llmResponse"; "assistant"].

(** The body of [extractPlainText]; [rec v] is the call
    [extractPlainText(v, depth + 1)]. *)
Definition extractPlainText_body (rec : jsvalue -> string) (value : jsvalue) (depth : nat)
  : string :=
  if (5 <? depth) || is_nullish value then ""
  else match value with
  | VArray items => first_nonempty rec items
  | VString s => trim s
  | VObject ps =>
      let direct := first_nonempty (fun key =>
        match get value key with
        | VString s => trim s
        | _ => ""
        end) text_keys in
      if negb (is_empty direct) then direct
      else
        let known := first_nonempty (fun key =>
          let x := get value key in
          if negb (is_nullish x) && String.eqb (typeof x) "object" then rec x
          else "") text_keys in
        if negb (is_empty known) then known
        else first_nonempty (fun key => rec (get value key)) (keys ps)
  | _ => ""
  end.

Fixpoint extractPlainText_fuel (fuel : nat) (value : jsvalue) (depth : nat) : string :=
  match fuel with
  | 0 => ""
  | S fuel' =>
      extractPlainText_body (fun v => extractPlainText_fuel fuel' v (depth + 1)) value depth
  end.

(** The recursion stops at depth 6, so [7 - depth] calls are enough:
    see [extractPlainText_eq]. *)
Definition extractPlainText (value : jsvalue) (depth : nat) : string :=
  extractPlainText_fuel (7 - depth) value depth.

Section WithEngine.
Context {E : JSON.Engine}.

Definition tryParseJSON (raw : jsvalue) : jsvalue :=
  match raw with
  | VString raw =>
      let cleaned := cleanJSONText raw in
      if is_empty cleaned then VNull
      else match JSON.parse cleaned with
      | Some v => v
      | None =>
          match indexOf cleaned "{"%char, lastIndexOf cleaned "}"%char with
          | Some start, Some end_ =>
              if start <? end_ then
                match JSON.parse (slice cleaned start (end_ + 1)) with
                | Some v => v
                | None => VNull
                end
              else VNull
          | _, _ => VNull
          end
      end
  | _ => VNull
  end.

(** The body of [extractResultPayload]; [rec v] is the call
    [extractResultPayload(v, depth + 1)]. *)
Definition extractResultPayload_body (rec : jsvalue -> jsvalue) (value : jsvalue) (depth : nat)
  : jsvalue :=
  if (5 <? depth) || is_nullish value then VNull
  else if String.eqb (typeof value) "string" then
    let parsedString := tryParseJSON value in
    if truthy parsedString then rec parsedString else VNull
  else match value with
  | VArray items => first_truthy rec items
  | _ =>
      if negb (String.eqb (typeof value) "object") then VNull
      else if isResultPayload value then value
      else first_truthy (fun key =>
             if hasOwn value key then rec (get value key) else VNull) wrapperKeys
  end.

Fixpoint extractResultPayload_fuel (fuel : nat) (value : jsvalue) (depth : nat) : jsvalue :=
  match fuel with
  | 0 => VNull
  | S fuel' =>
      extractResultPayload_body
        (fun v => extractResultPayload_fuel fuel' v (depth + 1)) value depth
  end.

(** See [extractResultPayload_eq]. *)
Definition extractResultPayload (value : jsvalue) (depth : nat) : jsvalue :=
  extractResultPayload_fuel (7 - depth) value depth.

Definition normalizeStandardPayload (value : jsvalue) : jsvalue :=
  if negb (truthy value) || negb (String.eqb (typeof value) "object") then VNull
  else
    let name := get value "name" <|> get value "object" <|> get value "item"
                <|> get value "title" <|> VString "" in
    let category := get value "category" <|> get value "type" <|> VString "" in
    let description :=
      get value "description" <|> get value "summary" <|> get value "details"
      <|> get value "reason"
      <|> (if String.eqb (typeof (get value "result")) "string"
           then get value "result" else VString "") in
    let fact := get value "fun_fact" <|> get value "fact" <|> get value "trivia"
                <|> VString "" in
    if truthy name || truthy category || truthy description || truthy fact then
      VObject [("name", VString (toStr (name <|> VString "Unknown")));
               ("category", VString (toStr (category <|> VString "")));
               ("description", VString (toStr (description <|> VString "")));
               ("fun_fact", VString (toStr (fact <|> VString "")))]
    else VNull.

Definition unknownPayload (text : string) : jsvalue :=
  VObject [("name", VString "Unknown"); ("category", VString "");
           ("description", VString text); ("fun_fact", VString "")].

Definition buildFallbackStandardPayload (rawText : string) : jsvalue :=
  let text := trim rawText in
  if is_empty text then VNull
  else
    let parsed := tryParseJSON (VString text) in
    let normalized := normalizeStandardPayload parsed in
    if truthy normalized then normalized
    else unknownPayload text.

End WithEngine.

Definition getAnyTextFallback (data : jsvalue) (preferred : string) : string :=
  if negb (is_empty preferred) && negb (is_empty (trim preferred)) then trim preferred
  else if String.eqb (typeof data) "string" && negb (is_empty (trim (toStr data)))
  then trim (toStr data)
  else match JSON.stringify data with
       | Some compact =>
           if negb (is_empty compact) && negb (String.eqb compact "{}")
              && negb (String.eqb compact "[]")
           then compact else ""
       | None => ""
       end.

(** ** sleuth: the program state *)

Inductive State :=
| CAMERA | ANALYZING | RESULT | SETTINGS | HD_CAMERA | HD_ANALYZING | HD_RESULT.

Definition State_eqb (a b : State) : bool :=
  match a, b with
  | CAMERA, CAMERA | ANALYZING, ANALYZING | RESULT, RESULT | SETTINGS, SETTINGS
  | HD_CAMERA, HD_CAMERA | HD_ANALYZING, HD_ANALYZING | HD_RESULT, HD_RESULT => true
  | _, _ => false
  end.

Definition RESPONSE_TIMEOUT_MS : N := 20000%N.

Record Settings := { voice : bool; hotdog : bool }.

Inductive Mode := standard | hotdogMode.

(** [id] is built from the clock and a random number, kept as the pair. *)
Record Request := {
  id : nat * nat;
  mode : Mode;
  startedAt : nat;
  promptLen : nat;
  imageLen : nat;
  voiceToggle : bool;
  wantsR1Response : bool;
}.

Inductive Screen :=
| s_camera | s_analyzing | s_result | s_settings | s_hotdog_result | s_hotdog_analyzing.

(** What a pending timer runs. *)
Inductive Callback := Watchdog | HideToast | MockResponse | CreditColorReset.

Record Timer := { handle : nat; callback : Callback; delay : N }.

(** The elements of the result screen. *)
Record ResultView := {
  result_category : string;
  result_name : string;
  result_description : string;
  result_fact : string;
  category_display : string;
}.

(** The elements of the hot dog result screen. *)
Record HotdogView := {
  hd_icon : string;
  hd_verdict : string;
  hd_reason : string;
}.

Record Toast := { toast_text : string; toast_show : bool }.

Inductive PostOutcome := Delivered | Threw (message : string).

(** The module-level variables, the parts of the page the program writes,
    and the host: border colour, pending timers, posted messages and the
    key-value store ([None] when [creationStorage.plain] is missing). *)
Record App := {
  state : State;
  resultPage : nat;
  creditClicks : nat;
  errorTimer : option nat;
  llmTimer : option nat;
  activeRequest : option Request;
  settings : Settings;
  screens : list Screen;
  hdOverlayHidden : bool;
  resultView : ResultView;
  descPageActive : bool;
  factPageActive : bool;
  hotdogView : HotdogView;
  toast : option Toast;
  toggleVoice : bool;
  toggleHotdog : bool;
  hotdogRowHidden : bool;
  creditColor : string;
  borderColor : string;
  timers : list Timer;
  nextTimer : nat;
  outbox : list string;
  store : option (string -> option string);
}.

Definition set_state (x : State) (a : App) : App :=
  Build_App x (resultPage a) (creditClicks a) (errorTimer a) (llmTimer a) (activeRequest a) (settings a) (screens a) (hdOverlayHidden a) (resultView a) (descPageActive a) (factPageActive a) (hotdogView a) (toast a) (toggleVoice a) (toggleHotdog a) (hotdogRowHidden a) (creditColor a) (borderColor a) (timers a) (nextTimer a) (outbox a) (store a).
Definition set_resultPage (x : nat) (a : App) : App :=
  Build_App (state a) x (creditClicks a) (errorTimer a) (llmTimer a) (activeRequest a) (settings a) (screens a) (hdOverlayHidden a) (resultView a) (descPageActive a) (factPageActive a) (hotdogView a) (toast a) (toggleVoice a) (toggleHotdog a) (hotdogRowHidden a) (creditColor a) (borderColor a) (timers a) (nextTimer a) (outbox a) (store a).
Definition set_creditClicks (x : nat) (a : App) : App :=
  Build_App (state a) (resultPage a) x (errorTimer a) (llmTimer a) (activeRequest a) (settings a) (screens a) (hdOverlayHidden a) (resultView a) (descPageActive a) (factPageActive a) (hotdogView a) (toast a) (toggleVoice a) (toggleHotdog a) (hotdogRowHidden a) (creditColor a) (borderColor a) (timers a) (nextTimer a) (outbox a) (store a).
Definition set_errorTimer (x : option nat) (a : App) : App :=
  Build_App (state a) (resultPage a) (creditClicks a) x (llmTimer a) (activeRequest a) (settings a) (screens a) (hdOverlayHidden a) (resultView a) (descPageActive a) (factPageActive a) (hotdogView a) (toast a) (toggleVoice a) (toggleHotdog a) (hotdogRowHidden a) (creditColor a) (borderColor a) (timers a) (nextTimer a) (outbox a) (store a).
Definition set_llmTimer (x : option nat) (a : App) : App :=
  Build_App (state a) (resultPage a) (creditClicks a) (errorTimer a) x (activeRequest a) (settings a) (screens a) (hdOverlayHidden a) (resultView a) (descPageActive a) (factPageActive a) (hotdogView a) (toast a) (toggleVoice a) (toggleHotdog a) (hotdogRowHidden a) (creditColor a) (borderColor a) (timers a) (nextTimer a) (outbox a) (store a).
Definition set_activeRequest (x : option Request) (a : App) : App :=
  Build_App (state a) (resultPage a) (creditClicks a) (errorTimer a) (llmTimer a) x (settings a) (screens a) (hdOverlayHidden a) (resultView a) (descPageActive a) (factPageActive a) (hotdogView a) (toast a) (toggleVoice a) (toggleHotdog a) (hotdogRowHidden a) (creditColor a) (borderColor a) (timers a) (nextTimer a) (outbox a) (store a).
Definition set_settings (x : Settings) (a : App) : App :=
  Build_App (state a) (resultPage a) (creditClicks a) (errorTimer a) (llmTimer a) (activeRequest a) x (screens a) (hdOverlayHidden a) (resultView a) (descPageActive a) (factPageActive a) (hotdogView a) (toast a) (toggleVoice a) (toggleHotdog a) (hotdogRowHidden a) (creditColor a) (borderColor a) (timers a) (nextTimer a) (outbox a) (store a).
Definition set_screens (x : list Screen) (a : App) : App :=
  Build_App (state a) (resultPage a) (creditClicks a) (errorTimer a) (llmTimer a) (activeRequest a) (settings a) x (hdOverlayHidden a) (resultView a) (descPageActive a) (factPageActive a) (hotdogView a) (toast a) (toggleVoice a) (toggleHotdog a) (hotdogRowHidden a) (creditColor a) (borderColor a) (timers a) (nextTimer a) (outbox a) (store a).
Definition set_hdOverlayHidden (x : bool) (a : App) : App :=
  Build_App (state a) (resultPage a) (creditClicks a) (errorTimer a) (llmTimer a) (activeRequest a) (settings a) (screens a) x (resultView a) (descPageActive a) (factPageActive a) (hotdogView a) (toast a) (toggleVoice a) (toggleHotdog a) (hotdogRowHidden a) (creditColor a) (borderColor a) (timers a) (nextTimer a) (outbox a) (store a).
Definition set_resultView (x : ResultView) (a : App) : App :=
  Build_App (state a) (resultPage a) (creditClicks a) (errorTimer a) (llmTimer a) (activeRequest a) (settings a) (screens a) (hdOverlayHidden a) x (descPageActive a) (factPageActive a) (hotdogView a) (toast a) (toggleVoice a) (toggleHotdog a) (hotdogRowHidden a) (creditColor a) (borderColor a) (timers a) (nextTimer a) (outbox a) (store a).
Definition set_descPageActive (x : bool) (a : App) : App :=
  Build_App (state a) (resultPage a) (creditClicks a) (errorTimer a) (llmTimer a) (activeRequest a) (settings a) (screens a) (hdOverlayHidden a) (resultView a) x (factPageActive a) (hotdogView a) (toast a) (toggleVoice a) (toggleHotdog a) (hotdogRowHidden a) (creditColor a) (borderColor a) (timers a) (nextTimer a) (outbox a) (store a).
Definition set_factPageActive (x : bool) (a : App) : App :=
  Build_App (state a) (resultPage a) (creditClicks a) (errorTimer a) (llmTimer a) (activeRequest a) (settings a) (screens a) (hdOverlayHidden a) (resultView a) (descPageActive a) x (hotdogView a) (toast a) (toggleVoice a) (toggleHotdog a) (hotdogRowHidden a) (creditColor a) (borderColor a) (timers a) (nextTimer a) (outbox a) (store a).
Definition set_hotdogView (x : HotdogView) (a : App) : App :=
  Build_App (state a) (resultPage a) (creditClicks a) (errorTimer a) (llmTimer a) (activeRequest a) (settings a) (screens a) (hdOverlayHidden a) (resultView a) (descPageActive a) (factPageActive a) x (toast a) (toggleVoice a) (toggleHotdog a) (hotdogRowHidden a) (creditColor a) (borderColor a) (timers a) (nextTimer a) (outbox a) (store a).
Definition set_toast (x : option Toast) (a : App) : App :=
  Build_App (state a) (resultPage a) (creditClicks a) (errorTimer a) (llmTimer a) (activeRequest a) (settings a) (screens a) (hdOverlayHidden a) (resultView a) (descPageActive a) (factPageActive a) (hotdogView a) x (toggleVoice a) (toggleHotdog a) (hotdogRowHidden a) (creditColor a) (borderColor a) (timers a) (nextTimer a) (outbox a) (store a).
Definition set_toggleVoice (x : bool) (a : App) : App :=
  Build_App (state a) (resultPage a) (creditClicks a) (errorTimer a) (llmTimer a) (activeRequest a) (settings a) (screens a) (hdOverlayHidden a) (resultView a) (descPageActive a) (factPageActive a) (hotdogView a) (toast a) x (toggleHotdog a) (hotdogRowHidden a) (creditColor a) (borderColor a) (timers a) (nextTimer a) (outbox a) (store a).
Definition set_toggleHotdog (x : bool) (a : App) : App :=
  Build_App (state a) (resultPage a) (creditClicks a) (errorTimer a) (llmTimer a) (activeRequest a) (settings a) (screens a) (hdOverlayHidden a) (resultView a) (descPageActive a) (factPageActive a) (hotdogView a) (toast a) (toggleVoice a) x (hotdogRowHidden a) (creditColor a) (borderColor a) (timers a) (nextTimer a) (outbox a) (store a).
Definition set_hotdogRowHidden (x : bool) (a : App) : App :=
  Build_App (state a) (resultPage a) (creditClicks a) (errorTimer a) (llmTimer a) (activeRequest a) (settings a) (screens a) (hdOverlayHidden a) (resultView a) (descPageActive a) (factPageActive a) (hotdogView a) (toast a) (toggleVoice a) (toggleHotdog a) x (creditColor a) (borderColor a) (timers a) (nextTimer a) (outbox a) (store a).
Definition set_creditColor (x : string) (a : App) : App :=
  Build_App (state a) (resultPage a) (creditClicks a) (errorTimer a) (llmTimer a) (activeRequest a) (settings a) (screens a) (hdOverlayHidden a) (resultView a) (descPageActive a) (factPageActive a) (hotdogView a) (toast a) (toggleVoice a) (toggleHotdog a) (hotdogRowHidden a) x (borderColor a) (timers a) (nextTimer a) (outbox a) (store a).
Definition set_borderColor (x : string) (a : App) : App :=
  Build_App (state a) (resultPage a) (creditClicks a) (errorTimer a) (llmTimer a) (activeRequest a) (settings a) (screens a) (hdOverlayHidden a) (resultView a) (descPageActive a) (factPageActive a) (hotdogView a) (toast a) (toggleVoice a) (toggleHotdog a) (hotdogRowHidden a) (creditColor a) x (timers a) (nextTimer a) (outbox a) (store a).
Definition set_timers (x : list Timer) (a : App) : App :=
  Build_App (state a) (resultPage a) (creditClicks a) (errorTimer a) (llmTimer a) (activeRequest a) (settings a) (screens a) (hdOverlayHidden a) (resultView a) (descPageActive a) (factPageActive a) (hotdogView a) (toast a) (toggleVoice a) (toggleHotdog a) (hotdogRowHidden a) (creditColor a) (borderColor a) x (nextTimer a) (outbox a) (store a).
Definition set_nextTimer (x : nat) (a : App) : App :=
  Build_App (state a) (resultPage a) (creditClicks a) (errorTimer a) (llmTimer a) (activeRequest a) (settings a) (screens a) (hdOverlayHidden a) (resultView a) (descPageActive a) (factPageActive a) (hotdogView a) (toast a) (toggleVoice a) (toggleHotdog a) (hotdogRowHidden a) (creditColor a) (borderColor a) (timers a) x (outbox a) (store a).
Definition set_outbox (x : list string) (a : App) : App :=
  Build_App (state a) (resultPage a) (creditClicks a) (errorTimer a) (llmTimer a) (activeRequest a) (settings a) (screens a) (hdOverlayHidden a) (resultView a) (descPageActive a) (factPageActive a) (hotdogView a) (toast a) (toggleVoice a) (toggleHotdog a) (hotdogRowHidden a) (creditColor a) (borderColor a) (timers a) (nextTimer a) x (store a).
Definition set_store (x : option (string -> option string)) (a : App) : App :=
  Build_App (state a) (resultPage a) (creditClicks a) (errorTimer a) (llmTimer a) (activeRequest a) (settings a) (screens a) (hdOverlayHidden a) (resultView a) (descPageActive a) (factPageActive a) (hotdogView a) (toast a) (toggleVoice a) (toggleHotdog a) (hotdogRowHidden a) (creditColor a) (borderColor a) (timers a) (nextTimer a) (outbox a) x.

(** What the page is loaded into: whether the host defines
    [updateAppBorderColor] and [PluginMessageHandler], the plugin id of
    the URL, and the two prompt texts (sent as they are, and measured). *)
Record Host := {
  borderApi : bool;
  transport : bool;
  detectedPluginId : string;
  PROMPT_STANDARD : string;
  PROMPT_HOTDOG : string;
}.

(** *** Timers *)

Definition setTimeout (cb : Callback) (ms : N) (a : App) : nat * App :=
  let h := nextTimer a in
  (h, set_nextTimer (S h)
        (set_timers (timers a ++ [{| handle := h; callback := cb; delay := ms |}]) a)).

Definition clearTimeout (h : option nat) (a : App) : App :=
  match h with
  | Some n => set_timers (filter (fun t => negb (handle t =? n)) (timers a)) a
  | None => a
  end.

Definition pending (h : nat) (cb : Callback) (a : App) : Prop :=
  exists ms, In {| handle := h; callback := cb; delay := ms |} (timers a).

(** *** Error toast *)

Definition showError (msg : string) (a : App) : App :=
  match toast a with
  | None => a
  | Some _ =>
      let a := set_toast (Some {| toast_text := msg; toast_show := true |}) a in
      let a := clearTimeout (errorTimer a) a in
      let (h, a) := setTimeout HideToast 3000 a in
      set_errorTimer (Some h) a
  end.

Section WithHost.
Variable host : Host.

(** *** State machine *)

Definition screenOf (newState : State) : list Screen :=
  match newState with
  | CAMERA => [s_camera]
  | ANALYZING => [s_analyzing]
  | RESULT => [s_result]
  | SETTINGS => [s_settings]
  | HD_CAMERA => []
  | HD_ANALYZING => [s_hotdog_analyzing]
  | HD_RESULT => [s_hotdog_result]
  end.

Definition setState (newState : State) (a : App) : App :=
  let a := set_state newState a in
  let a :=
    if negb (State_eqb newState ANALYZING) && negb (State_eqb newState HD_ANALYZING)
    then set_llmTimer None (clearTimeout (llmTimer a) a)
    else a in
  let a := set_screens [] a in
  let a := set_hdOverlayHidden true a in
  let a :=
    if negb (State_eqb newState HD_RESULT) && borderApi host
    then set_borderColor "#000000" a else a in
  let a := set_screens (screenOf newState) a in
  match newState with
  | HD_CAMERA => set_hdOverlayHidden false a
  | _ => a
  end.

Definition beginRequest (now rnd : nat) (prompt imageBase64 : string) (a : App) : App :=
  let mode := if State_eqb (state a) HD_ANALYZING then hotdogMode else standard in
  set_activeRequest (Some {|
    id := (now, rnd);
    mode := mode;
    startedAt := now;
    promptLen := if is_empty prompt then 0 else String.length prompt;
    imageLen := if is_empty imageBase64 then 0 else String.length imageBase64;
    voiceToggle := voice (settings a);
    wantsR1Response := false;
  |}) a.

Definition endRequest (a : App) : App := set_activeRequest None a.

(** *** Display *)

Definition showResultPage (page : nat) (a : App) : App :=
  let a := set_resultPage page a in
  let a := set_descPageActive (page =? 1) a in
  set_factPageActive (page =? 2) a.

Definition showResult (parsed : jsvalue) (a : App) : App :=
  let name := get parsed "name" <|> VString "Unknown" in
  let category := get parsed "category" <|> VString "" in
  let desc := get parsed "description" <|> VString "" in
  let fact := get parsed "fun_fact" <|> VString "" in
  let a := set_resultView {|
    result_category := toStr category;
    result_name := toStr name;
    result_description := toStr desc;
    result_fact := toStr fact;
    category_display := if truthy category then "inline-block" else "none";
  |} a in
  let a := set_resultPage 1 a in
  let a := showResultPage 1 a in
  setState RESULT a.

(** [parsed.result] is a string at the one call of this function, so
    [toStr] stands for nothing but the string itself. *)
Definition showHotdogResult (parsed : jsvalue) (a : App) : App :=
  let isHotDog :=
    includes (toUpperCase (toStr (get parsed "result" <|> VString ""))) "HOT DOG"
    && negb (includes (toUpperCase (toStr (get parsed "result" <|> VString "")))
               "NOT HOT DOG") in
  let a := set_hotdogView {|
    hd_icon := if isHotDog then "🌭" else "🚫";
    hd_verdict := if isHotDog then "HOT DOG" else "NOT HOT DOG";
    hd_reason := toStr (get parsed "reason" <|> VString "");
  |} a in
  let a := if borderApi host
           then set_borderColor (if isHotDog then "#22c55e" else "#ef4444") a
           else a in
  setState HD_RESULT a.

Context {E : JSON.Engine}.

(** *** The inbound message *)

(** The [const]s at the head of [handleLLMResponse]. *)
Definition parsedDataOf (data : jsvalue) : jsvalue :=
  if truthy data && String.eqb (typeof data) "object" && hasOwn data "parsedData"
  then get data "parsedData" else VNull.

Definition structuredOf (data : jsvalue) : jsvalue :=
  if negb (is_nullish (parsedDataOf data)) then extractResultPayload (parsedDataOf data) 0
  else extractResultPayload data 0.

Definition fallbackTextOf (data : jsvalue) : string :=
  let t := extractPlainText
             (if negb (is_nullish (parsedDataOf data)) then parsedDataOf data else data) 0 in
  if negb (is_empty t) then t else extractPlainText data 0.

Definition waitingForResponse (a : App) : bool :=
  State_eqb (state a) ANALYZING || State_eqb (state a) HD_ANALYZING.

Definition isHotdogFlow (a : App) : bool :=
  State_eqb (state a) HD_ANALYZING ||
  match activeRequest a with
  | Some r => match mode r with hotdogMode => true | standard => false end
  | None => false
  end.

Definition hotdogFromText (fallbackText : string) : jsvalue :=
  let upper := toUpperCase fallbackText in
  VObject [("result", VString (if includes upper "NOT HOT DOG"
                               then "NOT HOT DOG" else "HOT DOG"));
           ("reason", VString (if String.length fallbackText <=? 200
                               then fallbackText else "Unable to classify."))].

Definition handleLLMResponse (data : jsvalue) (a : App) : App :=
  if negb (waitingForResponse a)
     && match activeRequest a with None => true | Some _ => false end
  then a
  else
  let parsed := structuredOf data in
  let fallbackText := fallbackTextOf data in
  let isHotdogFlow := isHotdogFlow a in
  let parsed :=
    if negb (truthy parsed) && isHotdogFlow then
      if includes (toUpperCase fallbackText) "HOT DOG"
      then hotdogFromText fallbackText
      else parsed
    else parsed in
  let parsed :=
    if negb (truthy parsed) && negb isHotdogFlow
    then buildFallbackStandardPayload (getAnyTextFallback data fallbackText)
    else parsed in
  let emergencyText := getAnyTextFallback data fallbackText in
  if negb (truthy parsed) && negb (negb isHotdogFlow && negb (is_empty emergencyText))
  then a
  else
  let parsed := if negb (truthy parsed) then unknownPayload emergencyText else parsed in
  let a := set_llmTimer None (clearTimeout (llmTimer a) a) in
  let parsed :=
    if negb isHotdogFlow && negb (String.eqb (typeof (get parsed "result")) "string")
    then normalizeStandardPayload parsed
         <|> buildFallbackStandardPayload (getAnyTextFallback data fallbackText)
    else parsed in
  if negb (truthy parsed) then
    let a := endRequest a in
    let a := showError "Could not read response — try again" a in
    setState CAMERA a
  else if isHotdogFlow then
    let parsed :=
      if negb (String.eqb (typeof (get parsed "result")) "string") then
        let maybeText := getAnyTextFallback data fallbackText in
        VObject [("result", VString (if includes (toUpperCase maybeText) "NOT HOT DOG"
                                     then "NOT HOT DOG" else "HOT DOG"));
                 ("reason", VString (if negb (is_empty maybeText) then maybeText
                                     else "Unable to classify."))]
      else parsed in
    let a := endRequest a in
    showHotdogResult parsed a
  else
    let a := endRequest a in
    showResult parsed a.

(** *** The request *)

Definition requestPayload (imageBase64 prompt : string) : jsvalue :=
  VObject ([("message", VString prompt); ("useLLM", VBool true);
            ("wantsR1Response", VBool false); ("wantsJournalEntry", VBool false)]
           ++ (if is_empty imageBase64 then [] else [("imageBase64", VString imageBase64)])
           ++ (if is_empty (detectedPluginId host) then []
               else [("pluginId", VString (detectedPluginId host))])).

(** [post] is what [PluginMessageHandler.postMessage] does with the
    message when the host defines it. *)
Definition sendToLLM (now rnd : nat) (post : PostOutcome) (imageBase64 prompt : string)
    (a : App) : App :=
  let a := beginRequest now rnd prompt imageBase64 a in
  if negb (transport host) then
    snd (setTimeout MockResponse 1800 a)
  else
    match post with
    | Threw _ =>
        let a := endRequest a in
        let a := showError "Request failed — try again" a in
        setState (if State_eqb (state a) HD_ANALYZING then HD_CAMERA else CAMERA) a
    | Delivered =>
        let a :=
          match JSON.stringify (requestPayload imageBase64 prompt) with
          | Some text => set_outbox (outbox a ++ [text]) a
          | None => a
          end in
        let a := clearTimeout (llmTimer a) a in
        let (h, a) := setTimeout Watchdog RESPONSE_TIMEOUT_MS a in
        set_llmTimer (Some h) a
    end.

(** The timer of [sendToLLM] fires. *)
Definition watchdog (a : App) : App :=
  if State_eqb (state a) ANALYZING || State_eqb (state a) HD_ANALYZING
  then showError "Still waiting for response…" a
  else a.

(** *** Capture *)

(** [frame] is what [captureFrame] returns: [None] while the video has no
    decoded size, a data URL otherwise. *)
Definition doCapture (now rnd : nat) (frame : option string) (post : PostOutcome)
    (a : App) : App :=
  let isHotdog := State_eqb (state a) HD_CAMERA in
  let nextState := if isHotdog then HD_ANALYZING else ANALYZING in
  let a := setState nextState a in
  match frame with
  | Some imageBase64 =>
      if is_empty imageBase64 then
        let a := showError "Camera not ready — try again" a in
        setState (if isHotdog then HD_CAMERA else CAMERA) a
      else
        sendToLLM now rnd post imageBase64
          (if isHotdog then PROMPT_HOTDOG host else PROMPT_STANDARD host) a
  | None =>
      let a := showError "Camera not ready — try again" a in
      setState (if isHotdog then HD_CAMERA else CAMERA) a
  end.

(** *** Hardware and page events *)

Definition returnToCamera (a : App) : App :=
  setState (if hotdog (settings a) then HD_CAMERA else CAMERA) a.

Definition closeSettings (a : App) : App :=
  setState (if hotdog (settings a) then HD_CAMERA else CAMERA) a.

Definition onSideClick (now rnd : nat) (frame : option string) (post : PostOutcome)
    (a : App) : App :=
  match state a with
  | CAMERA | HD_CAMERA => doCapture now rnd frame post a
  | RESULT => returnToCamera a
  | HD_RESULT => setState HD_CAMERA a
  | SETTINGS => closeSettings a
  | _ => a
  end.

Definition onLongPress (a : App) : App :=
  match state a with
  | RESULT | HD_RESULT => returnToCamera a
  | SETTINGS => closeSettings a
  | _ => a
  end.

Definition onScrollUp (a : App) : App :=
  match state a with
  | RESULT => if resultPage a =? 2 then showResultPage 1 a else a
  | _ => a
  end.

Definition onScrollDown (a : App) : App :=
  match state a with
  | RESULT =>
      if resultPage a =? 1 then showResultPage 2 a
      else if resultPage a =? 2 then returnToCamera a
      else a
  | _ => a
  end.

(** *** Storage *)

Definition STORAGE_KEY : string := "sleuth_v1_settings".

Definition settingsJSON (s : Settings) : jsvalue :=
  VObject [("voice", VBool (voice s)); ("hotdog", VBool (hotdog s))].

(** The [try] block of [loadSettings]: the settings it leaves. *)
Definition readSettings (a : App) : Settings :=
  match store a with
  | None => settings a
  | Some plain =>
      match plain STORAGE_KEY with
      | None => settings a
      | Some raw =>
          if is_empty raw then settings a
          else match Base64.atob raw with
          | None => settings a
          | Some text =>
              match JSON.parse text with
              | None => settings a
              | Some saved =>
                  if is_nullish saved then settings a
                  else {| voice := truthy (get saved "voice");
                          hotdog := truthy (get saved "hotdog") |}
              end
          end
      end
  end.

Definition loadSettings (a : App) : App :=
  let a := set_settings (readSettings a) a in
  let a := set_toggleVoice (voice (settings a)) a in
  let a := set_toggleHotdog (hotdog (settings a)) a in
  if hotdog (settings a) then set_hotdogRowHidden false a else a.

Definition saveSettings (a : App) : App :=
  match store a with
  | None => a
  | Some plain =>
      match JSON.stringify (settingsJSON (settings a)) with
      | Some text =>
          let payload := Base64.btoa text in
          set_store (Some (fun k => if String.eqb k STORAGE_KEY then Some payload
                                    else plain k)) a
      | None => a
      end
  end.

(** *** Buttons *)

Definition onToggleVoice (a : App) : App :=
  let a := set_settings {| voice := negb (voice (settings a));
                           hotdog := hotdog (settings a) |} a in
  let a := set_toggleVoice (voice (settings a)) a in
  saveSettings a.

Definition onToggleHotdog (a : App) : App :=
  let a := set_settings {| voice := voice (settings a);
                           hotdog := negb (hotdog (settings a)) |} a in
  let a := set_toggleHotdog (hotdog (settings a)) a in
  saveSettings a.

Definition onCredit (a : App) : App :=
  let a := set_creditClicks (S (creditClicks a)) a in
  if 3 <=? creditClicks a then
    let a := set_creditClicks 0 a in
    let a := set_hotdogRowHidden false a in
    let a := set_creditColor "#f59e0b" a in
    snd (setTimeout CreditColorReset 600 a)
  else a.

Definition addErrorToast (a : App) : App :=
  set_toast (Some {| toast_text := ""; toast_show := false |}) a.

(** *** A timer fires *)

Definition mockResponse (a : App) : jsvalue :=
  VObject [("data", VString (
    if State_eqb (state a) HD_ANALYZING
    then Reference.dq "{'result':'NOT HOT DOG','reason':'This is a keyboard. Not a hot dog.'}"
    else Reference.dq "{'name':'Mechanical Keyboard','category':'Technology','description':'A mechanical keyboard uses individual switches beneath each key for tactile feedback. Popular among programmers and gamers.','fun_fact':'The first computer keyboard was derived from the typewriter, which itself was invented in 1868.'}"))].

Definition run (cb : Callback) (a : App) : App :=
  match cb with
  | Watchdog => watchdog a
  | HideToast =>
      match toast a with
      | Some t => set_toast (Some {| toast_text := toast_text t; toast_show := false |}) a
      | None => a
      end
  | MockResponse => handleLLMResponse (mockResponse a) a
  | CreditColorReset => set_creditColor "" a
  end.

(** The timer with handle [h] comes due: it leaves the pending timers and
    its callback runs. A handle that is not pending does nothing. *)
Definition fire (h : nat) (a : App) : App :=
  match find (fun t => handle t =? h) (timers a) with
  | Some t => run (callback t) (clearTimeout (Some h) a)
  | None => a
  end.

End WithHost.

(** The program as its script leaves it, before [DOMContentLoaded], over
    a given store. The page's mark-up is not part of the script: its
    elements start empty, with the camera screen shown and the hot dog row
    hidden. *)
Definition fresh (plain : option (string -> option string)) : App := {|
  state := CAMERA;
  resultPage := 1;
  creditClicks := 0;
  errorTimer := None;
  llmTimer := None;
  activeRequest := None;
  settings := {| voice := false; hotdog := false |};
  screens := [s_camera];
  hdOverlayHidden := true;
  resultView := {| result_category := ""; result_name := ""; result_description := "";
                   result_fact := ""; category_display := "" |};
  descPageActive := true;
  factPageActive := false;
  hotdogView := {| hd_icon := ""; hd_verdict := ""; hd_reason := "" |};
  toast := None;
  toggleVoice := false;
  toggleHotdog := false;
  hotdogRowHidden := true;
  creditColor := "";
  borderColor := "";
  timers := [];
  nextTimer := 1;
  outbox := [];
  store := plain;
|}.

End Sleuth.

(** ** cyberdeck-ideas: the content filter ([ProfanityFilter]) *)

Module RegExp.

(** The part of the pattern language the filter uses: literal characters,
    classes of literal characters, the word boundary, and the quantifiers
    [?], [+], [*], [{n}], [{n,}] and [{n,m}]. *)
Inductive atom :=
| ALit (c : ascii)
| AClass (members : string)
| ABoundary.

Record piece := { what : atom; at_least : nat; at_most : option nat }.

Definition regex := list piece.

Inductive mode :=
| MTop
| MEscape
| MClass (members : string)
| MAfter (a : atom)
| MQuant (a : atom) (text : string).

Fixpoint number (s : string) (acc : nat) : option nat :=
  match s with
  | EmptyString => Some acc
  | String c r => if is_digit c then number r (acc * 10 + (code c - 48)) else None
  end.

Fixpoint before_comma (s : string) : string * option string :=
  match s with
  | EmptyString => (EmptyString, None)
  | String c r =>
      if Ascii.eqb c ","%char then (EmptyString, Some r)
      else let (a, b) := before_comma r in (String c a, b)
  end.

(** The bounds a braced quantifier gives. *)
Definition bounds (text : string) : option (nat * option nat) :=
  match before_comma text with
  | (lo, None) =>
      if is_empty lo then None
      else match number lo 0 with Some n => Some (n, Some n) | None => None end
  | (lo, Some hi) =>
      if is_empty lo then None
      else match number lo 0 with
           | None => None
           | Some n =>
               if is_empty hi then Some (n, None)
               else match number hi 0 with
                    | Some m => Some (n, Some m)
                    | None => None
                    end
           end
  end.

Definition once (a : atom) : piece := {| what := a; at_least := 1; at_most := Some 1 |}.

(** A character met where an atom may start. *)
Definition top (c : ascii) : mode :=
  if Ascii.eqb c backslash then MEscape
  else if Ascii.eqb c "["%char then MClass ""
  else MAfter (ALit c).

Definition compile_step (m : mode) (c : ascii) : option (mode * list piece) :=
  match m with
  | MTop => Some (top c, [])
  | MEscape =>
      if Ascii.eqb c "b"%char then Some (MTop, [once ABoundary])
      else if is_word c then None
      else Some (MAfter (ALit c), [])
  | MClass members =>
      if Ascii.eqb c "]"%char then Some (MAfter (AClass members), [])
      else if Ascii.eqb c backslash || Ascii.eqb c "-"%char || Ascii.eqb c "^"%char
      then None
      else Some (MClass (members ++ String c "")%string, [])
  | MAfter a =>
      if Ascii.eqb c "+"%char
      then Some (MTop, [{| what := a; at_least := 1; at_most := None |}])
      else if Ascii.eqb c "*"%char
      then Some (MTop, [{| what := a; at_least := 0; at_most := None |}])
      else if Ascii.eqb c "?"%char
      then Some (MTop, [{| what := a; at_least := 0; at_most := Some 1 |}])
      else if Ascii.eqb c "{"%char then Some (MQuant a "", [])
      else Some (top c, [once a])
  | MQuant a text =>
      if Ascii.eqb c "}"%char then
        match bounds text with
        | Some (lo, hi) => Some (MTop, [{| what := a; at_least := lo; at_most := hi |}])
        | None => None
        end
      else Some (MQuant a (text ++ String c "")%string, [])
  end.

Fixpoint compile_from (m : mode) (s : string) : option regex :=
  match s with
  | EmptyString =>
      match m with
      | MTop => Some []
      | MAfter a => Some [once a]
      | _ => None
      end
  | String c r =>
      match compile_step m c with
      | None => None
      | Some (m', ps) =>
          match compile_from m' r with
          | Some rest => Some (ps ++ rest)
          | None => None
          end
      end
  end.

(** [new RegExp(source, 'i')]; [None] where the source is outside the part
    of the language above. *)
Definition compile (source : string) : option regex := compile_from MTop source.

(** One character against an atom, ignoring case. *)
Definition accepts (a : atom) (c : ascii) : bool :=
  match a with
  | ALit d => Ascii.eqb (upper_char d) (upper_char c)
  | AClass members =>
      negb (all_chars (fun d => negb (Ascii.eqb (upper_char d) (upper_char c))) members)
  | ABoundary => false
  end.

Definition word_before (prev : option ascii) : bool :=
  match prev with Some c => is_word c | None => false end.

Definition word_after (s : string) : bool :=
  match s with String c _ => is_word c | EmptyString => false end.

Definition below (n : nat) (bound : option nat) : bool :=
  match bound with Some m => n <? m | None => true end.

(** Does the pattern match at this place; [prev] is the character before
    it. *)
Fixpoint match_here (r : regex) : option ascii -> string -> bool :=
  match r with
  | [] => fun _ _ => true
  | p :: r' =>
      let rest := match_here r' in
      match what p with
      | ABoundary => fun prev s =>
          if xorb (word_before prev) (word_after s) then rest prev s else false
      | a =>
          (fix repeat (n : nat) (prev : option ascii) (s : string) {struct s} : bool :=
             if (if at_least p <=? n then rest prev s else false) then true
             else match s with
                  | String c s' =>
                      if below n (at_most p) && accepts a c
                      then repeat (S n) (Some c) s'
                      else false
                  | EmptyString => false
                  end) 0
      end
  end.

Fixpoint search (r : regex) (prev : option ascii) (s : string) : bool :=
  if match_here r prev s then true
  else match s with
       | String c s' => search r (Some c) s'
       | EmptyString => false
       end.

(** [new RegExp(source, 'i').test(s)] *)
Definition test (source s : string) : bool :=
  match compile source with
  | Some r => search r None s
  | None => false
  end.

End RegExp.

Module ProfanityFilter.

Definition BLOCKED : list string := [
  "n[i1!|][gq6][gq6][e3a@][r7]";
  "n[i1!|][gq6]{2,}";
  "f[a@4][gq6]{1,2}[o0][t7]";
  "f[a@4][gq6]{1,2}[s5]?";
  "r[e3]t[a@4]rd";
  "tr[a@4]nn[yi1]";
  "k[i1][k]+[e3]";
  "sp[i1][ckx]";
  "ch[i1]n[k]+";
  "g[o0]{2,}k";
  "w[e3]tb[a@4]ck";
  "b[e3][a@4]n[e3]r";
  "c[o0]{2,}n";
  "r[a@4]g?h[e3][a@4]d";
  "j[i1][gq6][a@4]b[o0]{2,}";
  "d[yi1]k[e3]";
  "c[u]+nt";
  "tw[a@4]t";
  "wh[o0]r[e3]";
  "sl[u]+t"
].

Definition BLOCKED_EXACT : list string := ["kys"; "stfu"; "gtfo"].

Definition bounded (p : string) : string := ("\b" ++ p ++ "\b")%string.

Definition patterns : list string := map bounded BLOCKED.
Definition exactPatterns : list string := map bounded BLOCKED_EXACT.

(** [.replace(/[\s_\-.*]+/g, '')] *)
Fixpoint remove_spacers (s : string) : string :=
  match s with
  | EmptyString => EmptyString
  | String c r =>
      if is_space c || Ascii.eqb c "_"%char || Ascii.eqb c "-"%char
         || Ascii.eqb c "."%char || Ascii.eqb c "*"%char
      then remove_spacers r
      else String c (remove_spacers r)
  end.

(** [.replace(/x/g, 'y')] for single characters. *)
Definition replace_char (x y : ascii) : string -> string :=
  map_chars (fun c => if Ascii.eqb c x then y else c).

Definition normalize (text : string) : string :=
  replace_char "|" "l" (replace_char "!" "i" (replace_char "$" "s"
  (replace_char "@" "a" (replace_char "7" "t" (replace_char "5" "s"
  (replace_char "4" "a" (replace_char "3" "e" (replace_char "1" "i"
  (replace_char "0" "o" (remove_spacers text)))))))))).

(** [.replace(/\[.*?\]/g, m => m[1])]: a bracketed class becomes the first
    character after its bracket. *)
Fixpoint first_of_class (s : string) (inside : bool) : string :=
  match s with
  | EmptyString => EmptyString
  | String c r =>
      if inside then
        if Ascii.eqb c "]"%char then first_of_class r false else first_of_class r true
      else if Ascii.eqb c "["%char then
        match r with
        | String d r' =>
            if all_chars (fun e => negb (Ascii.eqb e "]"%char)) r
            then String c (first_of_class r false)
            else String d (first_of_class r true)
        | EmptyString => String c EmptyString
        end
      else String c (first_of_class r false)
  end.

(** [.replace(/\{.*?\}/g, '+')] *)
Fixpoint braces_to_plus (s : string) (inside : bool) : string :=
  match s with
  | EmptyString => EmptyString
  | String c r =>
      if inside then
        if Ascii.eqb c "}"%char then braces_to_plus r false else braces_to_plus r true
      else if Ascii.eqb c "{"%char then
        if all_chars (fun e => negb (Ascii.eqb e "}"%char)) r
        then String c (braces_to_plus r false)
        else String "+" (braces_to_plus r true)
      else String c (braces_to_plus r false)
  end.

(** [.replace(/\?/g, '')] *)
Fixpoint drop_question (s : string) : string :=
  match s with
  | EmptyString => EmptyString
  | String c r => if Ascii.eqb c "?"%char then drop_question r else String c (drop_question r)
  end.

Definition simple (p : string) : string :=
  drop_question (braces_to_plus (first_of_class p false) false).

Definition simplePatterns : list string := map simple BLOCKED.

Record Verdict := { clean : bool; reason : option string }.

Definition offensive : Verdict :=
  {| clean := false; reason := Some "Content contains offensive language." |}.
Definition inappropriate : Verdict :=
  {| clean := false; reason := Some "Content contains inappropriate language." |}.
Definition ok : Verdict := {| clean := true; reason := None |}.

(** [None] is the [TypeError] of calling [toLowerCase] on a truthy value
    that is not a string. *)
Definition check (text : jsvalue) : option Verdict :=
  if negb (truthy text) then Some ok
  else match text with
  | VString text =>
      let raw := toLowerCase text in
      let normalized := normalize raw in
      if existsb (fun pattern => RegExp.test pattern raw) patterns then Some offensive
      else if existsb (fun pattern => RegExp.test pattern normalized) simplePatterns
      then Some offensive
      else if existsb (fun pattern => RegExp.test pattern raw) exactPatterns
      then Some inappropriate
      else Some ok
  | _ => None
  end.

Definition checkAll (title description : jsvalue) : option Verdict :=
  match check title with
  | None => None
  | Some titleCheck =>
      if negb (clean titleCheck) then Some titleCheck
      else match check description with
      | None => None
      | Some descCheck =>
          if negb (clean descCheck) then Some descCheck
          else Some ok
      end
  end.

End ProfanityFilter.

(** ** sleuth: the events the page listens to *)

Module SleuthEvents.
Import Sleuth.

(** The handlers bound by [bindHardwareEvents] and [bindUIEvents], the
    inbound channels of the message bridge, and a timer coming due. The
    [pluginMessage] and [r1Message] listeners, which may pass the event
    object itself, are left out. *)
Inductive Event :=
| SideClick (now rnd : nat) (frame : option string) (post : PostOutcome)
| LongPressEnd
| ScrollUp
| ScrollDown
| TapSettings
| TapCloseSettings
| TapBack
| TapToggleVoice
| TapToggleHotdog
| TapCredit
| PluginMessage (data : jsvalue)
| WindowMessage (data : jsvalue)
| TimerDue (h : nat).

Section WithHost.
Variable host : Host.
Context {E : JSON.Engine}.

(** [_onPluginMsg]: the handler behind every alias of the bridge. *)
Definition onPluginMsg (data : jsvalue) (a : App) : App :=
  handleLLMResponse host data a.

(** The [message] listener of [window]: [data] is [e.data]. *)
Definition onWindowMessage (data : jsvalue) (a : App) : App :=
  if truthy data && String.eqb (typeof data) "string" then
    match JSON.parse (toStr data) with
    | Some parsed => onPluginMsg parsed a
    | None => onPluginMsg (VObject [("data", data)]) a
    end
  else if truthy data then onPluginMsg data a
  else a.

Definition dispatch (e : Event) (a : App) : App :=
  match e with
  | SideClick now rnd frame post => onSideClick host now rnd frame post a
  | LongPressEnd => onLongPress host a
  | ScrollUp => onScrollUp a
  | ScrollDown => onScrollDown host a
  | TapSettings => setState host SETTINGS a
  | TapCloseSettings => closeSettings host a
  | TapBack => returnToCamera host a
  | TapToggleVoice => onToggleVoice a
  | TapToggleHotdog => onToggleHotdog a
  | TapCredit => onCredit a
  | PluginMessage data => onPluginMsg data a
  | WindowMessage data => onWindowMessage data a
  | TimerDue h => fire host h a
  end.

(** The page once [DOMContentLoaded] has run, over a given store: the
    handlers of the buttons and of the hardware are bound from here on. *)
Definition started (plain : option (string -> option string)) : App :=
  addErrorToast (loadSettings (fresh plain)).

(** What a run of events can lead to. *)
Inductive reachable (plain : option (string -> option string)) : App -> Prop :=
| reach_start : reachable plain (started plain)
| reach_step a e : reachable plain a -> reachable plain (dispatch e a).

End WithHost.
End SleuthEvents.

(** ** cyberdeck-ideas: what is checked before a request is sent *)

Module Cyberdeck.

(** [CONFIG] *)
Definition TITLE_SOFT_LIMIT : nat := 60.
Definition TITLE_HARD_LIMIT : nat := 150.
Definition TITLE_TRUNCATE : nat := 40.

(** How far a form handler gets: it stops on a message to the user, or
    goes on to the request with the values it read; [Raised] is an
    exception out of the filter. *)
Inductive Checked (A : Type) :=
| Stopped (message : string)
| Proceeds (values : A)
| Raised.
Arguments Stopped {A}.
Arguments Proceeds {A}.
Arguments Raised {A}.

(** The text a verdict's [reason] shows as; an absent reason shows as
    nothing. *)
Definition reasonText (v : ProfanityFilter.Verdict) : string :=
  match ProfanityFilter.reason v with Some r => r | None => "" end.

(** [submitFeature], up to the request: the two arguments are the values
    of the title and description fields. *)
Definition submitFeature (titleValue descValue : string) : Checked (string * string) :=
  let title := trim titleValue in
  let description := trim descValue in
  if is_empty title || (String.length title <? 3)
  then Stopped "Title must be at least 3 characters."
  else if TITLE_HARD_LIMIT <? String.length title
  then Stopped "Title too long (max 150)."
  else match ProfanityFilter.checkAll (VString title) (VString description) with
       | None => Raised
       | Some modCheck =>
           if negb (ProfanityFilter.clean modCheck) then Stopped (reasonText modCheck)
           else Proceeds (title, description)
       end.

(** [saveName], up to the request. *)
Definition saveName (nameValue : string) : Checked string :=
  let name := trim nameValue in
  if is_empty name || (String.length name <? 1)
  then Stopped "Enter a display name"
  else if 30 <? String.length name
  then Stopped "Name too long (max 30)"
  else match ProfanityFilter.check (VString name) with
       | None => Raised
       | Some modCheck =>
           if negb (ProfanityFilter.clean modCheck) then Stopped (reasonText modCheck)
           else Proceeds name
       end.

(** The [Save] action of [AdminActions.editFeature], up to the request. *)
Definition editFeature (titleValue descValue reasonValue : string)
  : Checked (string * string * string) :=
  let title := trim titleValue in
  let desc := trim descValue in
  let reason := trim reasonValue in
  if is_empty title || (String.length title <? 3)
  then Stopped "Title must be at least 3 characters"
  else match ProfanityFilter.checkAll (VString title) (VString desc) with
       | None => Raised
       | Some modCheck =>
           if negb (ProfanityFilter.clean modCheck) then Stopped (reasonText modCheck)
           else Proceeds (title, desc, reason)
       end.

(** [.replace(/c/g, text)] for a single character [c]. *)
Fixpoint replace_all (c : ascii) (text : string) (s : string) : string :=
  match s with
  | EmptyString => EmptyString
  | String d r =>
      if Ascii.eqb d c then (text ++ replace_all c text r)%string
      else String d (replace_all c text r)
  end.

(** [escapeAttr] of the admin portal, on a string. *)
Definition escapeAttr (text : string) : string :=
  replace_all ">" "&gt;"
    (replace_all "<" "&lt;"
      (replace_all "'" "&#39;"
        (replace_all dquote "&quot;" text))).

(** The class [updateCharCount] gives the counter for a title of [len]
    characters. *)
Definition charCountClass (len : nat) : string :=
  if TITLE_HARD_LIMIT <? len then "char-count over"
  else if TITLE_SOFT_LIMIT <? len then "char-count warn"
  else "char-count".

End Cyberdeck.
(** * Properties *)

(** ** Strings *)

Module StringFacts.

Lemma trimEnd_idem (s : string) : trimEnd (trimEnd s) = trimEnd s.
Proof.
  induction s as [| c r IH]; [reflexivity |].
  cbn [trimEnd]. destruct (is_space c && is_empty (trimEnd r)) eqn:Hc; [reflexivity |].
  cbn [trimEnd]. rewrite IH, Hc. reflexivity.
Qed.

Definition starts_clear (s : string) : Prop :=
  match s with
  | EmptyString => True
  | String c _ => is_space c = false
  end.

Lemma trimStart_clear (s : string) : starts_clear (trimStart s).
Proof.
  induction s as [| c r IH]; cbn; [exact I |].
  destruct (is_space c) eqn:Hc; [exact IH | exact Hc].
Qed.

Lemma trimEnd_clear (s : string) : starts_clear s -> starts_clear (trimEnd s).
Proof.
  destruct s as [| c r]; cbn; [auto |]. intros Hc. rewrite Hc. exact Hc.
Qed.

Lemma trimStart_of_clear (s : string) : starts_clear s -> trimStart s = s.
Proof.
  destruct s as [| c r]; cbn; [auto |]. intros ->. reflexivity.
Qed.

Lemma trim_idem (s : string) : trim (trim s) = trim s.
Proof.
  unfold trim.
  rewrite (trimStart_of_clear (trimEnd (trimStart s))).
  - apply trimEnd_idem.
  - apply trimEnd_clear, trimStart_clear.
Qed.

(** A string that begins and ends with characters that are not white
    space is its own [trim]. *)
Lemma trimEnd_snoc (s : string) (c : ascii) :
  is_space c = false -> trimEnd (s ++ String c "") = (s ++ String c "")%string.
Proof.
  intros Hc. induction s as [| d r IH]; cbn.
  - rewrite Hc. reflexivity.
  - rewrite IH. destruct (r ++ String c "")%string eqn:Hr.
    + destruct r; discriminate.
    + rewrite andb_false_r. reflexivity.
Qed.

Lemma startsWith_map (f : ascii -> ascii) (s p : string) :
  startsWith s p = true -> startsWith (map_chars f s) (map_chars f p) = true.
Proof.
  revert s. induction p as [| a p IH]; intros s; [reflexivity |].
  destruct s as [| b s]; cbn; [discriminate |].
  intros H. apply andb_true_iff in H. destruct H as [Hab H].
  apply Ascii.eqb_eq in Hab. subst b.
  rewrite Ascii.eqb_refl. apply IH. exact H.
Qed.

Lemma includes_map (f : ascii -> ascii) (hay needle : string) :
  includes hay needle = true -> includes (map_chars f hay) (map_chars f needle) = true.
Proof.
  induction hay as [| c r IH]; cbn [includes map_chars].
  - rewrite !orb_false_r. apply (startsWith_map f "").
  - intros H. apply orb_true_iff in H. destruct H as [H | H].
    + apply (startsWith_map f) in H. cbn [map_chars] in H. rewrite H. reflexivity.
    + rewrite (IH H). apply orb_true_r.
Qed.

Lemma startsWith_app (p q s : string) :
  startsWith s (p ++ q) = true -> exists t, s = (p ++ t)%string /\ startsWith t q = true.
Proof.
  revert s. induction p as [| a p IH]; intros s; cbn.
  - intros H. exists s. auto.
  - destruct s as [| b s]; [discriminate |].
    intros H. apply andb_true_iff in H. destruct H as [Hab H].
    apply Ascii.eqb_eq in Hab. subst b.
    destruct (IH _ H) as (t & -> & Ht). exists t. auto.
Qed.

(** A needle found after some characters is found. *)
Lemma includes_skip (p hay needle : string) :
  includes hay needle = true -> includes (p ++ hay) needle = true.
Proof.
  intros H. induction p as [| a p IH]; [exact H |].
  cbn [append includes]. rewrite IH. apply orb_true_r.
Qed.

Lemma includes_suffix (hay p q : string) :
  includes hay (p ++ q) = true -> includes hay q = true.
Proof.
  induction hay as [| c r IH]; intros H; cbn [includes] in H.
  - rewrite orb_false_r in H. destruct (startsWith_app _ _ _ H) as (t & Ht & Hq).
    destruct p; [| discriminate]. cbn in Ht. subst t.
    cbn [includes]. rewrite Hq. reflexivity.
  - apply orb_true_iff in H. destruct H as [H | H].
    + destruct (startsWith_app _ _ _ H) as (t & Ht & Hq). rewrite Ht.
      apply includes_skip. destruct t; cbn [includes]; rewrite Hq; reflexivity.
    + cbn [includes]. rewrite (IH H). apply orb_true_r.
Qed.

Lemma includes_nonempty (hay : string) (c : ascii) (needle : string) :
  includes hay (String c needle) = true -> is_empty hay = false.
Proof.
  destruct hay; [discriminate | reflexivity].
Qed.

End StringFacts.
Module NormaliserFacts.
Import Sleuth.

#[local] Arguments tryParseJSON : simpl never.
#[local] Arguments isResultPayload : simpl never.
#[local] Arguments hasOwn : simpl never.
#[local] Arguments get : simpl never.
#[local] Arguments extractResultPayload : simpl never.
#[local] Arguments extractPlainText : simpl never.

Lemma extractPlainText_eq (value : jsvalue) (depth : nat) :
  extractPlainText value depth =
  extractPlainText_body (fun v => extractPlainText v (depth + 1)) value depth.
Proof.
  unfold extractPlainText.
  destruct (Nat.leb_spec depth 5) as [Hle | Hgt].
  - replace (7 - depth) with (S (7 - (depth + 1))) by lia. reflexivity.
  - assert (Hcut : (5 <? depth) = true) by (apply Nat.ltb_lt; lia).
    transitivity "".
    + destruct (7 - depth) as [| fuel]; [reflexivity |].
      cbn [extractPlainText_fuel]. unfold extractPlainText_body. rewrite Hcut. reflexivity.
    + unfold extractPlainText_body. rewrite Hcut. reflexivity.
Qed.

Lemma first_nonempty_trimmed {A : Type} (f : A -> string) (l : list A) :
  (forall x, trim (f x) = f x) -> trim (first_nonempty f l) = first_nonempty f l.
Proof.
  intros Hf. induction l as [| x l IH]; cbn; [reflexivity |].
  destruct (is_empty (f x)); [exact IH | apply Hf].
Qed.

Lemma extractPlainText_fuel_trimmed (fuel : nat) :
  forall value depth,
    trim (extractPlainText_fuel fuel value depth) = extractPlainText_fuel fuel value depth.
Proof.
  induction fuel as [| fuel IH]; intros value depth; [reflexivity |].
  cbn [extractPlainText_fuel]. unfold extractPlainText_body.
  destruct ((5 <? depth) || is_nullish value); [reflexivity |].
  destruct value as [ | | b | nz shown | s | items | ps]; try reflexivity.
  - apply StringFacts.trim_idem.
  - apply first_nonempty_trimmed. intros x. apply IH.
  - cbv zeta.
    repeat match goal with
           | |- context [if negb (is_empty ?t) then _ else _] =>
               destruct (negb (is_empty t))
           end;
      apply first_nonempty_trimmed; intros key.
    + destruct (get (VObject ps) key); try reflexivity. apply StringFacts.trim_idem.
    + destruct (negb (is_nullish (get (VObject ps) key))
                && String.eqb (typeof (get (VObject ps) key)) "object");
        [apply IH | reflexivity].
    + apply IH.
Qed.

Lemma extractPlainText_trimmed (value : jsvalue) (depth : nat) :
  trim (extractPlainText value depth) = extractPlainText value depth.
Proof. apply extractPlainText_fuel_trimmed. Qed.

Section WithEngine.
Context {E : JSON.Engine}.

Lemma extractResultPayload_eq (value : jsvalue) (depth : nat) :
  extractResultPayload value depth =
  extractResultPayload_body (fun v => extractResultPayload v (depth + 1)) value depth.
Proof.
  unfold extractResultPayload.
  destruct (Nat.leb_spec depth 5) as [Hle | Hgt].
  - replace (7 - depth) with (S (7 - (depth + 1))) by lia. reflexivity.
  - assert (Hcut : (5 <? depth) = true) by (apply Nat.ltb_lt; lia).
    transitivity VNull.
    + destruct (7 - depth) as [| fuel]; [reflexivity |].
      cbn [extractResultPayload_fuel]. unfold extractResultPayload_body. rewrite Hcut. reflexivity.
    + unfold extractResultPayload_body. rewrite Hcut. reflexivity.
Qed.

(** [value] holds [p] under [d] wrappers: each wrapper is a wrapper key of
    an object, a place in an array, or a string of JSON text. *)
Inductive nested : jsvalue -> nat -> jsvalue -> Prop :=
| nested_here v : nested v 0 v
| nested_key ps key d p :
    In key wrapperKeys -> hasOwn (VObject ps) key = true ->
    nested (get (VObject ps) key) d p -> nested (VObject ps) (S d) p
| nested_item items item d p :
    In item items -> nested item d p -> nested (VArray items) (S d) p
| nested_text s d p :
    nested (tryParseJSON (VString s)) d p -> nested (VString s) (S d) p.

Lemma isResultPayload_object (v : jsvalue) :
  isResultPayload v = true -> exists ps, v = VObject ps.
Proof.
  intros H.
  destruct v as [ | | [] | [] ? | [] | | ps]; unfold isResultPayload in H; cbn in H;
    try discriminate.
  exists ps. reflexivity.
Qed.

Lemma first_truthy_found {A : Type} (f : A -> jsvalue) (l : list A) (x : A) :
  In x l -> truthy (f x) = true -> truthy (first_truthy f l) = true.
Proof.
  induction l as [| y l IH]; simpl; [tauto |].
  intros [-> | Hin] Hx.
  - rewrite Hx. exact Hx.
  - destruct (truthy (f y)) eqn:Hy; auto.
Qed.

Lemma first_truthy_inv {A : Type} (f : A -> jsvalue) (l : list A) :
  truthy (first_truthy f l) = true ->
  exists x, In x l /\ first_truthy f l = f x.
Proof.
  induction l as [| y l IH]; simpl; [discriminate |].
  destruct (truthy (f y)) eqn:Hy.
  - intros _. exists y. auto.
  - intros H. destruct (IH H) as (x & Hin & Heq). exists x. auto.
Qed.

Lemma first_truthy_null {A : Type} (f : A -> jsvalue) (l : list A) :
  (forall x, truthy (f x) = false -> f x = VNull) ->
  truthy (first_truthy f l) = false -> first_truthy f l = VNull.
Proof.
  intros Hf. induction l as [| y l IH]; simpl; [reflexivity |].
  destruct (truthy (f y)) eqn:Hy; [congruence | exact IH].
Qed.

#[local] Arguments first_truthy : simpl never.
#[local] Arguments first_nonempty : simpl never.

Lemma cut_false (depth d : nat) : d + depth <= 5 -> (5 <? depth) = false.
Proof. intros. apply Nat.ltb_ge. lia. Qed.

Lemma extract_fuel_sound (fuel : nat) :
  forall value depth,
    truthy (extractResultPayload_fuel fuel value depth) = true ->
    isResultPayload (extractResultPayload_fuel fuel value depth) = true /\
    exists d, d + depth <= 5 /\
              nested value d (extractResultPayload_fuel fuel value depth).
Proof.
  induction fuel as [| fuel IH]; intros value depth; [discriminate |].
  cbn [extractResultPayload_fuel]. unfold extractResultPayload_body.
  destruct (5 <? depth) eqn:Hcut; [discriminate |].
  apply Nat.ltb_ge in Hcut.
  destruct value as [ | | b | nz shown | s | items | ps]; cbn; try discriminate.
  - destruct (truthy (tryParseJSON (VString s))); [| cbn; discriminate].
    intros H. destruct (IH _ _ H) as (Hp & d & Hd & Hn).
    split; [exact Hp |]. exists (S d). split; [lia |].
    apply nested_text. exact Hn.
  - intros H. destruct (first_truthy_inv _ _ H) as (item & Hin & Heq).
    rewrite Heq in *. destruct (IH _ _ H) as (Hp & d & Hd & Hn).
    split; [exact Hp |]. exists (S d). split; [lia |].
    eapply nested_item; eauto.
  - destruct (isResultPayload (VObject ps)) eqn:Hpay.
    + intros _. split; [exact Hpay |]. exists 0. split; [lia | constructor].
    + intros H. destruct (first_truthy_inv _ _ H) as (key & Hin & Heq).
      rewrite Heq in *. clear Heq.
      destruct (hasOwn (VObject ps) key) eqn:Hown; [| cbn in H; discriminate].
      destruct (IH _ _ H) as (Hp & d & Hd & Hn).
      split; [exact Hp |]. exists (S d). split; [lia |].
      eapply nested_key; eauto.
Qed.

Lemma extract_fuel_null (fuel : nat) :
  forall value depth,
    truthy (extractResultPayload_fuel fuel value depth) = false ->
    extractResultPayload_fuel fuel value depth = VNull.
Proof.
  induction fuel as [| fuel IH]; intros value depth; [reflexivity |].
  cbn [extractResultPayload_fuel]. unfold extractResultPayload_body.
  destruct (5 <? depth); [reflexivity |].
  destruct value as [ | | b | nz shown | s | items | ps]; cbn; try reflexivity.
  - destruct (truthy (tryParseJSON (VString s))); [apply IH | reflexivity].
  - apply first_truthy_null. intros x. apply IH.
  - destruct (isResultPayload (VObject ps)); [discriminate |].
    apply first_truthy_null. intros key.
    destruct (hasOwn (VObject ps) key); [apply IH | reflexivity].
Qed.

Lemma nested_truthy (v : jsvalue) (d : nat) (p : jsvalue) :
  nested v d p -> isResultPayload p = true -> truthy v = true.
Proof.
  intros Hn Hp. destruct Hn as [v | | | s d p Hn]; try reflexivity.
  - destruct (isResultPayload_object _ Hp) as (ps & ->). reflexivity.
  - destruct s as [| c s]; [| reflexivity].
    assert (Hnull : tryParseJSON (VString "") = VNull) by reflexivity.
    rewrite Hnull in Hn. inversion Hn; subst. discriminate.
Qed.

Lemma extract_complete (v : jsvalue) (d : nat) (p : jsvalue) :
  nested v d p -> isResultPayload p = true ->
  forall depth, d + depth <= 5 -> truthy (extractResultPayload v depth) = true.
Proof.
  intros Hn Hp. induction Hn as [v | ps key d p Hk Hown Hn IH | items item d p Hin Hn IH
                                | s d p Hn IH]; intros depth Hd;
    rewrite extractResultPayload_eq; unfold extractResultPayload_body;
    rewrite (cut_false _ _ Hd).
  - destruct (isResultPayload_object _ Hp) as (ps & ->). cbn.
    rewrite Hp. reflexivity.
  - cbn. destruct (isResultPayload (VObject ps)); [reflexivity |].
    apply first_truthy_found with (x := key); [exact Hk |].
    rewrite Hown. apply IH; [exact Hp | lia].
  - cbn. apply first_truthy_found with (x := item); [exact Hin |].
    apply IH; [exact Hp | lia].
  - cbn. rewrite (nested_truthy _ _ _ Hn Hp). apply IH; [exact Hp | lia].
Qed.


End WithEngine.
End NormaliserFacts.
Module TextFacts.
Import Sleuth NormaliserFacts.

#[local] Arguments tryParseJSON : simpl never.
#[local] Arguments extractResultPayload : simpl never.
#[local] Arguments extractPlainText : simpl never.
#[local] Arguments isResultPayload : simpl never.

(** A text of three characters or more that does not begin with white
    space: not empty, not [{}], not [[]], and not blank. *)
Definition loud (c : string) : Prop :=
  match c with
  | String c0 (String _ (String _ _)) => is_space c0 = false
  | _ => False
  end.

Lemma loud_trim (c : string) : loud c -> is_empty (trim c) = false.
Proof.
  destruct c as [| c0 r]; cbn; [tauto |].
  destruct r as [| c1 [| c2 r]]; try tauto.
  intros Hc. unfold trim. cbn [trimStart]. rewrite Hc. cbn [trimEnd].
  rewrite Hc. reflexivity.
Qed.

Lemma loud_not_braces (c : string) :
  loud c -> is_empty c = false /\ String.eqb c "{}" = false /\ String.eqb c "[]" = false.
Proof.
  destruct c as [| c0 [| c1 [| c2 r]]]; cbn [loud]; try tauto.
  intros _. repeat split; apply String.eqb_neq; discriminate.
Qed.

Lemma loud_fallback (data : jsvalue) (preferred c : string) :
  JSON.stringify data = Some c -> loud c ->
  is_empty (trim (getAnyTextFallback data preferred)) = false.
Proof.
  intros Hjson Hloud. unfold getAnyTextFallback.
  destruct (negb (is_empty preferred) && negb (is_empty (trim preferred))) eqn:Hp.
  - rewrite StringFacts.trim_idem. apply andb_true_iff in Hp.
    destruct Hp as [_ Hp]. apply negb_true_iff in Hp. exact Hp.
  - destruct (String.eqb (typeof data) "string" && negb (is_empty (trim (toStr data))))
      eqn:Hd.
    + rewrite StringFacts.trim_idem. apply andb_true_iff in Hd.
      destruct Hd as [_ Hd]. apply negb_true_iff in Hd. exact Hd.
    + rewrite Hjson. destruct (loud_not_braces _ Hloud) as (-> & -> & ->).
      cbn [negb andb]. apply loud_trim, Hloud.
Qed.

Lemma lookup_In (ps : props) (k : string) (x : jsvalue) :
  lookup ps k = Some x -> In (k, x) ps.
Proof.
  induction ps as [| [k' y] ps IH]; cbn; [discriminate |].
  destruct (String.eqb k' k) eqn:Hk.
  - apply String.eqb_eq in Hk. intros [= ->]. subst. auto.
  - auto.
Qed.

Lemma stringify_defined (x : jsvalue) :
  x <> VUndefined -> exists t, JSON.stringify x = Some t.
Proof.
  destruct x as [ | | [] | | | | ]; cbn; try congruence; eauto.
Qed.

Lemma append_filled_l (s t : string) : is_empty s = false -> is_empty (s ++ t) = false.
Proof. destruct s; [discriminate | reflexivity]. Qed.

Lemma append_filled_r (s t : string) : is_empty t = false -> is_empty (s ++ t) = false.
Proof. destruct s; [auto | reflexivity]. Qed.

Lemma join_filled (sep : string) (l : list string) (x : string) :
  In x l -> is_empty x = false -> is_empty (join sep l) = false.
Proof.
  intros Hin Hx. induction l as [| y l IH]; [destruct Hin |].
  cbn [join]. destruct l as [| z l].
  - destruct Hin as [-> | []]. exact Hx.
  - destruct Hin as [-> | Hin].
    + apply append_filled_l, Hx.
    + apply append_filled_r, append_filled_r, IH, Hin.
Qed.

Lemma braced_loud (o c : ascii) (m : string) :
  is_space o = false -> is_empty m = false ->
  loud (String o (m ++ String c "")).
Proof.
  intros Ho Hm. destruct m as [| c1 m]; [discriminate |].
  cbn. destruct m; exact Ho.
Qed.

Definition member (kv : string * jsvalue) : list string :=
  match JSON.stringify (snd kv) with
  | Some t => [(JSON.quote (fst kv) ++ ":" ++ t)%string]
  | None => []
  end.

Lemma stringify_object (ps : props) :
  JSON.stringify (VObject ps)
  = Some (String "{" (join "," (flat_map member ps) ++ "}"))%string.
Proof. reflexivity. Qed.

Lemma stringify_array (items : list jsvalue) :
  JSON.stringify (VArray items)
  = Some (String "[" (join ","
            (map (fun x => match JSON.stringify x with Some t => t | None => "null" end)
                 items) ++ "]"))%string.
Proof. reflexivity. Qed.

Lemma object_loud (ps : props) (k : string) (x : jsvalue) :
  In (k, x) ps -> x <> VUndefined ->
  exists c, JSON.stringify (VObject ps) = Some c /\ loud c.
Proof.
  intros Hin Hx. rewrite stringify_object. eexists. split; [reflexivity |].
  apply braced_loud; [reflexivity |].
  destruct (stringify_defined _ Hx) as (t & Ht).
  apply join_filled with (x := (JSON.quote k ++ ":" ++ t)%string); [| reflexivity].
  apply in_flat_map. exists (k, x). split; [exact Hin |].
  unfold member. cbn [fst snd]. rewrite Ht. left. reflexivity.
Qed.

Lemma array_loud (items : list jsvalue) (item : jsvalue) (t : string) :
  In item items -> JSON.stringify item = Some t -> is_empty t = false ->
  exists c, JSON.stringify (VArray items) = Some c /\ loud c.
Proof.
  intros Hin Ht Hne. rewrite stringify_array. eexists. split; [reflexivity |].
  apply braced_loud; [reflexivity |].
  apply join_filled with (x := t); [| exact Hne].
  apply in_map_iff. exists item. rewrite Ht. auto.
Qed.

Lemma quote_char_filled (c : ascii) : is_empty (JSON.quote_char c) = false.
Proof.
  unfold JSON.quote_char. cbv zeta.
  repeat match goal with |- context [if ?b then _ else _] => destruct b end; reflexivity.
Qed.

Lemma quote_body_filled (s : string) : is_empty (JSON.quote_body s) = false.
Proof.
  destruct s; cbn; [reflexivity |]. apply append_filled_l, quote_char_filled.
Qed.

Lemma string_loud (s : string) : is_empty s = false -> loud (JSON.quote s).
Proof.
  destruct s as [| c s]; [discriminate |]. intros _.
  unfold JSON.quote. cbn [JSON.quote_body].
  pose proof (quote_char_filled c) as Hc. pose proof (quote_body_filled s) as Hs.
  destruct (JSON.quote_char c) as [| c1 q]; [discriminate |].
  cbn. destruct q; cbn.
  - destruct (JSON.quote_body s); [discriminate | reflexivity].
  - reflexivity.
Qed.

Section WithEngine.
Context {E : JSON.Engine}.

Lemma nested_undefined (d : nat) (r : jsvalue) :
  nested VUndefined d r -> isResultPayload r = true -> False.
Proof. intros Hn Hr. inversion Hn; subst. discriminate. Qed.

Lemma payload_field (ps : props) :
  isResultPayload (VObject ps) = true -> exists k x, In (k, x) ps /\ x <> VUndefined.
Proof.
  unfold isResultPayload. cbn [truthy typeof andb].
  change (String.eqb "object" "object") with true. cbn [andb].
  intros H.
  repeat (apply orb_true_iff in H; destruct H as [H | H]);
    match type of H with
    | String.eqb (typeof (get (VObject ps) ?k)) "string" = true =>
        unfold get in H; destruct (lookup ps k) as [x |] eqn:Hk;
        [ exists k, x; split; [apply lookup_In, Hk | intros ->; discriminate]
        | discriminate ]
    end.
Qed.

Lemma nested_loud (v : jsvalue) (d : nat) (r : jsvalue) :
  nested v d r -> isResultPayload r = true ->
  exists c, JSON.stringify v = Some c /\ loud c.
Proof.
  intros Hn Hr. destruct Hn as [v | ps key d p Hk Hown Hn | items item d p Hin Hn
                               | s d p Hn].
  - destruct (isResultPayload_object _ Hr) as (ps & ->).
    destruct (payload_field _ Hr) as (k & x & Hin & Hx).
    eapply object_loud; eauto.
  - unfold hasOwn in Hown. unfold get in Hn.
    destruct (lookup ps key) as [x |] eqn:Hl; [| discriminate].
    apply object_loud with (k := key) (x := x); [apply lookup_In, Hl |].
    intros ->. eapply nested_undefined; eauto.
  - assert (Hitem : exists t, JSON.stringify item = Some t /\ is_empty t = false).
    { destruct Hn as [v | ps' key' d' p' _ _ _ | items' item' d' p' _ _ | s' d' p' _].
      - destruct (isResultPayload_object _ Hr) as (ps' & ->).
        rewrite stringify_object. eauto.
      - rewrite stringify_object. eauto.
      - rewrite stringify_array. eauto.
      - cbn. eauto. }
    destruct Hitem as (t & Ht & Hne). eapply array_loud; eauto.
  - exists (JSON.quote s). split; [reflexivity |]. apply string_loud.
    pose proof (nested_truthy _ _ _ (nested_text _ _ _ Hn) Hr) as Ht.
    cbn in Ht. apply negb_true_iff in Ht. exact Ht.
Qed.

Lemma structured_loud (data : jsvalue) :
  truthy (structuredOf data) = true ->
  exists c, JSON.stringify data = Some c /\ loud c.
Proof.
  unfold structuredOf.
  destruct (negb (is_nullish (parsedDataOf data))) eqn:Hpd.
  - intros _. unfold parsedDataOf in Hpd.
    destruct (truthy data && String.eqb (typeof data) "object" && hasOwn data "parsedData")
      eqn:Hc; [| discriminate].
    apply andb_true_iff in Hc. destruct Hc as [_ Hown].
    destruct data as [ | | | | | | ps]; try discriminate.
    unfold hasOwn in Hown. unfold get in Hpd.
    destruct (lookup ps "parsedData") as [x |] eqn:Hl; [| discriminate].
    apply object_loud with (k := "parsedData") (x := x); [apply lookup_In, Hl |].
    intros ->. discriminate.
  - intros H. destruct (extract_fuel_sound _ _ _ H) as (Hp & d & _ & Hn).
    eapply nested_loud; eauto.
Qed.

Lemma structured_text (data : jsvalue) (preferred : string) :
  truthy (structuredOf data) = true ->
  is_empty (trim (getAnyTextFallback data preferred)) = false.
Proof.
  intros H. destruct (structured_loud _ H) as (c & Hjson & Hloud).
  eapply loud_fallback; eauto.
Qed.

End WithEngine.
End TextFacts.
Module ResponseFacts.
Import Sleuth.

#[local] Arguments tryParseJSON : simpl never.
#[local] Arguments extractResultPayload : simpl never.
#[local] Arguments extractPlainText : simpl never.
#[local] Arguments getAnyTextFallback : simpl never.
#[local] Arguments buildFallbackStandardPayload : simpl never.
#[local] Arguments normalizeStandardPayload : simpl never.

Section WithHost.
Variable host : Host.
Context {E : JSON.Engine}.

(** What [handleLLMResponse] decides from the message, before it touches
    the page. *)
Inductive Outcome :=
| Ignored
| ParseError
| HotdogResult (parsed : jsvalue)
| StandardResult (parsed : jsvalue).

Definition outcome (data : jsvalue) (accepted hotdogFlow : bool) : Outcome :=
  if negb accepted then Ignored
  else
  let parsed := structuredOf data in
  let fallbackText := fallbackTextOf data in
  let parsed :=
    if negb (truthy parsed) && hotdogFlow then
      if includes (toUpperCase fallbackText) "HOT DOG"
      then hotdogFromText fallbackText
      else parsed
    else parsed in
  let parsed :=
    if negb (truthy parsed) && negb hotdogFlow
    then buildFallbackStandardPayload (getAnyTextFallback data fallbackText)
    else parsed in
  let emergencyText := getAnyTextFallback data fallbackText in
  if negb (truthy parsed) && negb (negb hotdogFlow && negb (is_empty emergencyText))
  then Ignored
  else
  let parsed := if negb (truthy parsed) then unknownPayload emergencyText else parsed in
  let parsed :=
    if negb hotdogFlow && negb (String.eqb (typeof (get parsed "result")) "string")
    then normalizeStandardPayload parsed
         <|> buildFallbackStandardPayload (getAnyTextFallback data fallbackText)
    else parsed in
  if negb (truthy parsed) then ParseError
  else if hotdogFlow then
    HotdogResult (
      if negb (String.eqb (typeof (get parsed "result")) "string") then
        let maybeText := getAnyTextFallback data fallbackText in
        VObject [("result", VString (if includes (toUpperCase maybeText) "NOT HOT DOG"
                                     then "NOT HOT DOG" else "HOT DOG"));
                 ("reason", VString (if negb (is_empty maybeText) then maybeText
                                     else "Unable to classify."))]
      else parsed)
  else StandardResult parsed.

Definition accepted (a : App) : bool :=
  negb (negb (waitingForResponse a)
        && match activeRequest a with None => true | Some _ => false end).

Definition settle (a : App) : App :=
  endRequest (set_llmTimer None (clearTimeout (llmTimer a) a)).

Definition commit (o : Outcome) (a : App) : App :=
  match o with
  | Ignored => a
  | ParseError =>
      setState host CAMERA (showError "Could not read response — try again" (settle a))
  | HotdogResult parsed => showHotdogResult host parsed (settle a)
  | StandardResult parsed => showResult host parsed (settle a)
  end.

Lemma handleLLMResponse_outcome (data : jsvalue) (a : App) :
  handleLLMResponse host data a = commit (outcome data (accepted a) (isHotdogFlow a)) a.
Proof.
  unfold handleLLMResponse, outcome, accepted, commit, settle.
  destruct (negb (waitingForResponse a)
            && match activeRequest a with None => true | Some _ => false end);
    [reflexivity |].
  cbv zeta. cbn [negb].
  repeat match goal with
         | |- context [if ?c then _ else _] =>
             match c with
             | context [if _ then _ else _] => fail 1
             | _ => destruct c eqn:?
             end
         end; try reflexivity; try congruence.
Qed.

(** *** What [setState] leaves alone *)

Lemma setState_state (newState : State) (a : App) :
  state (setState host newState a) = newState.
Proof.
  unfold setState. destruct newState; cbn; destruct (borderApi host);
    try reflexivity; destruct (llmTimer a); reflexivity.
Qed.

Lemma setState_activeRequest (newState : State) (a : App) :
  activeRequest (setState host newState a) = activeRequest a.
Proof.
  unfold setState. destruct newState; cbn; destruct (borderApi host);
    try reflexivity; destruct (llmTimer a); reflexivity.
Qed.

Lemma setState_hotdogView (newState : State) (a : App) :
  hotdogView (setState host newState a) = hotdogView a.
Proof.
  unfold setState. destruct newState; cbn; destruct (borderApi host);
    try reflexivity; destruct (llmTimer a); reflexivity.
Qed.

Lemma setState_resultView (newState : State) (a : App) :
  resultView (setState host newState a) = resultView a.
Proof.
  unfold setState. destruct newState; cbn; destruct (borderApi host);
    try reflexivity; destruct (llmTimer a); reflexivity.
Qed.

Lemma setState_toast (newState : State) (a : App) :
  toast (setState host newState a) = toast a.
Proof.
  unfold setState. destruct newState; cbn; destruct (borderApi host);
    try reflexivity; destruct (llmTimer a); reflexivity.
Qed.

Lemma setState_resultPage (newState : State) (a : App) :
  resultPage (setState host newState a) = resultPage a.
Proof.
  unfold setState. destruct newState; cbn; destruct (borderApi host);
    try reflexivity; destruct (llmTimer a); reflexivity.
Qed.

Lemma showHotdogResult_view (parsed : jsvalue) (a : App) :
  state (showHotdogResult host parsed a) = HD_RESULT /\
  activeRequest (showHotdogResult host parsed a) = activeRequest a /\
  hotdogView (showHotdogResult host parsed a) =
    let upper := toUpperCase (toStr (get parsed "result" <|> VString "")) in
    let isHotDog := includes upper "HOT DOG" && negb (includes upper "NOT HOT DOG") in
    {| hd_icon := if isHotDog then "🌭" else "🚫";
       hd_verdict := if isHotDog then "HOT DOG" else "NOT HOT DOG";
       hd_reason := toStr (get parsed "reason" <|> VString "") |}.
Proof.
  unfold showHotdogResult.
  rewrite setState_state, setState_activeRequest, setState_hotdogView.
  destruct (borderApi host); cbn; auto.
Qed.

Lemma showResult_view (parsed : jsvalue) (a : App) :
  state (showResult host parsed a) = RESULT /\
  activeRequest (showResult host parsed a) = activeRequest a /\
  resultPage (showResult host parsed a) = 1 /\
  resultView (showResult host parsed a) =
    {| result_category := toStr (get parsed "category" <|> VString "");
       result_name := toStr (get parsed "name" <|> VString "Unknown");
       result_description := toStr (get parsed "description" <|> VString "");
       result_fact := toStr (get parsed "fun_fact" <|> VString "");
       category_display :=
         if truthy (get parsed "category" <|> VString "") then "inline-block" else "none" |}.
Proof.
  unfold showResult.
  rewrite setState_state, setState_activeRequest, setState_resultView, setState_resultPage.
  cbn. auto.
Qed.

(** *** The hot dog text fallback *)

Lemma hotdog_accepted (a : App) : isHotdogFlow a = true -> accepted a = true.
Proof.
  unfold isHotdogFlow, accepted, waitingForResponse.
  destruct (state a), (activeRequest a); cbn; auto.
Qed.

Lemma outcome_hotdog_text (data : jsvalue) :
  truthy (structuredOf data) = false ->
  includes (toUpperCase (fallbackTextOf data)) "HOT DOG" = true ->
  outcome data true true = HotdogResult (hotdogFromText (fallbackTextOf data)).
Proof.
  intros Hs Hinc. unfold outcome. cbv zeta. rewrite Hs, Hinc. reflexivity.
Qed.

Lemma not_hot_dog_is_hot_dog (upper : string) :
  includes upper "NOT HOT DOG" = true -> includes upper "HOT DOG" = true.
Proof. apply (StringFacts.includes_suffix upper "NOT " "HOT DOG"). Qed.

Lemma hotdogFromText_view (text : string) (a : App) :
  includes (toUpperCase text) "HOT DOG" = true ->
  hotdogView (showHotdogResult host (hotdogFromText text) a) =
    {| hd_icon := if includes (toUpperCase text) "NOT HOT DOG" then "🚫" else "🌭";
       hd_verdict := if includes (toUpperCase text) "NOT HOT DOG"
                     then "NOT HOT DOG" else "HOT DOG";
       hd_reason := if String.length text <=? 200 then text else "Unable to classify." |}.
Proof.
  intros Hinc.
  destruct (showHotdogResult_view (hotdogFromText text) a) as (_ & _ & ->).
  assert (Htext : is_empty text = false).
  { destruct text; [discriminate | reflexivity]. }
  unfold hotdogFromText.
  destruct (includes (toUpperCase text) "NOT HOT DOG");
    destruct (String.length text <=? 200); cbn; try reflexivity;
    unfold or_else; cbn; rewrite Htext; reflexivity.
Qed.


(** *** The standard text fallback *)

Lemma fallbackTextOf_trimmed (data : jsvalue) :
  trim (fallbackTextOf data) = fallbackTextOf data.
Proof.
  unfold fallbackTextOf. cbv zeta.
  destruct (negb (is_empty _)); apply NormaliserFacts.extractPlainText_trimmed.
Qed.

Lemma fallbackTextOf_empty (data : jsvalue) :
  fallbackTextOf data = "" -> extractPlainText data 0 = "".
Proof.
  unfold fallbackTextOf. cbv zeta.
  destruct (extractPlainText (if negb (is_nullish (parsedDataOf data))
                              then parsedDataOf data else data) 0) eqn:Ht; cbn.
  - auto.
  - discriminate.
Qed.

Lemma extractPlainText_string (s : string) : extractPlainText (VString s) 0 = trim s.
Proof. rewrite NormaliserFacts.extractPlainText_eq. reflexivity. Qed.

Lemma quote_not_braces (s : string) : JSON.quote s <> "{}" /\ JSON.quote s <> "[]".
Proof. split; intros H; unfold JSON.quote in H; cbv in H; discriminate. Qed.

Lemma getAnyTextFallback_preferred (data : jsvalue) (text : string) :
  is_empty text = false -> trim text = text -> getAnyTextFallback data text = text.
Proof.
  intros Hne Htrim. unfold getAnyTextFallback. rewrite Htrim, Hne. reflexivity.
Qed.

Lemma getAnyTextFallback_compact (data : jsvalue) (compact : string) :
  extractPlainText data 0 = "" ->
  JSON.stringify data = Some compact ->
  getAnyTextFallback data "" =
    if negb (is_empty compact) && negb (String.eqb compact "{}")
       && negb (String.eqb compact "[]")
    then compact else "".
Proof.
  intros Hnone Hjson. unfold getAnyTextFallback. cbn [is_empty negb andb].
  destruct data; cbn [typeof toStr]; try (rewrite Hjson; reflexivity).
  rewrite extractPlainText_string in Hnone. rewrite Hnone, Hjson. reflexivity.
Qed.

Lemma normalize_unknown (text : string) :
  normalizeStandardPayload (unknownPayload text) = unknownPayload text.
Proof. destruct text; reflexivity. Qed.

Lemma outcome_standard_text (data : jsvalue) (text : string) :
  truthy (structuredOf data) = false ->
  trim (getAnyTextFallback data (fallbackTextOf data)) = text ->
  is_empty text = false ->
  truthy (normalizeStandardPayload (tryParseJSON (VString text))) = false ->
  outcome data true false = StandardResult (unknownPayload text).
Proof.
  intros Hs Htext Hne Hnorm. unfold outcome. cbv zeta.
  unfold buildFallbackStandardPayload. cbv zeta. rewrite Htext, Hne, Hnorm.
  repeat (progress (rewrite ?Hs; cbn [negb andb orb])).
  change (truthy (unknownPayload text)) with true. cbn [negb andb].
  change (String.eqb (typeof (get (unknownPayload text) "result")) "string") with false.
  cbn [negb]. rewrite normalize_unknown. reflexivity.
Qed.

Lemma unknownPayload_view (text : string) (a : App) :
  resultView (showResult host (unknownPayload text) a) =
    {| result_category := ""; result_name := "Unknown"; result_description := text;
       result_fact := ""; category_display := "none" |}.
Proof.
  destruct (showResult_view (unknownPayload text) a) as (_ & _ & _ & ->).
  destruct text; reflexivity.
Qed.


(** *** Empty containers *)

Lemma getAnyTextFallback_empty (data : jsvalue) :
  fallbackTextOf data = "" ->
  JSON.stringify data = Some "{}" \/ JSON.stringify data = Some "[]" ->
  getAnyTextFallback data (fallbackTextOf data) = "".
Proof.
  intros Hnone Hjson. rewrite Hnone.
  destruct Hjson as [Hjson | Hjson];
    rewrite (getAnyTextFallback_compact _ _ (fallbackTextOf_empty _ Hnone) Hjson);
    reflexivity.
Qed.

Lemma outcome_nothing (data : jsvalue) :
  truthy (structuredOf data) = false ->
  getAnyTextFallback data (fallbackTextOf data) = "" ->
  outcome data true false = Ignored.
Proof.
  intros Hs Hany. unfold outcome. cbv zeta. rewrite Hany.
  change (buildFallbackStandardPayload "") with VNull.
  repeat (progress (rewrite ?Hs; cbn [negb andb orb truthy is_empty])).
  reflexivity.
Qed.

(** C9. In the standard analysing flow, an inbound value with no
    structured payload and no extractable text whose [JSON.stringify] text
    is [{}] or [[]] is dropped: [handleLLMResponse] leaves the whole
    program state as it was, so there is no transition, the active request
    stays, and no error is shown. *)
Theorem empty_container_ignored (a : App) (data : jsvalue) :
  state a = ANALYZING ->
  isHotdogFlow a = false ->
  truthy (structuredOf data) = false ->
  fallbackTextOf data = "" ->
  JSON.stringify data = Some "{}" \/ JSON.stringify data = Some "[]" ->
  handleLLMResponse host data a = a.
Proof.
  intros Hstate Hflow Hs Hnone Hjson.
  rewrite handleLLMResponse_outcome, Hflow.
  assert (Hacc : accepted a = true).
  { unfold accepted, waitingForResponse. rewrite Hstate. reflexivity. }
  rewrite Hacc, (outcome_nothing _ Hs (getAnyTextFallback_empty _ Hnone Hjson)).
  reflexivity.
Qed.

End WithHost.
End ResponseFacts.
(** ** Late responses *)

Module LateFacts.
Import Sleuth ResponseFacts.

(** The program state without the toast and the timer bookkeeping. *)
Definition forget (a : App) : App :=
  set_toast None (set_errorTimer None (set_timers [] (set_nextTimer 0 a))).

Definition same_screen (a b : App) : Prop := forget a = forget b.

Lemma forget_set_state x a : forget (set_state x a) = set_state x (forget a).
Proof. reflexivity. Qed.
Lemma forget_set_resultPage x a : forget (set_resultPage x a) = set_resultPage x (forget a).
Proof. reflexivity. Qed.
Lemma forget_set_creditClicks x a : forget (set_creditClicks x a) = set_creditClicks x (forget a).
Proof. reflexivity. Qed.
Lemma forget_set_llmTimer x a : forget (set_llmTimer x a) = set_llmTimer x (forget a).
Proof. reflexivity. Qed.
Lemma forget_set_activeRequest x a : forget (set_activeRequest x a) = set_activeRequest x (forget a).
Proof. reflexivity. Qed.
Lemma forget_set_settings x a : forget (set_settings x a) = set_settings x (forget a).
Proof. reflexivity. Qed.
Lemma forget_set_screens x a : forget (set_screens x a) = set_screens x (forget a).
Proof. reflexivity. Qed.
Lemma forget_set_hdOverlayHidden x a : forget (set_hdOverlayHidden x a) = set_hdOverlayHidden x (forget a).
Proof. reflexivity. Qed.
Lemma forget_set_resultView x a : forget (set_resultView x a) = set_resultView x (forget a).
Proof. reflexivity. Qed.
Lemma forget_set_descPageActive x a : forget (set_descPageActive x a) = set_descPageActive x (forget a).
Proof. reflexivity. Qed.
Lemma forget_set_factPageActive x a : forget (set_factPageActive x a) = set_factPageActive x (forget a).
Proof. reflexivity. Qed.
Lemma forget_set_hotdogView x a : forget (set_hotdogView x a) = set_hotdogView x (forget a).
Proof. reflexivity. Qed.
Lemma forget_set_toggleVoice x a : forget (set_toggleVoice x a) = set_toggleVoice x (forget a).
Proof. reflexivity. Qed.
Lemma forget_set_toggleHotdog x a : forget (set_toggleHotdog x a) = set_toggleHotdog x (forget a).
Proof. reflexivity. Qed.
Lemma forget_set_hotdogRowHidden x a : forget (set_hotdogRowHidden x a) = set_hotdogRowHidden x (forget a).
Proof. reflexivity. Qed.
Lemma forget_set_creditColor x a : forget (set_creditColor x a) = set_creditColor x (forget a).
Proof. reflexivity. Qed.
Lemma forget_set_borderColor x a : forget (set_borderColor x a) = set_borderColor x (forget a).
Proof. reflexivity. Qed.
Lemma forget_set_outbox x a : forget (set_outbox x a) = set_outbox x (forget a).
Proof. reflexivity. Qed.
Lemma forget_set_store x a : forget (set_store x a) = set_store x (forget a).
Proof. reflexivity. Qed.
Lemma forget_set_errorTimer x a : forget (set_errorTimer x a) = forget a.
Proof. reflexivity. Qed.
Lemma forget_set_toast x a : forget (set_toast x a) = forget a.
Proof. reflexivity. Qed.
Lemma forget_set_timers x a : forget (set_timers x a) = forget a.
Proof. reflexivity. Qed.
Lemma forget_set_nextTimer x a : forget (set_nextTimer x a) = forget a.
Proof. reflexivity. Qed.

Lemma forget_clearTimeout h a : forget (clearTimeout h a) = forget a.
Proof. destruct h; reflexivity. Qed.

Lemma forget_state a : state (forget a) = state a.
Proof. reflexivity. Qed.

Lemma forget_activeRequest a : activeRequest (forget a) = activeRequest a.
Proof. reflexivity. Qed.

Lemma forget_llmTimer a : llmTimer (forget a) = llmTimer a.
Proof. reflexivity. Qed.

Create Rewrite HintDb forget_db.
#[local] Hint Rewrite
  forget_set_state forget_set_resultPage forget_set_creditClicks forget_set_llmTimer forget_set_activeRequest forget_set_settings forget_set_screens forget_set_hdOverlayHidden forget_set_resultView forget_set_descPageActive forget_set_factPageActive forget_set_hotdogView forget_set_toggleVoice forget_set_toggleHotdog forget_set_hotdogRowHidden forget_set_creditColor forget_set_borderColor forget_set_outbox forget_set_store forget_set_errorTimer forget_set_toast forget_set_timers forget_set_nextTimer
  forget_clearTimeout : forget_db.

(** Both sides are brought to setters over [forget], where the
    hypothesis applies. *)
Ltac by_forget H :=
  unfold same_screen in *; autorewrite with forget_db; rewrite ?H; reflexivity.

Lemma same_screen_refl a : same_screen a a.
Proof. reflexivity. Qed.

Lemma same_screen_trans a b c : same_screen a b -> same_screen b c -> same_screen a c.
Proof. unfold same_screen. congruence. Qed.

Lemma same_screen_sym a b : same_screen a b -> same_screen b a.
Proof. unfold same_screen. congruence. Qed.

Lemma same_screen_state a b : same_screen a b -> state a = state b.
Proof. intros H. rewrite <- (forget_state a), H. reflexivity. Qed.

Lemma same_screen_activeRequest a b : same_screen a b -> activeRequest a = activeRequest b.
Proof. intros H. rewrite <- (forget_activeRequest a), H. reflexivity. Qed.

Lemma same_screen_llmTimer a b : same_screen a b -> llmTimer a = llmTimer b.
Proof. intros H. rewrite <- (forget_llmTimer a), H. reflexivity. Qed.

Lemma clearTimeout_same h a : same_screen (clearTimeout h a) a.
Proof. apply forget_clearTimeout. Qed.

Lemma showError_same msg a : same_screen (showError msg a) a.
Proof.
  unfold showError. destruct (toast a); [| reflexivity].
  unfold setTimeout. cbv zeta beta iota. by_forget I.
Qed.

Section WithHost.
Variable host : Host.

Lemma setState_congr s a b :
  same_screen a b -> same_screen (setState host s a) (setState host s b).
Proof.
  intros H. unfold setState. cbv zeta.
  destruct s; cbn [State_eqb negb andb]; destruct (borderApi host); cbv iota;
    by_forget H.
Qed.

Lemma showError_congr msg a b :
  same_screen a b -> same_screen (showError msg a) (showError msg b).
Proof.
  intros H. eapply same_screen_trans; [apply showError_same |].
  eapply same_screen_trans; [exact H |]. apply same_screen_sym, showError_same.
Qed.

Lemma settle_congr a b : same_screen a b -> same_screen (settle a) (settle b).
Proof. intros H. unfold settle, endRequest. by_forget H. Qed.

Lemma showResult_congr parsed a b :
  same_screen a b ->
  same_screen (showResult host parsed a) (showResult host parsed b).
Proof.
  intros H. unfold showResult. cbv zeta. apply setState_congr.
  unfold showResultPage. cbv zeta. by_forget H.
Qed.

Lemma showHotdogResult_congr parsed a b :
  same_screen a b ->
  same_screen (showHotdogResult host parsed a) (showHotdogResult host parsed b).
Proof.
  intros H. unfold showHotdogResult. cbv zeta. apply setState_congr.
  destruct (borderApi host); by_forget H.
Qed.

Lemma commit_congr o a b :
  same_screen a b -> same_screen (commit host o a) (commit host o b).
Proof.
  intros H. destruct o; cbn [commit].
  - exact H.
  - apply setState_congr, showError_congr, settle_congr, H.
  - apply showHotdogResult_congr, settle_congr, H.
  - apply showResult_congr, settle_congr, H.
Qed.

Context {E : JSON.Engine}.

Lemma handleLLMResponse_congr data a b :
  same_screen a b ->
  same_screen (handleLLMResponse host data a) (handleLLMResponse host data b).
Proof.
  intros H. rewrite !handleLLMResponse_outcome.
  unfold accepted, waitingForResponse, isHotdogFlow.
  rewrite (same_screen_state _ _ H), (same_screen_activeRequest _ _ H).
  apply commit_congr, H.
Qed.

(** *** The watchdog *)

Lemma watchdog_same a : same_screen (watchdog a) a.
Proof.
  unfold watchdog. destruct (_ || _); [apply showError_same | reflexivity].
Qed.

Lemma fire_watchdog (h : nat) (ms : N) (a : App) :
  find (fun t => handle t =? h) (timers a)
    = Some {| handle := h; callback := Watchdog; delay := ms |} ->
  fire host h a = watchdog (clearTimeout (Some h) a).
Proof. intros Hfind. unfold fire. rewrite Hfind. reflexivity. Qed.

Lemma showError_toast msg a :
  toast a <> None ->
  toast (showError msg a) = Some {| toast_text := msg; toast_show := true |}.
Proof.
  unfold showError. destruct (toast a); [| congruence]. intros _.
  cbn. destruct (errorTimer a); reflexivity.
Qed.

(** *** A message with a structured payload always reaches a result screen *)

Lemma buildFallback_truthy (text : string) :
  is_empty (trim text) = false -> truthy (buildFallbackStandardPayload text) = true.
Proof.
  intros Hne. unfold buildFallbackStandardPayload. cbv zeta. rewrite Hne.
  destruct (truthy (normalizeStandardPayload _)) eqn:Hn; [exact Hn | reflexivity].
Qed.

Lemma structured_outcome (data : jsvalue) (flow : bool) :
  truthy (structuredOf data) = true ->
  exists parsed,
    outcome data true flow = if flow then HotdogResult parsed else StandardResult parsed.
Proof.
  intros Hs. unfold outcome. cbv zeta.
  repeat (progress (rewrite ?Hs; cbn [negb andb orb])).
  destruct flow; cbn [negb andb].
  - rewrite Hs. cbn [negb]. eexists. reflexivity.
  - destruct (negb (String.eqb (typeof (get (structuredOf data) "result")) "string")).
    + unfold or_else.
      destruct (truthy (normalizeStandardPayload (structuredOf data))) eqn:Hn.
      * rewrite Hn. eexists. reflexivity.
      * rewrite (buildFallback_truthy _ (TextFacts.structured_text data _ Hs)).
        eexists. reflexivity.
    + rewrite Hs. eexists. reflexivity.
Qed.

Lemma structured_result (data : jsvalue) (a : App) :
  accepted a = true ->
  truthy (structuredOf data) = true ->
  state (handleLLMResponse host data a) = (if isHotdogFlow a then HD_RESULT else RESULT) /\
  activeRequest (handleLLMResponse host data a) = None.
Proof.
  intros Hacc Hs. rewrite handleLLMResponse_outcome, Hacc.
  destruct (structured_outcome data (isHotdogFlow a) Hs) as (parsed & ->).
  destruct (isHotdogFlow a); cbn [commit].
  - destruct (showHotdogResult_view host parsed (settle a)) as (-> & -> & _). auto.
  - destruct (showResult_view host parsed (settle a)) as (-> & -> & _). auto.
Qed.


End WithHost.
End LateFacts.
(** ** The state machine and the request *)

Module MachineFacts.
Import Sleuth ResponseFacts LateFacts.

Section WithHost.
Variable host : Host.

Lemma setState_llmTimer_kept (newState : State) (a : App) :
  newState = ANALYZING \/ newState = HD_ANALYZING ->
  llmTimer (setState host newState a) = llmTimer a /\
  timers (setState host newState a) = timers a.
Proof.
  intros [-> | ->]; unfold setState; cbn; destruct (borderApi host); auto.
Qed.

Lemma setState_llmTimer_cleared (newState : State) (a : App) :
  newState <> ANALYZING -> newState <> HD_ANALYZING ->
  llmTimer (setState host newState a) = None /\
  timers (setState host newState a) = timers (clearTimeout (llmTimer a) a).
Proof.
  intros H1 H2. unfold setState.
  destruct newState; try congruence; cbn; destruct (borderApi host);
    destruct (llmTimer a); auto.
Qed.

Lemma clearTimeout_gone (h : nat) (a : App) (t : Timer) :
  In t (timers (clearTimeout (Some h) a)) -> handle t <> h.
Proof.
  cbn. intros Hin. apply filter_In in Hin. destruct Hin as [_ Hne].
  apply negb_true_iff, Nat.eqb_neq in Hne. exact Hne.
Qed.


(** C5. When [postMessage] throws, [sendToLLM] shows the error toast,
    returns to the camera state of the analysing variant it was in, and
    drops the active request; the watchdog is not left armed. Seen from
    the capture: a capture whose post throws ends in the camera state it
    started from, with no request. *)
Theorem post_failure (a : App) (now rnd : nat) (message imageBase64 prompt : string) :
  transport host = true ->
  toast a <> None ->
  (let a' := sendToLLM host now rnd (Threw message) imageBase64 prompt a in
   toast a' = Some {| toast_text := "Request failed — try again"; toast_show := true |} /\
   state a' = (if State_eqb (state a) HD_ANALYZING then HD_CAMERA else CAMERA) /\
   activeRequest a' = None /\
   llmTimer a' = None) /\
  (state a = CAMERA \/ state a = HD_CAMERA ->
   is_empty imageBase64 = false ->
   let a' := doCapture host now rnd (Some imageBase64) (Threw message) a in
   toast a' = Some {| toast_text := "Request failed — try again"; toast_show := true |} /\
   state a' = state a /\
   activeRequest a' = None).
Proof.
  intros Htr Htoast.
  assert (Hsend : forall b prompt',
            toast b <> None ->
            let b' := sendToLLM host now rnd (Threw message) imageBase64 prompt' b in
            toast b' = Some {| toast_text := "Request failed — try again";
                               toast_show := true |} /\
            state b' = (if State_eqb (state b) HD_ANALYZING then HD_CAMERA else CAMERA) /\
            activeRequest b' = None /\
            llmTimer b' = None).
  { intros b prompt' Hb. unfold sendToLLM. rewrite Htr. cbn [negb]. cbv zeta.
    rewrite setState_toast, setState_state, setState_activeRequest.
    assert (Hstate : forall m c, state (showError m c) = state c).
    { intros m c. apply same_screen_state, showError_same. }
    assert (Hreq : forall m c, activeRequest (showError m c) = activeRequest c).
    { intros m c. apply same_screen_activeRequest, showError_same. }
    rewrite Hstate, Hreq. repeat split.
    - apply showError_toast. exact Hb.
    - apply setState_llmTimer_cleared;
        destruct (State_eqb (state (endRequest (beginRequest now rnd prompt' imageBase64 b)))
                    HD_ANALYZING); discriminate. }
  split; [apply Hsend, Htoast |].
  intros Hcam Himg. unfold doCapture. cbv zeta. rewrite Himg.
  match goal with
  | |- context [sendToLLM host now rnd _ imageBase64 ?p ?b] =>
      destruct (Hsend b p) as (Ht & Hs & Hr & _)
  end.
  { rewrite setState_toast. exact Htoast. }
  rewrite Ht, Hs, Hr, setState_state.
  destruct Hcam as [-> | ->]; cbn; auto.
Qed.

(** C8, as the program has it. A transition to a state that is not an
    analysing one clears the watchdog: [llmTimer] is [null] and the timer
    it held is no longer pending. A transition into an analysing state
    leaves the timer as it was; it is [sendToLLM] that arms the watchdog,
    once the message is posted. So a capture with a frame and a delivered
    post ends in the analysing state with the watchdog armed. *)
Theorem watchdog_follows_state (a : App) :
  (forall newState,
     newState <> ANALYZING -> newState <> HD_ANALYZING ->
     llmTimer (setState host newState a) = None /\
     forall h t, llmTimer a = Some h ->
                 In t (timers (setState host newState a)) -> handle t <> h) /\
  (forall newState,
     newState = ANALYZING \/ newState = HD_ANALYZING ->
     llmTimer (setState host newState a) = llmTimer a /\
     timers (setState host newState a) = timers a) /\
  (forall now rnd imageBase64 prompt,
     transport host = true ->
     let a' := sendToLLM host now rnd Delivered imageBase64 prompt a in
     exists h, llmTimer a' = Some h /\
               In {| handle := h; callback := Watchdog; delay := RESPONSE_TIMEOUT_MS |}
                  (timers a')) /\
  (forall now rnd imageBase64,
     transport host = true ->
     state a = CAMERA \/ state a = HD_CAMERA ->
     is_empty imageBase64 = false ->
     let a' := doCapture host now rnd (Some imageBase64) Delivered a in
     state a' = (if State_eqb (state a) HD_CAMERA then HD_ANALYZING else ANALYZING) /\
     exists h, llmTimer a' = Some h /\
               In {| handle := h; callback := Watchdog; delay := RESPONSE_TIMEOUT_MS |}
                  (timers a')).
Proof.
  assert (Harm : forall b now rnd imageBase64 prompt,
            transport host = true ->
            let b' := sendToLLM host now rnd Delivered imageBase64 prompt b in
            state b' = state b /\
            exists h, llmTimer b' = Some h /\
               In {| handle := h; callback := Watchdog; delay := RESPONSE_TIMEOUT_MS |}
                  (timers b')).
  { intros b now rnd imageBase64 prompt Htr. unfold sendToLLM. rewrite Htr.
    cbn [negb]. cbv zeta.
    destruct (JSON.stringify (requestPayload host imageBase64 prompt));
      cbn; (split; [destruct (llmTimer b); reflexivity |]);
      eexists; (split; [reflexivity |]); apply in_or_app; right; left; reflexivity. }
  split; [| split; [| split]].
  - intros newState H1 H2.
    destruct (setState_llmTimer_cleared newState a H1 H2) as (Hnull & Htimers).
    split; [exact Hnull |]. intros h t Hh Hin. rewrite Htimers, Hh in Hin.
    eapply clearTimeout_gone, Hin.
  - intros newState Hs. apply setState_llmTimer_kept, Hs.
  - intros now rnd imageBase64 prompt Htr. apply Harm, Htr.
  - intros now rnd imageBase64 Htr Hcam Himg. unfold doCapture. cbv zeta. rewrite Himg.
    match goal with
    | |- context [sendToLLM host now rnd _ imageBase64 ?p ?b] =>
        destruct (Harm b now rnd imageBase64 p Htr) as (Hs & Hh)
    end.
    rewrite Hs, setState_state. split; [reflexivity | exact Hh].
Qed.

End WithHost.
End MachineFacts.
(** ** Settings storage *)

Module StorageFacts.
Import Sleuth.

Definition defaults : Settings := {| voice := false; hotdog := false |}.

(** The stored blob is missing, is not base64, or does not decode to JSON
    text. *)
Definition unreadable {E : JSON.Engine} (plain : string -> option string) : Prop :=
  plain STORAGE_KEY = None \/
  exists raw, plain STORAGE_KEY = Some raw /\
    (Base64.atob raw = None \/
     exists text, Base64.atob raw = Some text /\ JSON.parse text = None).

Section WithEngine.
Context {E : JSON.Engine}.

Lemma loadSettings_settings (a : App) : settings (loadSettings a) = readSettings a.
Proof.
  unfold loadSettings. cbv zeta. cbn.
  destruct (hotdog (readSettings a)); reflexivity.
Qed.

Lemma saved_blob (s : Settings) :
  exists text,
    JSON.stringify (settingsJSON s) = Some text /\
    Base64.atob (Base64.btoa text) = Some text /\
    is_empty (Base64.btoa text) = false /\
    JSON.parse text = Some (settingsJSON s).
Proof.
  destruct s as [[] []]; eexists; (split; [reflexivity |]); vm_compute; auto.
Qed.

(** C7. Settings saved and then loaded by a fresh start over the same
    store come back as they were, [{voice: true, hotdog: false}] among
    them. A fresh start over a store whose blob is missing or unreadable,
    or with no store at all, has the defaults [{voice: false, hotdog:
    false}]; [loadSettings] is a total function, so nothing is raised. *)
Theorem settings_roundtrip :
  (forall (a : App) (plain : string -> option string),
     store a = Some plain ->
     settings (loadSettings (fresh (store (saveSettings a)))) = settings a) /\
  (forall plain : string -> option string,
     settings (loadSettings (fresh (store (saveSettings
                 (set_settings {| voice := true; hotdog := false |}
                    (fresh (Some plain)))))))
     = {| voice := true; hotdog := false |}) /\
  (forall plain : string -> option string,
     unreadable plain -> settings (loadSettings (fresh (Some plain))) = defaults) /\
  settings (loadSettings (fresh None)) = defaults.
Proof.
  assert (Hround : forall (a : App) (plain : string -> option string),
            store a = Some plain ->
            settings (loadSettings (fresh (store (saveSettings a)))) = settings a).
  { intros a plain Hstore. rewrite loadSettings_settings.
    unfold saveSettings. rewrite Hstore.
    destruct (saved_blob (settings a)) as (text & -> & Hback & Hfilled & Hparse).
    unfold readSettings. cbn [store fresh set_store].
    change (String.eqb STORAGE_KEY STORAGE_KEY) with true. cbv iota.
    rewrite Hfilled, Hback, Hparse.
    destruct (settings a) as [[] []]; reflexivity. }
  split; [exact Hround | split; [| split]].
  - intros plain.
    apply (Hround (set_settings {| voice := true; hotdog := false |} (fresh (Some plain)))
                  plain).
    reflexivity.
  - intros plain Hbad. rewrite loadSettings_settings.
    unfold readSettings. cbn [store fresh settings].
    destruct Hbad as [-> | (raw & -> & Hraw)]; [reflexivity |].
    destruct (is_empty raw); [reflexivity |].
    destruct Hraw as [-> | (text & -> & ->)]; reflexivity.
  - reflexivity.
Qed.

End WithEngine.
End StorageFacts.

(** ** The content filter *)

Module FilterFacts.
Import ProfanityFilter.

(** The call reports unclean content. *)
Definition flagged (r : option Verdict) : bool :=
  match r with
  | Some v => negb (clean v)
  | None => false
  end.

Lemma patterns_compile :
  forallb (fun p => match RegExp.compile p with Some _ => true | None => false end)
          (patterns ++ simplePatterns ++ exactPatterns) = true.
Proof. vm_compute. reflexivity. Qed.

(** C10. [check] answers [{clean: true}] for the empty string, [null] and
    [undefined]: the test of the text comes before any pattern is tried.
    And for a title that [check] accepts as text, [checkAll] reports
    unclean exactly when [check] flags the title or flags the
    description, and a flagged title is answered with the title's own
    verdict, whatever the description. *)
Theorem checkAll_combines (title description : jsvalue) :
  check title <> None ->
  (check (VString "") = Some ok /\ check VNull = Some ok /\ check VUndefined = Some ok) /\
  flagged (checkAll title description)
    = flagged (check title) || flagged (check description) /\
  (flagged (check title) = true -> checkAll title description = check title).
Proof.
  intros Htitle. split; [repeat split |].
  unfold checkAll.
  destruct (check title) as [titleCheck |]; [| congruence].
  cbn [flagged]. destruct (clean titleCheck) eqn:Hclean; cbn [negb orb].
  - split; [| discriminate].
    destruct (check description) as [descCheck |]; [| reflexivity].
    cbn [flagged]. destruct (clean descCheck) eqn:Hd; cbn [negb flagged]; [reflexivity |].
    rewrite Hd. reflexivity.
  - cbn [flagged]. rewrite Hclean. auto.
Qed.

End FilterFacts.
(** ** Scenarios

    The theorems above at concrete inputs, and the inputs at which the
    specification and the program part ways. They run on the reference
    engine. *)

Module Scenarios.
Import Sleuth Reference.
Import NormaliserFacts ResponseFacts LateFacts MachineFacts StorageFacts FilterFacts.

Definition host0 : Host := {|
  borderApi := true;
  transport := true;
  detectedPluginId := "";
  PROMPT_STANDARD := "Identify the primary object centered in this image.";
  PROMPT_HOTDOG := "Is there a hot dog in this image?";
|}.

(** The same page opened outside the device: no [PluginMessageHandler]. *)
Definition devHost : Host := {|
  borderApi := false;
  transport := false;
  detectedPluginId := "";
  PROMPT_STANDARD := PROMPT_STANDARD host0;
  PROMPT_HOTDOG := PROMPT_HOTDOG host0;
|}.

Definition frame : string := "data:image/jpeg;base64,AAAA".

(** After [DOMContentLoaded], with no store. *)
Definition booted : App := addErrorToast (loadSettings (fresh None)).

(** A capture in the standard flow, waiting for its response. *)
Definition analyzing : App := onSideClick host0 1700 42 (Some frame) Delivered booted.

(** Hot dog mode switched on in the settings, then a capture. *)
Definition hdCamera : App :=
  closeSettings host0 (onToggleHotdog (setState host0 SETTINGS booted)).

Definition hdAnalyzing : App := onSideClick host0 1700 42 (Some frame) Delivered hdCamera.

(** The hot dog result is on screen and the hot dog toggle is tapped. *)
Definition hdResultFlagOff : App :=
  onToggleHotdog
    (handleLLMResponse host0 (VString (dq "{'result':'HOT DOG','reason':'Sausage in bun.'}"))
       hdAnalyzing).

Definition mug : jsvalue := VObject [("name", VString "Mug")].

Fixpoint under_data (n : nat) (v : jsvalue) : jsvalue :=
  match n with
  | 0 => v
  | S n' => VObject [("data", under_data n' v)]
  end.

(** *** C1 *)


Lemma nested_single (k : string) (x : jsvalue) (d : nat) (p : jsvalue) :
  nested (VObject [(k, x)]) d p ->
  (d = 0 /\ p = VObject [(k, x)]) \/ (exists d', d = S d' /\ nested x d' p).
Proof.
  intros H. inversion H as [| ps key d' p' Hk Hown Hn |  |]; subst.
  - left. auto.
  - right. exists d'. split; [reflexivity |].
    unfold hasOwn in Hown. unfold get in Hn. cbn [lookup] in *.
    destruct (String.eqb k key); [exact Hn | discriminate].
Qed.


(** *** C2 *)

Definition saysHotdog : jsvalue := VObject [("answer", VString "Yes, that is a hot dog.")].
Definition saysNot : jsvalue :=
  VObject [("reply", VString "Sorry: Not Hot Dog. It is a stapler.")].


(** *** C3 *)

Definition mugResponse : jsvalue :=
  VObject [("data", VString (dq
    "{'name':'Mug','category':'Kitchenware','description':'A drinking vessel.','fun_fact':'Ceramic mugs date back millennia.'}"))].


(** *** C4 *)



(** *** C5 *)

Lemma post_failure_witness :
  let a' := doCapture host0 1700 42 (Some frame) (Threw "bridge closed") hdCamera in
  toast a' = Some {| toast_text := "Request failed — try again"; toast_show := true |} /\
  state a' = HD_CAMERA /\
  activeRequest a' = None.
Proof.
  refine (proj2 (post_failure host0 hdCamera 1700 42 "bridge closed" frame
                   (PROMPT_HOTDOG host0) _ _) _ _).
  - reflexivity.
  - vm_compute. discriminate.
  - right. vm_compute. reflexivity.
  - reflexivity.
Defined.

(** *** C6 *)

Definition embedded : jsvalue :=
  VObject [("answer", VString (dq "It is {'name':'Mug'} I think"))].


Definition plainAnswer : jsvalue := VObject [("answer", VString "  A red mug on a desk. ")].
Definition counters : jsvalue := VObject [("count", VNumber true "3")].


(** *** C7 *)

Definition emptyStore : string -> option string := fun _ => None.
Definition brokenStore : string -> option string := fun _ => Some "%%% not base64 %%%".

Lemma settings_roundtrip_witness :
  settings (loadSettings (fresh (store (saveSettings
     (set_settings {| voice := true; hotdog := false |} (fresh (Some emptyStore)))))))
  = {| voice := true; hotdog := false |} /\
  settings (loadSettings (fresh (Some brokenStore))) = defaults.
Proof.
  split.
  - apply (proj1 (proj2 settings_roundtrip) emptyStore).
  - apply (proj1 (proj2 (proj2 settings_roundtrip)) brokenStore).
    right. exists "%%% not base64 %%%". split; [reflexivity |].
    left. vm_compute. reflexivity.
Defined.

(** *** C8 *)

(** C8, the claim as written fails: where the host has no
    [PluginMessageHandler], a capture enters the analysing state and no
    watchdog is armed; only the mock response is pending. [setState] alone
    never arms it. *)
Lemma analysing_without_watchdog :
  let a' := onSideClick devHost 1700 42 (Some frame) Delivered booted in
  state a' = ANALYZING /\ llmTimer a' = None /\
  timers a' = [{| handle := 1; callback := MockResponse; delay := 1800 |}] /\
  llmTimer (setState host0 ANALYZING booted) = None.
Proof. vm_compute. auto. Qed.

Lemma watchdog_follows_state_witness :
  llmTimer (setState host0 RESULT analyzing) = None /\
  llmTimer (setState host0 HD_ANALYZING analyzing) = llmTimer analyzing /\
  (state (doCapture host0 1700 42 (Some frame) Delivered booted) = ANALYZING /\
   exists h, llmTimer (doCapture host0 1700 42 (Some frame) Delivered booted) = Some h /\
             In {| handle := h; callback := Watchdog; delay := RESPONSE_TIMEOUT_MS |}
                (timers (doCapture host0 1700 42 (Some frame) Delivered booted))).
Proof.
  destruct (watchdog_follows_state host0 analyzing) as (Hclear & Hkeep & _ & _).
  destruct (watchdog_follows_state host0 booted) as (_ & _ & _ & Hcapture).
  split; [| split].
  - apply Hclear; discriminate.
  - apply Hkeep. right. reflexivity.
  - apply (Hcapture 1700 42 frame); [reflexivity | left; reflexivity | reflexivity].
Defined.

(** *** C9 *)

Lemma empty_container_ignored_witness :
  handleLLMResponse host0 (VObject []) analyzing = analyzing /\
  handleLLMResponse host0 (VArray []) analyzing = analyzing.
Proof.
  split.
  - apply (empty_container_ignored host0 analyzing (VObject []));
      try (vm_compute; reflexivity). left. reflexivity.
  - apply (empty_container_ignored host0 analyzing (VArray []));
      try (vm_compute; reflexivity). right. reflexivity.
Defined.

(** *** C10 *)

Lemma checkAll_combines_witness :
  flagged (ProfanityFilter.checkAll (VString "Solar charger") (VString "just stfu already"))
    = true /\
  ProfanityFilter.checkAll (VString "what a twat") (VString "just stfu already")
    = Some ProfanityFilter.offensive.
Proof.
  assert (Htext : forall s, ProfanityFilter.check (VString s) <> None).
  { intros s. unfold ProfanityFilter.check.
    destruct (negb (truthy (VString s))); [discriminate |].
    repeat match goal with |- context [if ?c then _ else _] => destruct c end;
      discriminate. }
  destruct (checkAll_combines (VString "Solar charger") (VString "just stfu already")
              (Htext _)) as (_ & Hany & _).
  destruct (checkAll_combines (VString "what a twat") (VString "just stfu already")
              (Htext _)) as (_ & _ & Hfirst).
  split.
  - rewrite Hany. vm_compute. reflexivity.
  - rewrite Hfirst; vm_compute; reflexivity.
Defined.

End Scenarios.

(** ** More on the inbound message *)

Module SettleFacts.
Import Sleuth ResponseFacts LateFacts.

#[local] Arguments tryParseJSON : simpl never.
#[local] Arguments extractResultPayload : simpl never.
#[local] Arguments extractPlainText : simpl never.
#[local] Arguments getAnyTextFallback : simpl never.
#[local] Arguments buildFallbackStandardPayload : simpl never.
#[local] Arguments normalizeStandardPayload : simpl never.

Section WithHost.
Variable host : Host.
Context {E : JSON.Engine}.

Lemma or_else_string (s : string) (y : jsvalue) :
  is_empty s = false -> VString s <|> y = VString s.
Proof. intros Hs. unfold or_else. cbn [truthy]. rewrite Hs. reflexivity. Qed.

Lemma or_else_truthy (x y : jsvalue) : truthy y = true -> truthy (x <|> y) = true.
Proof. intros Hy. unfold or_else. destruct (truthy x) eqn:Hx; assumption. Qed.

(** A message is dropped, or it gives the result of the flow: the branch
    that reports an unreadable response is never taken. *)
Lemma outcome_cases (data : jsvalue) (accepted flow : bool) :
  outcome data accepted flow = Ignored \/
  exists parsed, truthy parsed = true /\
    outcome data accepted flow = if flow then HotdogResult parsed else StandardResult parsed.
Proof.
  destruct accepted; [| left; reflexivity].
  destruct (truthy (structuredOf data)) eqn:Hs.
  - right. unfold outcome. cbv zeta.
    repeat (progress (rewrite ?Hs; cbn [negb andb orb])).
    destruct flow; cbn [negb andb].
    + rewrite Hs. cbn [negb]. eexists. split; [| reflexivity].
      destruct (negb (String.eqb (typeof (get (structuredOf data) "result")) "string"));
        [reflexivity | exact Hs].
    + destruct (negb (String.eqb (typeof (get (structuredOf data) "result")) "string")).
      * assert (Hb : truthy (normalizeStandardPayload (structuredOf data)
                       <|> buildFallbackStandardPayload
                             (getAnyTextFallback data (fallbackTextOf data))) = true).
        { apply or_else_truthy, buildFallback_truthy, TextFacts.structured_text, Hs. }
        rewrite Hb. eexists. split; [exact Hb | reflexivity].
      * rewrite Hs. eexists. split; [exact Hs | reflexivity].
  - destruct flow.
    + destruct (includes (toUpperCase (fallbackTextOf data)) "HOT DOG") eqn:Hinc.
      * right. rewrite (outcome_hotdog_text data Hs Hinc).
        eexists. split; [| reflexivity]. reflexivity.
      * left. unfold outcome. cbv zeta.
        repeat (progress (rewrite ?Hs, ?Hinc; cbn [negb andb orb])). reflexivity.
    + unfold outcome. cbv zeta.
      repeat (progress (rewrite ?Hs; cbn [negb andb orb])).
      destruct (truthy (buildFallbackStandardPayload
                          (getAnyTextFallback data (fallbackTextOf data)))) eqn:Hb;
        cbn [negb andb].
      * right.
        destruct (negb (String.eqb (typeof (get (buildFallbackStandardPayload
                    (getAnyTextFallback data (fallbackTextOf data))) "result")) "string")).
        -- rewrite (or_else_truthy _ _ Hb). eexists. split; [| reflexivity].
           apply or_else_truthy, Hb.
        -- rewrite Hb. eexists. split; [exact Hb | reflexivity].
      * destruct (is_empty (getAnyTextFallback data (fallbackTextOf data)));
          cbn [negb]; [left; reflexivity |].
        right.
        change (String.eqb (typeof (get (unknownPayload
                  (getAnyTextFallback data (fallbackTextOf data))) "result")) "string")
          with false.
        cbn [negb]. rewrite normalize_unknown.
        change (unknownPayload (getAnyTextFallback data (fallbackTextOf data))
                <|> buildFallbackStandardPayload
                      (getAnyTextFallback data (fallbackTextOf data)))
          with (unknownPayload (getAnyTextFallback data (fallbackTextOf data))).
        cbn [truthy unknownPayload negb]. eexists. split; [| reflexivity]. reflexivity.
Qed.

Lemma settle_fields (a : App) :
  activeRequest (settle a) = None /\ llmTimer (settle a) = None /\
  toast (settle a) = toast a /\ state (settle a) = state a.
Proof. unfold settle, endRequest. destruct (llmTimer a); cbn; auto. Qed.

Lemma setState_keeps_clear (s : State) (a : App) :
  llmTimer a = None -> llmTimer (setState host s a) = None.
Proof.
  intros H. unfold setState. destruct s; cbn; destruct (borderApi host); cbn; rewrite ?H;
    reflexivity.
Qed.

(** What a message that is not dropped leaves behind. *)
Lemma commit_result (parsed : jsvalue) (flow : bool) (a : App) :
  let a' := commit host (if flow then HotdogResult parsed else StandardResult parsed) a in
  state a' = (if flow then HD_RESULT else RESULT) /\
  activeRequest a' = None /\ llmTimer a' = None /\ toast a' = toast a.
Proof.
  destruct (settle_fields a) as (Hreq & Htimer & Htoast & _).
  destruct flow; cbn [commit]; cbv zeta.
  - destruct (showHotdogResult_view host parsed (settle a)) as (-> & -> & _).
    split; [reflexivity | split; [exact Hreq | split]].
    + unfold showHotdogResult. cbv zeta. apply setState_keeps_clear.
      destruct (borderApi host); exact Htimer.
    + unfold showHotdogResult. cbv zeta. rewrite setState_toast.
      destruct (borderApi host); exact Htoast.
  - destruct (showResult_view host parsed (settle a)) as (-> & -> & _).
    split; [reflexivity | split; [exact Hreq | split]].
    + unfold showResult. cbv zeta. apply setState_keeps_clear. exact Htimer.
    + unfold showResult. cbv zeta. rewrite setState_toast. exact Htoast.
Qed.


Lemma idle_after_result (a : App) :
  (state a = RESULT \/ state a = HD_RESULT) -> activeRequest a = None ->
  forall data, handleLLMResponse host data a = a.
Proof.
  intros Hstate Hreq data. rewrite handleLLMResponse_outcome.
  unfold accepted, waitingForResponse. rewrite Hreq.
  destruct Hstate as [-> | ->]; reflexivity.
Qed.


(** X3. In the standard flow, a payload whose [name], [category],
    [description] and [fun_fact] are non-empty strings is shown as it is,
    on the first page of the result screen, whatever else the payload
    holds and however it was wrapped. *)
Theorem standard_payload_shown (a : App) (data : jsvalue) (n c d f : string) :
  accepted a = true ->
  isHotdogFlow a = false ->
  get (structuredOf data) "name" = VString n ->
  get (structuredOf data) "category" = VString c ->
  get (structuredOf data) "description" = VString d ->
  get (structuredOf data) "fun_fact" = VString f ->
  is_empty n = false -> is_empty c = false -> is_empty d = false -> is_empty f = false ->
  state (handleLLMResponse host data a) = RESULT /\
  resultPage (handleLLMResponse host data a) = 1 /\
  resultView (handleLLMResponse host data a) =
    {| result_category := c; result_name := n; result_description := d;
       result_fact := f; category_display := "inline-block" |}.
Proof.
  intros Hacc Hflow Hn Hc Hd Hf Nn Nc Nd Nf.
  assert (Hs : truthy (structuredOf data) = true).
  { destruct (structuredOf data); try discriminate. reflexivity. }
  assert (Hnorm : normalizeStandardPayload (structuredOf data)
                  = VObject [("name", VString n); ("category", VString c);
                             ("description", VString d); ("fun_fact", VString f)]).
  { unfold normalizeStandardPayload. rewrite Hs.
    assert (Ho : typeof (structuredOf data) = "object").
    { destruct (structuredOf data); try discriminate. reflexivity. }
    rewrite Ho, Hn, Hc, Hd, Hf.
    rewrite !(or_else_string _ _ Nn), !(or_else_string _ _ Nc),
            !(or_else_string _ _ Nd), !(or_else_string _ _ Nf).
    cbn [truthy toStr]. rewrite Nn. reflexivity. }
  assert (Hout : exists parsed,
            outcome data true false = StandardResult parsed /\
            get parsed "name" = VString n /\ get parsed "category" = VString c /\
            get parsed "description" = VString d /\ get parsed "fun_fact" = VString f).
  { unfold outcome. cbv zeta.
    repeat (progress (rewrite ?Hs; cbn [negb andb orb])).
    destruct (negb (String.eqb (typeof (get (structuredOf data) "result")) "string")).
    - rewrite Hnorm. unfold or_else at 1. cbn [truthy negb].
      eexists. split; [reflexivity |]. repeat split; reflexivity.
    - rewrite Hs. cbn [negb]. eexists. split; [reflexivity |]. auto. }
  destruct Hout as (parsed & Hout & Pn & Pc & Pd & Pf).
  rewrite handleLLMResponse_outcome, Hacc, Hflow, Hout. cbn [commit].
  destruct (showResult_view host parsed (settle a)) as (-> & _ & -> & ->).
  rewrite Pn, Pc, Pd, Pf.
  rewrite !(or_else_string _ _ Nn), !(or_else_string _ _ Nc),
          !(or_else_string _ _ Nd), !(or_else_string _ _ Nf).
  cbn [truthy toStr]. rewrite Nc. auto.
Qed.


End WithHost.
End SettleFacts.

(** ** More on the normaliser *)

Module PlainTextFacts.
Import Sleuth NormaliserFacts.

#[local] Arguments extractPlainText : simpl never.
#[local] Arguments get : simpl never.

(** The strings a value holds: itself, in an array, or under a key. *)
Inductive holds : jsvalue -> string -> Prop :=
| holds_string s : holds (VString s) s
| holds_item items item s : In item items -> holds item s -> holds (VArray items) s
| holds_prop ps key x s : lookup ps key = Some x -> holds x s -> holds (VObject ps) s.

Lemma first_nonempty_inv {A : Type} (f : A -> string) (l : list A) :
  is_empty (first_nonempty f l) = false ->
  exists x, In x l /\ first_nonempty f l = f x.
Proof.
  induction l as [| y l IH]; cbn; [discriminate |].
  destruct (is_empty (f y)) eqn:Hy.
  - intros H. destruct (IH H) as (x & Hin & Heq). eauto.
  - intros _. eauto.
Qed.

Lemma get_holds (ps : props) (key : string) (s : string) :
  holds (get (VObject ps) key) s -> holds (VObject ps) s.
Proof.
  unfold get. destruct (lookup ps key) as [x |] eqn:Hl.
  - intros H. eapply holds_prop; eauto.
  - intros H. inversion H.
Qed.

Lemma extractPlainText_fuel_holds (fuel : nat) :
  forall value depth,
    is_empty (extractPlainText_fuel fuel value depth) = false ->
    exists s, holds value s /\ extractPlainText_fuel fuel value depth = trim s.
Proof.
  induction fuel as [| fuel IH]; intros value depth; [discriminate |].
  cbn [extractPlainText_fuel]. unfold extractPlainText_body.
  destruct ((5 <? depth) || is_nullish value); [discriminate |].
  destruct value as [ | | b | nz shown | s | items | ps]; try discriminate.
  - intros _. exists s. split; [constructor | reflexivity].
  - intros H. destruct (first_nonempty_inv _ _ H) as (item & Hin & Heq).
    rewrite Heq in *. destruct (IH _ _ H) as (s & Hs & ->).
    exists s. split; [econstructor; eauto | reflexivity].
  - cbv zeta.
    match goal with
    | |- is_empty (if negb (is_empty ?d) then _ else _) = false -> _ =>
        destruct (negb (is_empty d)) eqn:Hdirect
    end.
    { intros H. destruct (first_nonempty_inv _ _ H) as (key & _ & Heq).
      rewrite Heq in *. clear Heq.
      destruct (get (VObject ps) key) as [ | | | | s | | ] eqn:Hg; try discriminate.
      exists s. split; [| reflexivity].
      apply get_holds with (key := key). rewrite Hg. constructor. }
    match goal with
    | |- is_empty (if negb (is_empty ?d) then _ else _) = false -> _ =>
        destruct (negb (is_empty d)) eqn:Hknown
    end.
    { intros H. destruct (first_nonempty_inv _ _ H) as (key & _ & Heq).
      rewrite Heq in *. clear Heq.
      destruct (negb (is_nullish (get (VObject ps) key))
                && String.eqb (typeof (get (VObject ps) key)) "object");
        [| discriminate].
      destruct (IH _ _ H) as (s & Hs & ->).
      exists s. split; [eapply get_holds; eauto | reflexivity]. }
    intros H. destruct (first_nonempty_inv _ _ H) as (key & _ & Heq).
    rewrite Heq in *. clear Heq.
    destruct (IH _ _ H) as (s & Hs & ->).
    exists s. split; [eapply get_holds; eauto | reflexivity].
Qed.


End PlainTextFacts.

Module FenceFacts.
Import Sleuth.

Definition no_backtick (s : string) : bool :=
  all_chars (fun c => negb (Ascii.eqb c backtick)) s.

Definition blank (s : string) : bool := all_chars is_space s.

Lemma trimStart_blank_app (ws s : string) :
  blank ws = true -> trimStart (ws ++ s) = trimStart s.
Proof.
  induction ws as [| c ws IH]; cbn; [reflexivity |].
  intros H. apply andb_true_iff in H. destruct H as [Hc Hws].
  rewrite Hc. apply IH, Hws.
Qed.

Lemma trimStart_blank (ws : string) : blank ws = true -> trimStart ws = "".
Proof.
  induction ws as [| c ws IH]; cbn; [reflexivity |].
  intros H. apply andb_true_iff in H. destruct H as [Hc Hws].
  rewrite Hc. apply IH, Hws.
Qed.

Lemma trimEnd_blank (ws : string) : blank ws = true -> trimEnd ws = "".
Proof.
  induction ws as [| c ws IH]; cbn; [reflexivity |].
  intros H. apply andb_true_iff in H. destruct H as [Hc Hws].
  rewrite (IH Hws), Hc. reflexivity.
Qed.

Lemma trimEnd_app_blank (s ws : string) :
  blank ws = true -> trimEnd (s ++ ws) = trimEnd s.
Proof.
  intros Hws. induction s as [| c s IH]; cbn.
  - apply trimEnd_blank, Hws.
  - rewrite IH. reflexivity.
Qed.

Lemma all_chars_weaken (p q : ascii -> bool) (s : string) :
  (forall c, p c = true -> q c = true) ->
  all_chars p s = true -> all_chars q s = true.
Proof.
  intros Hpq. induction s as [| c s IH]; cbn; [reflexivity |].
  intros H. apply andb_true_iff in H. destruct H as [Hc Hs].
  rewrite (Hpq _ Hc), (IH Hs). reflexivity.
Qed.

Lemma all_chars_app (p : ascii -> bool) (s t : string) :
  all_chars p (s ++ t) = all_chars p s && all_chars p t.
Proof.
  induction s as [| c s IH]; cbn; [reflexivity |].
  rewrite IH, andb_assoc. reflexivity.
Qed.

Lemma blank_no_backtick (ws : string) : blank ws = true -> no_backtick ws = true.
Proof.
  apply all_chars_weaken. intros c Hc.
  destruct (Ascii.eqb c backtick) eqn:Hbt; [| reflexivity].
  apply Ascii.eqb_eq in Hbt. subst c. discriminate.
Qed.

Lemma no_backtick_app (s t : string) :
  no_backtick (s ++ t) = no_backtick s && no_backtick t.
Proof. apply all_chars_app. Qed.

Lemma backtick_not_space : is_space backtick = false.
Proof. reflexivity. Qed.

Lemma trimStart_no_backtick (s : string) :
  no_backtick s = true -> no_backtick (trimStart s) = true.
Proof.
  induction s as [| c s IH]; cbn; [reflexivity |].
  intros H. destruct (is_space c); [| exact H].
  apply andb_true_iff in H. apply IH, H.
Qed.

Lemma prefix_ci_head (p s : string) (c : ascii) :
  Ascii.eqb c backtick = false -> prefix_ci (String backtick p) (String c s) = None.
Proof.
  intros Hc. cbn [prefix_ci].
  destruct (Ascii.eqb (upper_char backtick) (upper_char c)) eqn:Heq; [| reflexivity].
  apply Ascii.eqb_eq in Heq. apply Ascii.eqb_neq in Hc. exfalso. apply Hc.
  revert Heq. unfold upper_char. change (is_lower backtick) with false. cbv iota.
  destruct (is_lower c) eqn:Hl; [| congruence].
  intros Heq. unfold is_lower in Hl.
  assert (Hcode : code (ascii_of_nat (code c - 32)) = code c - 32).
  { unfold code. apply nat_ascii_embedding.
    pose proof (nat_ascii_bounded c). lia. }
  rewrite <- Heq in Hcode. change (code backtick) with 96 in Hcode.
  apply andb_true_iff in Hl. destruct Hl as [H1 H2].
  apply Nat.leb_le in H1, H2. lia.
Qed.

(** The closing fence goes, with what white space follows it. *)
Lemma strip_fence_close_at_end (p ws : string) :
  no_backtick p = true -> blank ws = true ->
  strip_fence_close (p ++ "```" ++ ws) = p.
Proof.
  intros Hp Hws. induction p as [| c p IH].
  - cbn [append strip_fence_close prefix_ci].
    change (Ascii.eqb (upper_char "`") (upper_char "`")) with true. cbv iota.
    replace (all_chars is_space ws) with true by (symmetry; exact Hws). reflexivity.
  - cbn in Hp. apply andb_true_iff in Hp. destruct Hp as [Hc Hp].
    apply negb_true_iff in Hc.
    change ((String c p ++ "```" ++ ws)%string) with (String c (p ++ "```" ++ ws)%string).
    cbn [strip_fence_close].
    pose proof (prefix_ci_head "``" (p ++ "```" ++ ws) c Hc) as Hhead.
    change (String backtick "``") with "```" in Hhead.
    rewrite Hhead, (IH Hp). reflexivity.
Qed.

Lemma strip_fence_close_none (p : string) :
  no_backtick p = true -> strip_fence_close p = p.
Proof.
  induction p as [| c p IH]; [reflexivity |].
  intros Hp. cbn in Hp. apply andb_true_iff in Hp. destruct Hp as [Hc Hp].
  apply negb_true_iff in Hc. cbn [strip_fence_close].
  pose proof (prefix_ci_head "``" p c Hc) as Hhead.
  change (String backtick "``") with "```" in Hhead.
  rewrite Hhead, (IH Hp). reflexivity.
Qed.

Lemma strip_open_none (s : string) (p : string) :
  no_backtick s = true -> prefix_ci (String backtick p) s = None.
Proof.
  destruct s as [| c s]; [reflexivity |].
  intros H. cbn in H. apply andb_true_iff in H. destruct H as [Hc _].
  apply negb_true_iff in Hc. apply prefix_ci_head, Hc.
Qed.

Lemma cleanJSONText_bare (body : string) :
  no_backtick body = true -> cleanJSONText body = trim body.
Proof.
  intros Hb. unfold cleanJSONText, strip_fence_json, strip_fence_open.
  pose proof (strip_open_none body "``json" Hb) as Hjson.
  pose proof (strip_open_none body "``" Hb) as Hopen.
  change (String backtick "``json") with "```json" in Hjson.
  change (String backtick "``") with "```" in Hopen.
  rewrite Hjson, Hopen, (strip_fence_close_none _ Hb). reflexivity.
Qed.

Lemma cleanJSONText_fenced (ws1 body ws2 ws3 : string) :
  no_backtick body = true ->
  blank ws1 = true -> blank ws2 = true -> blank ws3 = true ->
  cleanJSONText ("```json" ++ ws1 ++ body ++ ws2 ++ "```" ++ ws3) = trim body.
Proof.
  intros Hb H1 H2 H3. unfold cleanJSONText, strip_fence_json.
  change (prefix_ci "```json" ("```json" ++ ws1 ++ body ++ ws2 ++ "```" ++ ws3))
    with (Some (ws1 ++ body ++ ws2 ++ "```" ++ ws3)%string).
  cbv iota. rewrite (trimStart_blank_app _ _ H1).
  destruct (trimStart body) as [| c b'] eqn:Hstart.
  - (* a blank body *)
    assert (Hblank : trimStart (body ++ ws2 ++ "```" ++ ws3) = ("```" ++ ws3)%string).
    { clear Hb. induction body as [| d body IH]; cbn in *.
      - rewrite (trimStart_blank_app _ _ H2). reflexivity.
      - destruct (is_space d); [apply IH, Hstart | discriminate]. }
    rewrite Hblank. unfold strip_fence_open.
    change (prefix_ci "```" ("```" ++ ws3)) with (Some ws3). cbv iota.
    rewrite (trimStart_blank _ H3). unfold trim. rewrite Hstart. reflexivity.
  - assert (Hrest : trimStart (body ++ ws2 ++ "```" ++ ws3)
                    = (String c b' ++ ws2 ++ "```" ++ ws3)%string).
    { clear Hb. induction body as [| d body IH]; cbn in *; [discriminate |].
      destruct (is_space d); [apply IH, Hstart |].
      injection Hstart as -> ->. reflexivity. }
    rewrite Hrest.
    pose proof (trimStart_no_backtick _ Hb) as Hb'. rewrite Hstart in Hb'.
    unfold strip_fence_open.
    assert (Hc : Ascii.eqb c backtick = false).
    { cbn in Hb'. apply andb_true_iff in Hb'. destruct Hb' as [Hc _].
      apply negb_true_iff in Hc. exact Hc. }
    change ((String c b' ++ ws2 ++ "```" ++ ws3)%string)
      with (String c (b' ++ ws2 ++ "```" ++ ws3)%string).
    pose proof (prefix_ci_head "``" (b' ++ ws2 ++ "```" ++ ws3) c Hc) as Hhead.
    change (String backtick "``") with "```" in Hhead.
    rewrite Hhead.
    change (String c (b' ++ ws2 ++ "```" ++ ws3)%string)
      with ((String c b' ++ ws2 ++ "```" ++ ws3)%string).
    replace ((String c b' ++ ws2 ++ "```" ++ ws3)%string)
      with (((String c b' ++ ws2) ++ "```" ++ ws3)%string).
    2:{ clear. generalize (String c b'). intros s.
        induction s as [| d s IH]; [reflexivity |].
        change (String d ((s ++ ws2) ++ "```" ++ ws3) = String d (s ++ ws2 ++ "```" ++ ws3)).
        rewrite IH. reflexivity. }
    rewrite strip_fence_close_at_end; [| | exact H3].
    + unfold trim. rewrite Hstart.
      assert (Hclear : StringFacts.starts_clear (String c b' ++ ws2)).
      { pose proof (StringFacts.trimStart_clear body) as Hcl. rewrite Hstart in Hcl.
        exact Hcl. }
      rewrite (StringFacts.trimStart_of_clear _ Hclear).
      apply trimEnd_app_blank, H2.
    + rewrite no_backtick_app, Hb'. apply blank_no_backtick, H2.
Qed.

Section WithEngine.
Context {E : JSON.Engine}.


End WithEngine.
End FenceFacts.

Module EmbeddedFacts.
Import Sleuth FenceFacts.

Definition without (c : ascii) (s : string) : bool :=
  all_chars (fun d => negb (Ascii.eqb d c)) s.

Lemma indexOf_without (c : ascii) (s : string) :
  without c s = true -> indexOf s c = None.
Proof.
  induction s as [| d s IH]; cbn; [reflexivity |].
  intros H. apply andb_true_iff in H. destruct H as [Hd Hs].
  apply negb_true_iff in Hd. rewrite Hd, (IH Hs). reflexivity.
Qed.

Lemma lastIndexOf_without (c : ascii) (s : string) :
  without c s = true -> lastIndexOf s c = None.
Proof.
  induction s as [| d s IH]; cbn; [reflexivity |].
  intros H. apply andb_true_iff in H. destruct H as [Hd Hs].
  apply negb_true_iff in Hd. rewrite Hd, (IH Hs). reflexivity.
Qed.

Lemma indexOf_first (c : ascii) (pre rest : string) :
  without c pre = true ->
  indexOf (pre ++ String c rest) c = Some (String.length pre).
Proof.
  induction pre as [| d pre IH]; cbn.
  - intros _. rewrite Ascii.eqb_refl. reflexivity.
  - intros H. apply andb_true_iff in H. destruct H as [Hd Hs].
    apply negb_true_iff in Hd. rewrite Hd, (IH Hs). reflexivity.
Qed.

Lemma lastIndexOf_last (c : ascii) (s post : string) :
  without c post = true ->
  lastIndexOf (s ++ String c post) c = Some (String.length s).
Proof.
  intros Hpost. induction s as [| d s IH]; cbn.
  - rewrite (lastIndexOf_without _ _ Hpost), Ascii.eqb_refl. reflexivity.
  - cbn in IH. rewrite IH. reflexivity.
Qed.

Lemma substring_skip (pre s : string) (n : nat) :
  substring (String.length pre) n (pre ++ s) = substring 0 n s.
Proof. induction pre as [| d pre IH]; cbn; [reflexivity | exact IH]. Qed.

Lemma substring_take (x post : string) :
  substring 0 (String.length x) (x ++ post) = x.
Proof.
  induction x as [| d x IH]; cbn.
  - destruct post; reflexivity.
  - rewrite IH. reflexivity.
Qed.

Lemma length_app (s t : string) :
  String.length (s ++ t) = String.length s + String.length t.
Proof. induction s as [| d s IH]; cbn; [reflexivity | rewrite IH; reflexivity]. Qed.

Lemma app_assoc (s t u : string) : ((s ++ t) ++ u = s ++ t ++ u)%string.
Proof. induction s as [| d s IH]; cbn; [reflexivity | rewrite IH; reflexivity]. Qed.

Section WithEngine.
Context {E : JSON.Engine}.


End WithEngine.
End EmbeddedFacts.

(** ** What every run of events keeps *)

Module InvariantFacts.
Import JSString Sleuth SleuthEvents ResponseFacts.

#[local] Arguments get : simpl never.
#[local] Arguments toStr : simpl never.
#[local] Arguments or_else : simpl never.
#[local] Arguments includes : simpl never.
#[local] Arguments toUpperCase : simpl never.

(** Projections through setters. *)
Ltac fields :=
  cbn [state resultPage creditClicks errorTimer llmTimer activeRequest settings screens
       hdOverlayHidden resultView descPageActive factPageActive hotdogView toast
       toggleVoice toggleHotdog hotdogRowHidden creditColor borderColor timers nextTimer
       outbox store
       set_state set_resultPage set_creditClicks set_errorTimer set_llmTimer
       set_activeRequest set_settings set_screens set_hdOverlayHidden set_resultView
       set_descPageActive set_factPageActive set_hotdogView set_toast set_toggleVoice
       set_toggleHotdog set_hotdogRowHidden set_creditColor set_borderColor set_timers
       set_nextTimer set_outbox set_store fst snd].

Definition analysing (s : State) : bool :=
  State_eqb s ANALYZING || State_eqb s HD_ANALYZING.

Definition modeOf (s : State) : Mode :=
  match s with HD_ANALYZING => hotdogMode | _ => standard end.

(** The timers [clearTimeout] leaves. *)
Definition others (h : option nat) (l : list Timer) : list Timer :=
  match h with
  | Some n => filter (fun t => negb (handle t =? n)) l
  | None => l
  end.

Lemma In_others (h : option nat) (l : list Timer) (t : Timer) :
  In t (others h l) <-> In t l /\ h <> Some (handle t).
Proof.
  destruct h as [n |]; cbn.
  - rewrite filter_In. split.
    + intros [Hin Hn]. split; [exact Hin |].
      intros Heq. injection Heq as ->. rewrite Nat.eqb_refl in Hn. discriminate.
    + intros [Hin Hn]. split; [exact Hin |].
      destruct (handle t =? n) eqn:Heq; [| reflexivity].
      apply Nat.eqb_eq in Heq. subst n. congruence.
  - split; [intros H; split; [exact H | discriminate] | tauto].
Qed.

Lemma clearTimeout_others (h : option nat) (a : App) :
  clearTimeout h a = set_timers (others h (timers a)) a.
Proof. destruct h; [reflexivity | destruct a; reflexivity]. Qed.

Ltac in_timers :=
  repeat match goal with
  | H : In _ (_ ++ _) |- _ => apply in_app_or in H; destruct H as [H | H]
  | H : In _ (others _ _) |- _ => apply In_others in H; destruct H as [H ?]
  | H : In _ [_] |- _ => destruct H as [H | []]; subst
  | H : In _ [] |- _ => destruct H
  end.

(** The border that goes with a verdict. *)
Definition verdictColor (v : HotdogView) : string :=
  if String.eqb (hd_verdict v) "HOT DOG" then "#22c55e" else "#ef4444".

Section WithHost.
Variable host : Host.
Context {E : JSON.Engine}.

(** [setState] as the fields it writes. *)
Lemma setState_setters (s : State) (a : App) :
  setState host s a =
  set_hdOverlayHidden (negb (State_eqb s HD_CAMERA))
    (set_screens (screenOf s)
      (set_borderColor (if negb (State_eqb s HD_RESULT) && borderApi host
                        then "#000000" else borderColor a)
        (set_llmTimer (if analysing s then llmTimer a else None)
          (set_timers (if analysing s then timers a else others (llmTimer a) (timers a))
            (set_state s a))))).
Proof.
  unfold setState. rewrite clearTimeout_others.
  destruct a, s, (borderApi host); reflexivity.
Qed.

(** What holds between any two steps of any handler. *)
Record Steady (a : App) : Prop := {
  steady_watchdog : forall t, In t (timers a) -> callback t = Watchdog ->
                    llmTimer a = Some (handle t);
  steady_hideToast : forall t, In t (timers a) -> callback t = HideToast ->
                     errorTimer a = Some (handle t);
  steady_llm_names : forall t, In t (timers a) -> llmTimer a = Some (handle t) ->
                     callback t = Watchdog;
  steady_err_names : forall t, In t (timers a) -> errorTimer a = Some (handle t) ->
                     callback t = HideToast;
  steady_fresh : forall t, In t (timers a) -> handle t < nextTimer a;
  steady_llm_fresh : forall h, llmTimer a = Some h -> h < nextTimer a;
  steady_err_fresh : forall h, errorTimer a = Some h -> h < nextTimer a;
  steady_toast : toast a <> None;
  steady_toast_timer : forall shown, toast a = Some shown -> toast_show shown = true ->
                       exists h ms, errorTimer a = Some h /\
                         In {| handle := h; callback := HideToast; delay := ms |} (timers a);
  steady_page : (resultPage a = 1 \/ resultPage a = 2) /\
                descPageActive a = (resultPage a =? 1) /\
                factPageActive a = (resultPage a =? 2);
  steady_credit : creditClicks a < 3;
  steady_toggles : toggleVoice a = voice (settings a) /\
                   toggleHotdog a = hotdog (settings a);
  steady_border : borderApi host = false -> borderColor a = "";
  steady_store : store a <> None -> readSettings (fresh (store a)) = settings a;
}.

(** What [setState] sets up. *)
Record Shown (a : App) : Prop := {
  shown_screens : screens a = screenOf (state a);
  shown_overlay : hdOverlayHidden a = negb (State_eqb (state a) HD_CAMERA);
  shown_border : state a <> HD_RESULT -> borderColor a = "" \/ borderColor a = "#000000";
  shown_verdict : state a = HD_RESULT -> borderApi host = true ->
                  borderColor a = verdictColor (hotdogView a);
}.

(** How the state, the request and the watchdog go together. *)
Record Waiting (a : App) : Prop := {
  waiting_request : analysing (state a) = true ->
                    exists r, activeRequest a = Some r /\ mode r = modeOf (state a);
  waiting_timer : analysing (state a) = false -> llmTimer a = None;
  waiting_quiet : state a = RESULT \/ state a = HD_RESULT -> activeRequest a = None;
}.

Record Inv (a : App) : Prop := {
  inv_steady : Steady a;
  inv_shown : Shown a;
  inv_waiting : Waiting a;
}.

(** The hide timer of a shown toast is still there once the timers
    another handle names are gone. *)
Lemma hide_timer_kept (a : App) (h : option nat) (shown : Toast) :
  Steady a -> toast a = Some shown -> toast_show shown = true ->
  (forall t, In t (timers a) -> h = Some (handle t) -> callback t <> HideToast) ->
  exists h' ms, errorTimer a = Some h' /\
    In {| handle := h'; callback := HideToast; delay := ms |} (others h (timers a)).
Proof.
  intros Ha Htoast Hshow Hother.
  destruct (steady_toast_timer _ Ha _ Htoast Hshow) as (h' & ms & Herr & Hin).
  exists h', ms. split; [exact Herr |]. apply In_others. split; [exact Hin |].
  intros Heq. apply (Hother _ Hin Heq). reflexivity.
Qed.

Lemma llm_not_hide (a : App) (t : Timer) :
  Steady a -> In t (timers a) -> llmTimer a = Some (handle t) -> callback t <> HideToast.
Proof.
  intros Ha Hin Hllm. rewrite (steady_llm_names _ Ha _ Hin Hllm). discriminate.
Qed.

Lemma Steady_setState (s : State) (a : App) : Steady a -> Steady (setState host s a).
Proof.
  intros Ha. pose proof Ha as [Hw Hh Hln Hen Hf Hlf Hef Ht Htt Hp Hc Hg Hb Hs].
  rewrite setState_setters.
  constructor; fields; try assumption.
  - intros t Hin Hcb. destruct (analysing s); [eauto |]. in_timers. exfalso. eauto.
  - intros t Hin Hcb. destruct (analysing s); [eauto |]. in_timers. eauto.
  - intros t Hin Hl. destruct (analysing s); [eauto | discriminate].
  - intros t Hin He. destruct (analysing s); [eauto |]. in_timers. eauto.
  - intros t Hin. destruct (analysing s); [eauto |]. in_timers. eauto.
  - intros h Hl. destruct (analysing s); [eauto | discriminate].
  - intros shown Htoast Hshow. destruct (analysing s); [eauto |].
    apply (hide_timer_kept a (llmTimer a) shown Ha Htoast Hshow).
    intros t Hin Hl. apply (llm_not_hide a t Ha Hin Hl).
  - intros Hapi. rewrite Hapi, andb_false_r. auto.
Qed.

(** What a state asks of the program that enters it. *)
Definition enters (s : State) (a : App) : Prop :=
  (s = RESULT \/ s = HD_RESULT -> activeRequest a = None) /\
  (s = HD_RESULT -> borderApi host = true -> borderColor a = verdictColor (hotdogView a)).

Lemma Shown_setState (s : State) (a : App) :
  Steady a -> enters s a -> Shown (setState host s a).
Proof.
  intros Hsteady [_ Hverdict]. rewrite setState_setters. constructor; fields; try reflexivity.
  - intros Hs. destruct (borderApi host) eqn:Hapi.
    + destruct s; cbn; auto. congruence.
    + rewrite andb_false_r. left. apply (steady_border _ Hsteady Hapi).
  - intros -> Hapi. cbn [State_eqb negb andb]. apply Hverdict; [reflexivity | exact Hapi].
Qed.

Lemma Waiting_setState (s : State) (a : App) :
  analysing s = false -> enters s a -> Waiting (setState host s a).
Proof.
  intros Hs [Hq _]. rewrite setState_setters.
  constructor; fields; rewrite ?Hs; [discriminate | reflexivity | exact Hq].
Qed.

Lemma Inv_setState (s : State) (a : App) :
  analysing s = false -> enters s a -> Steady a -> Inv (setState host s a).
Proof.
  intros Hs Hq Ha. constructor;
    [apply Steady_setState, Ha | apply Shown_setState; assumption
     | apply Waiting_setState; assumption].
Qed.

Lemma enters_camera (b : bool) (a : App) : enters (if b then HD_CAMERA else CAMERA) a.
Proof. destruct b; split; try (intros [H | H]; discriminate); intros H; discriminate. Qed.

Lemma enters_analysing (s : State) (a : App) : analysing s = true -> enters s a.
Proof. intros Hs. split; [intros [-> | ->] | intros ->]; discriminate. Qed.

Lemma Steady_showError (msg : string) (a : App) : Steady a -> Steady (showError msg a).
Proof.
  intros Ha. pose proof Ha as [Hw Hh Hln Hen Hf Hlf Hef Ht Htt Hp Hc Hg Hb Hs].
  unfold showError.
  destruct (toast a) as [t0 |] eqn:Htoast; [| congruence].
  unfold setTimeout. rewrite clearTimeout_others.
  constructor; fields; try assumption; try discriminate.
  - intros t Hin Hcb. in_timers; [eauto | discriminate].
  - intros t Hin Hcb. in_timers; [| reflexivity]. exfalso. eauto.
  - intros t Hin Hl. in_timers; [eauto |]. cbn [handle] in Hl.
    apply Hlf in Hl. lia.
  - intros t Hin He. in_timers; [| reflexivity]. cbn [handle] in *.
    injection He as He. apply Hf in Hin. lia.
  - intros t Hin. in_timers; [apply Hf in Hin; lia | cbn [handle]; lia].
  - intros h Hl. apply Hlf in Hl. lia.
  - intros h He. injection He as <-. lia.
  - intros shown _ _. exists (nextTimer a), 3000%N. split; [reflexivity |].
    apply in_or_app. right. left. reflexivity.
Qed.

Lemma showError_frame (msg : string) (a : App) :
  state (showError msg a) = state a /\ screens (showError msg a) = screens a /\
  hdOverlayHidden (showError msg a) = hdOverlayHidden a /\
  borderColor (showError msg a) = borderColor a /\
  activeRequest (showError msg a) = activeRequest a /\
  llmTimer (showError msg a) = llmTimer a /\
  hotdogView (showError msg a) = hotdogView a.
Proof.
  unfold showError. destruct (toast a); [| repeat split; reflexivity].
  unfold setTimeout. rewrite clearTimeout_others. repeat split; reflexivity.
Qed.

Lemma Inv_showError (msg : string) (a : App) : Inv a -> Inv (showError msg a).
Proof.
  intros [Hs [H1 H2 H3 H3'] [H4 H5 H6]].
  destruct (showError_frame msg a) as (Est & Esc & Eov & Ebc & Ear & Elt & Ehv).
  constructor; [apply Steady_showError, Hs | |]; constructor;
    rewrite ?Est, ?Esc, ?Eov, ?Ebc, ?Ear, ?Elt, ?Ehv; assumption.
Qed.

Lemma Steady_settle (a : App) : Steady a -> Steady (settle a).
Proof.
  intros Ha. pose proof Ha as [Hw Hh Hln Hen Hf Hlf Hef Ht Htt Hp Hc Hg Hb Hs].
  unfold settle, endRequest.
  rewrite clearTimeout_others. constructor; fields; try assumption; try discriminate.
  - intros t Hin Hcb. in_timers. exfalso. eauto.
  - intros t Hin Hcb. in_timers. eauto.
  - intros t Hin He. in_timers. eauto.
  - intros t Hin. in_timers. eauto.
  - intros shown Htoast Hshow.
    apply (hide_timer_kept a (llmTimer a) shown Ha Htoast Hshow).
    intros t Hin Hl. apply (llm_not_hide a t Ha Hin Hl).
Qed.

Lemma Inv_showResultPage (page : nat) (a : App) :
  page = 1 \/ page = 2 -> Inv a -> Inv (showResultPage page a).
Proof.
  intros Hpage [[Hw Hh Hln Hen Hf Hlf Hef Ht Htt Hp Hc Hg Hb Hs] [H1 H2 H3 H3'] [H4 H5 H6]].
  unfold showResultPage. constructor; constructor; fields; try assumption. auto.
Qed.

Lemma Inv_commit (o : Outcome) (a : App) : Inv a -> Inv (commit host o a).
Proof.
  intros Ha. pose proof (Steady_settle a (inv_steady _ Ha)) as Hs.
  destruct o as [| | parsed | parsed]; cbn [commit].
  - exact Ha.
  - apply Inv_setState; [reflexivity | apply (enters_camera false) |].
    apply Steady_showError, Hs.
  - unfold showHotdogResult. apply Inv_setState; [reflexivity | |].
    + split; [intros _; destruct (borderApi host); reflexivity |].
      intros _ Hapi. rewrite Hapi. fields. unfold verdictColor. cbn [hd_verdict].
      destruct (includes _ "HOT DOG" && negb (includes _ "NOT HOT DOG")); reflexivity.
    + destruct Hs as [Hw Hh Hln Hen Hf Hlf Hef Ht Htt Hp Hc Hg Hb Hst].
      destruct (borderApi host) eqn:Hapi; constructor; fields; try assumption.
      all: intros Hno; first [congruence | apply Hb; reflexivity].
  - unfold showResult, showResultPage. apply Inv_setState; [reflexivity | |].
    + split; [intros _; reflexivity | discriminate].
    + destruct Hs as [Hw Hh Hln Hen Hf Hlf Hef Ht Htt Hp Hc Hg Hb Hst].
      constructor; fields; try assumption. cbn. auto.
Qed.

Lemma Inv_handleLLMResponse (data : jsvalue) (a : App) :
  Inv a -> Inv (handleLLMResponse host data a).
Proof. intros Ha. rewrite handleLLMResponse_outcome. apply Inv_commit, Ha. Qed.

Lemma Steady_beginRequest (now rnd : nat) (prompt image : string) (a : App) :
  Steady a -> Steady (beginRequest now rnd prompt image a).
Proof.
  intros [Hw Hh Hln Hen Hf Hlf Hef Ht Htt Hp Hc Hg Hb Hst]. unfold beginRequest.
  constructor; fields; assumption.
Qed.

Lemma Steady_endRequest (a : App) : Steady a -> Steady (endRequest a).
Proof.
  intros [Hw Hh Hln Hen Hf Hlf Hef Ht Htt Hp Hc Hg Hb Hst]. unfold endRequest.
  constructor; fields; assumption.
Qed.

(** A request under way: what [beginRequest] leaves [sendToLLM] with. *)
Record Begun (b : App) : Prop := {
  begun_steady : Steady b;
  begun_shown : Shown b;
  begun_state : analysing (state b) = true;
  begun_request : exists r, activeRequest b = Some r /\ mode r = modeOf (state b);
}.

Lemma Begun_beginRequest (now rnd : nat) (prompt image : string) (s : State) (a : App) :
  analysing s = true -> Steady a ->
  Begun (beginRequest now rnd prompt image (setState host s a)).
Proof.
  intros Hs Ha. constructor.
  - apply Steady_beginRequest, Steady_setState, Ha.
  - destruct (Shown_setState s a Ha (enters_analysing s a Hs)) as [H1 H2 H3 H3'].
    constructor; assumption.
  - rewrite setState_setters. exact Hs.
  - unfold beginRequest. rewrite setState_setters. fields.
    eexists. split; [reflexivity |]. cbn [mode]. destruct s; try discriminate; reflexivity.
Qed.

Lemma analysing_not_result (s : State) :
  analysing s = true -> s = RESULT \/ s = HD_RESULT -> False.
Proof. intros Hs [-> | ->]; discriminate. Qed.

Lemma Begun_Inv (b : App) : Begun b -> Inv b.
Proof.
  intros [Hb Hsh Hstate Hreq]. constructor; [exact Hb | exact Hsh |].
  constructor.
  - intros _. exact Hreq.
  - rewrite Hstate. discriminate.
  - intros Hres. destruct (analysing_not_result _ Hstate Hres).
Qed.

(** A timer that is neither the watchdog nor the toast's. *)
Lemma Inv_timer (cb : Callback) (ms : N) (a : App) :
  cb <> Watchdog -> cb <> HideToast -> Inv a -> Inv (snd (setTimeout cb ms a)).
Proof.
  intros Hnw Hnh [[Hw Hh Hln Hen Hf Hlf Hef Ht Htt Hp Hc Hg Hb Hst] [H1 H2 H3 H3'] [H4 H5 H6]].
  unfold setTimeout. constructor; constructor; fields; try assumption.
  - intros t Hin Hcb. in_timers; [eauto | contradiction].
  - intros t Hin Hcb. in_timers; [eauto | contradiction].
  - intros t Hin Hl. in_timers; [eauto |]. cbn [handle] in Hl. apply Hlf in Hl. lia.
  - intros t Hin He. in_timers; [eauto |]. cbn [handle] in He. apply Hef in He. lia.
  - intros t Hin. in_timers; [apply Hf in Hin; lia | cbn [handle]; lia].
  - intros h Hl. apply Hlf in Hl. lia.
  - intros h He. apply Hef in He. lia.
  - intros shown Htoast Hshow. destruct (Htt shown Htoast Hshow) as (h' & ms' & Herr & Hin).
    exists h', ms'. split; [exact Herr | apply in_or_app; left; exact Hin].
Qed.

Lemma Inv_outbox (out : list string) (a : App) : Inv a -> Inv (set_outbox out a).
Proof.
  intros [[Hw Hh Hln Hen Hf Hlf Hef Ht Htt Hp Hc Hg Hb Hst] [H1 H2 H3 H3'] [H4 H5 H6]].
  constructor; constructor; fields; assumption.
Qed.

(** The watchdog is armed: the one before it, if any, is cancelled. *)
Lemma Inv_watch (a : App) :
  analysing (state a) = true -> Inv a ->
  Inv (let a := clearTimeout (llmTimer a) a in
       let (h, a) := setTimeout Watchdog RESPONSE_TIMEOUT_MS a in
       set_llmTimer (Some h) a).
Proof.
  intros Hstate [Hs [H1 H2 H3 H3'] [H4 H5 H6]].
  pose proof Hs as [Hw Hh Hln Hen Hf Hlf Hef Ht Htt Hp Hc Hg Hb Hst].
  cbv zeta. unfold setTimeout. rewrite clearTimeout_others.
  constructor; constructor; fields; try assumption.
  - intros t Hin Hcb. in_timers; [| reflexivity]. exfalso. eauto.
  - intros t Hin Hcb. in_timers; [eauto | discriminate].
  - intros t Hin Hl. in_timers; [| reflexivity].
    injection Hl as Hl. apply Hf in Hin. lia.
  - intros t Hin He. in_timers; [eauto |]. cbn [handle] in He. apply Hef in He. lia.
  - intros t Hin. in_timers; [apply Hf in Hin; lia | cbn [handle]; lia].
  - intros h Hl. injection Hl as <-. lia.
  - intros h He. apply Hef in He. lia.
  - intros shown Htoast Hshow.
    destruct (hide_timer_kept a (llmTimer a) shown Hs Htoast Hshow
                (fun t Hin Hl => llm_not_hide a t Hs Hin Hl)) as (h' & ms & Herr & Hin).
    exists h', ms. split; [exact Herr | apply in_or_app; left; exact Hin].
  - intros Hidle. congruence.
Qed.

Lemma Inv_sendToLLM_rest (post : PostOutcome) (image prompt : string) (b : App) :
  Begun b ->
  Inv (if negb (transport host) then snd (setTimeout MockResponse 1800 b)
       else match post with
            | Threw _ =>
                let a := endRequest b in
                let a := showError "Request failed — try again" a in
                setState host (if State_eqb (state a) HD_ANALYZING then HD_CAMERA
                               else CAMERA) a
            | Delivered =>
                let a :=
                  match JSON.stringify (requestPayload host image prompt) with
                  | Some text => set_outbox (outbox b ++ [text]) b
                  | None => b
                  end in
                let a := clearTimeout (llmTimer a) a in
                let (h, a) := setTimeout Watchdog RESPONSE_TIMEOUT_MS a in
                set_llmTimer (Some h) a
            end).
Proof.
  intros Hb. pose proof (Begun_Inv b Hb) as Hinv.
  destruct (transport host); cbn [negb].
  - destruct post as [| message].
    + destruct (JSON.stringify (requestPayload host image prompt)).
      * apply Inv_watch; [apply Hb | apply Inv_outbox, Hinv].
      * apply Inv_watch; [apply Hb | exact Hinv].
    + cbv zeta. apply Inv_setState.
      * destruct (State_eqb _ HD_ANALYZING); reflexivity.
      * apply enters_camera.
      * apply Steady_showError, Steady_endRequest, Hinv.
  - apply Inv_timer; [discriminate | discriminate | exact Hinv].
Qed.

Lemma Inv_doCapture (now rnd : nat) (frame : option string) (post : PostOutcome) (a : App) :
  Inv a -> Inv (doCapture host now rnd frame post a).
Proof.
  intros Ha. pose proof (inv_steady _ Ha) as Hs.
  unfold doCapture. cbv zeta.
  set (next := if State_eqb (state a) HD_CAMERA then HD_ANALYZING else ANALYZING).
  assert (Hnext : analysing next = true).
  { unfold next. destruct (State_eqb (state a) HD_CAMERA); reflexivity. }
  assert (Hfail : forall msg,
            Inv (setState host (if State_eqb (state a) HD_CAMERA then HD_CAMERA else CAMERA)
                   (showError msg (setState host next a)))).
  { intros msg. apply Inv_setState.
    - destruct (State_eqb (state a) HD_CAMERA); reflexivity.
    - apply enters_camera.
    - apply Steady_showError, Steady_setState, Hs. }
  destruct frame as [imageBase64 |]; [| apply Hfail].
  destruct (is_empty imageBase64); [apply Hfail |].
  apply Inv_sendToLLM_rest, Begun_beginRequest; assumption.
Qed.

Lemma Inv_returnToCamera (a : App) : Inv a -> Inv (returnToCamera host a).
Proof.
  intros Ha. apply Inv_setState; [| apply enters_camera | apply Ha].
  destruct (hotdog (settings a)); reflexivity.
Qed.

(** [saveSettings] writes the settings as they are at the time: a start
    over the store it leaves reads them back. *)
Lemma saved_read_back (s : Settings) (plain : string -> option string) (text : string) :
  JSON.stringify (settingsJSON s) = Some text ->
  readSettings (fresh (Some (fun k => if String.eqb k STORAGE_KEY
                                      then Some (Base64.btoa text) else plain k))) = s.
Proof.
  intros Htext.
  destruct (StorageFacts.saved_blob s) as (text' & Htext' & Hback & Hfilled & Hparse).
  rewrite Htext in Htext'. injection Htext' as <-.
  unfold readSettings. cbn [store fresh].
  change (String.eqb STORAGE_KEY STORAGE_KEY) with true. cbv iota.
  rewrite Hfilled, Hback, Hparse. destruct s as [[] []]; reflexivity.
Qed.

Lemma stringify_settings (s : Settings) :
  exists text, JSON.stringify (settingsJSON s) = Some text.
Proof.
  destruct (StorageFacts.saved_blob s) as (text & Htext & _). eauto.
Qed.

Lemma Inv_onToggleVoice (a : App) : Inv a -> Inv (onToggleVoice a).
Proof.
  intros [[Hw Hh Hln Hen Hf Hlf Hef Ht Htt Hp Hc Hg Hb Hst] [H1 H2 H3 H3'] [H4 H5 H6]].
  unfold onToggleVoice, saveSettings. cbv zeta. fields.
  destruct (store a) as [plain |] eqn:Hstore.
  - destruct (stringify_settings {| voice := negb (voice (settings a));
                                    hotdog := hotdog (settings a) |}) as (text & Htext).
    rewrite Htext.
    constructor; constructor; fields; try assumption.
    + split; [reflexivity | apply Hg].
    + intros _. apply saved_read_back, Htext.
  - constructor; constructor; fields; try assumption.
    + split; [reflexivity | apply Hg].
    + rewrite Hstore. congruence.
Qed.

Lemma Inv_onToggleHotdog (a : App) : Inv a -> Inv (onToggleHotdog a).
Proof.
  intros [[Hw Hh Hln Hen Hf Hlf Hef Ht Htt Hp Hc Hg Hb Hst] [H1 H2 H3 H3'] [H4 H5 H6]].
  unfold onToggleHotdog, saveSettings. cbv zeta. fields.
  destruct (store a) as [plain |] eqn:Hstore.
  - destruct (stringify_settings {| voice := voice (settings a);
                                    hotdog := negb (hotdog (settings a)) |}) as (text & Htext).
    rewrite Htext.
    constructor; constructor; fields; try assumption.
    + split; [apply Hg | reflexivity].
    + intros _. apply saved_read_back, Htext.
  - constructor; constructor; fields; try assumption.
    + split; [apply Hg | reflexivity].
    + rewrite Hstore. congruence.
Qed.

Lemma Inv_onCredit (a : App) : Inv a -> Inv (onCredit a).
Proof.
  intros [[Hw Hh Hln Hen Hf Hlf Hef Ht Htt Hp Hc Hg Hb Hst] [H1 H2 H3 H3'] [H4 H5 H6]].
  unfold onCredit. cbv zeta. fields.
  destruct (3 <=? S (creditClicks a)) eqn:Hthree.
  - apply Inv_timer; [discriminate | discriminate |].
    constructor; constructor; fields; try assumption. lia.
  - apply Nat.leb_gt in Hthree.
    constructor; constructor; fields; assumption.
Qed.

(** A timer leaves the pending ones. *)
Lemma Inv_cancel (h : nat) (a : App) :
  (forall t, In t (timers a) -> handle t = h -> callback t <> HideToast) ->
  Inv a -> Inv (clearTimeout (Some h) a).
Proof.
  intros Hother [Hs [H1 H2 H3 H3'] [H4 H5 H6]].
  pose proof Hs as [Hw Hh Hln Hen Hf Hlf Hef Ht Htt Hp Hc Hg Hb Hst].
  rewrite clearTimeout_others.
  constructor; constructor; fields; try assumption.
  - intros t Hin Hcb. in_timers. eauto.
  - intros t Hin Hcb. in_timers. eauto.
  - intros t Hin Hl. in_timers. eauto.
  - intros t Hin He. in_timers. eauto.
  - intros t Hin. in_timers. eauto.
  - intros shown Htoast Hshow.
    apply (hide_timer_kept a (Some h) shown Hs Htoast Hshow).
    intros t Hin Heq. injection Heq as Heq. apply (Hother t Hin). congruence.
Qed.

(** A timer comes due. *)
Lemma Inv_fire (h : nat) (a : App) : Inv a -> Inv (fire host h a).
Proof.
  intros Ha. unfold fire.
  destruct (find (fun t => handle t =? h) (timers a)) as [t |] eqn:Hfind; [| exact Ha].
  apply find_some in Hfind. destruct Hfind as [Hin Hh]. apply Nat.eqb_eq in Hh.
  pose proof (inv_steady _ Ha) as Hs.
  destruct (callback t) eqn:Hcb.
  2:{ (* the toast goes, and with it every timer of that handle *)
    cbn [run]. rewrite clearTimeout_others. fields.
    destruct Ha as [_ [H1 H2 H3 H3'] [H4 H5 H6]].
    destruct Hs as [Hw Hh' Hln Hen Hf Hlf Hef Ht Htt Hp Hc Hg Hb Hst].
    destruct (toast a) as [t0 |] eqn:Htoast; [| congruence].
    constructor; constructor; fields; try assumption; try discriminate.
    - intros t' Hin' Hcb'. in_timers. eauto.
    - intros t' Hin' Hcb'. in_timers. eauto.
    - intros t' Hin' Hl. in_timers. eauto.
    - intros t' Hin' He. in_timers. eauto.
    - intros t' Hin'. in_timers. eauto.
    - intros shown Heq Hshow. injection Heq as <-. discriminate Hshow. }
  all: assert (Hcleared : Inv (clearTimeout (Some h) a));
    [ apply Inv_cancel; [| exact Ha];
      intros t' Hin' Heq Hhide;
      pose proof (steady_hideToast _ Hs _ Hin' Hhide) as He;
      rewrite Heq, <- Hh in He;
      rewrite (steady_err_names _ Hs _ Hin He) in Hcb; discriminate
    | cbn [run] ].
  - unfold watchdog.
    destruct (State_eqb (state (clearTimeout (Some h) a)) ANALYZING
              || State_eqb (state (clearTimeout (Some h) a)) HD_ANALYZING);
      [apply Inv_showError, Hcleared | exact Hcleared].
  - apply Inv_handleLLMResponse, Hcleared.
  - destruct Hcleared
      as [[Hw Hh' Hln Hen Hf Hlf Hef Ht Htt Hp Hc Hg Hb Hst] [H1 H2 H3 H3'] [H4 H5 H6]].
    constructor; constructor; fields; assumption.
Qed.

Lemma Inv_dispatch (e : Event) (a : App) : Inv a -> Inv (dispatch host e a).
Proof.
  intros Ha. destruct e; cbn [dispatch].
  - unfold onSideClick. destruct (state a) eqn:Hstate; try exact Ha.
    + apply Inv_doCapture, Ha.
    + apply Inv_returnToCamera, Ha.
    + apply Inv_returnToCamera, Ha.
    + apply Inv_doCapture, Ha.
    + apply Inv_setState; [reflexivity | apply (enters_camera true) | apply Ha].
  - unfold onLongPress. destruct (state a); try exact Ha; apply Inv_returnToCamera, Ha.
  - unfold onScrollUp. destruct (state a); try exact Ha.
    destruct (resultPage a =? 2); [apply Inv_showResultPage; auto | exact Ha].
  - unfold onScrollDown. destruct (state a); try exact Ha.
    destruct (resultPage a =? 1); [apply Inv_showResultPage; auto |].
    destruct (resultPage a =? 2); [apply Inv_returnToCamera, Ha | exact Ha].
  - apply Inv_setState; [reflexivity | | apply Ha].
    split; [intros [H | H]; discriminate | discriminate].
  - apply Inv_returnToCamera, Ha.
  - apply Inv_returnToCamera, Ha.
  - apply Inv_onToggleVoice, Ha.
  - apply Inv_onToggleHotdog, Ha.
  - apply Inv_onCredit, Ha.
  - apply Inv_handleLLMResponse, Ha.
  - unfold onWindowMessage, onPluginMsg.
    destruct (truthy data && String.eqb (typeof data) "string").
    + destruct (JSON.parse (toStr data)); apply Inv_handleLLMResponse, Ha.
    + destruct (truthy data); [apply Inv_handleLLMResponse, Ha | exact Ha].
  - apply Inv_fire, Ha.
Qed.

Lemma Inv_started (plain : option (string -> option string)) : Inv (started plain).
Proof.
  unfold started, addErrorToast, loadSettings. cbv zeta. fields.
  destruct (hotdog (readSettings (fresh plain))) eqn:Hhotdog;
    (constructor; constructor; fields;
     cbn [fresh state timers llmTimer errorTimer resultPage creditClicks borderColor
          screens hdOverlayHidden descPageActive factPageActive activeRequest store
          nextTimer];
     try reflexivity; try discriminate; try lia; auto).
  all: try (intros shown Heq Hshow; injection Heq as <-; discriminate Hshow).
  all: try (intros t []).
  all: split; [reflexivity | symmetry; exact Hhotdog].
Qed.

(** The message listeners are bound when the script is read, before
    [DOMContentLoaded]: a message that comes that early finds the camera
    state and no request, and is dropped. *)
Lemma early_message_dropped (plain : option (string -> option string)) (data : jsvalue) :
  handleLLMResponse host data (fresh plain) = fresh plain /\
  handleLLMResponse host data (loadSettings (fresh plain)) = loadSettings (fresh plain).
Proof.
  split; [reflexivity |].
  unfold handleLLMResponse, waitingForResponse, loadSettings. cbv zeta. fields.
  destruct (hotdog (readSettings (fresh plain))); reflexivity.
Qed.

Lemma reachable_Inv (plain : option (string -> option string)) (a : App) :
  reachable host plain a -> Inv a.
Proof.
  induction 1 as [| a e _ IH]; [apply Inv_started | apply Inv_dispatch, IH].
Qed.

(** X8. After any run of events the page shows what the variables say:
    the screen of the state is the one active screen (none in the hot dog
    camera), the hot dog overlay is visible in the hot dog camera only,
    a coloured border is on the hot dog result only, green with the
    verdict [HOT DOG] and red with the other, and the result page is 1 or
    2 with exactly that page active. *)
Theorem page_follows_state (plain : option (string -> option string)) (a : App) :
  reachable host plain a ->
  screens a = screenOf (state a) /\
  hdOverlayHidden a = negb (State_eqb (state a) HD_CAMERA) /\
  (state a <> HD_RESULT -> borderColor a = "" \/ borderColor a = "#000000") /\
  (state a = HD_RESULT -> borderApi host = true ->
   borderColor a = if String.eqb (hd_verdict (hotdogView a)) "HOT DOG"
                   then "#22c55e" else "#ef4444") /\
  (resultPage a = 1 \/ resultPage a = 2) /\
  descPageActive a = (resultPage a =? 1) /\
  factPageActive a = (resultPage a =? 2).
Proof.
  intros Hreach. apply reachable_Inv in Hreach.
  destruct Hreach as [Hs [H1 H2 H3 H3'] _].
  split; [exact H1 | split; [exact H2 | split; [exact H3 | split; [exact H3' |]]]].
  apply (steady_page _ Hs).
Qed.


(** X10. A result on screen is not overwritten: in [RESULT] and in
    [HD_RESULT] no request is active, and a message that arrives, through
    the bridge or as a window message, changes nothing. *)
Theorem result_stays (plain : option (string -> option string)) (a : App) (data : jsvalue) :
  reachable host plain a -> state a = RESULT \/ state a = HD_RESULT ->
  activeRequest a = None /\
  dispatch host (PluginMessage data) a = a /\
  dispatch host (WindowMessage data) a = a.
Proof.
  intros Hreach Hres. apply reachable_Inv in Hreach.
  pose proof (waiting_quiet _ (inv_waiting _ Hreach) Hres) as Hnone.
  assert (Hdrop : forall d, handleLLMResponse host d a = a).
  { intros d. unfold handleLLMResponse, waitingForResponse. rewrite Hnone.
    destruct Hres as [-> | ->]; reflexivity. }
  split; [exact Hnone | split; [apply Hdrop |]].
  cbn [dispatch]. unfold onWindowMessage, onPluginMsg.
  destruct (truthy data && String.eqb (typeof data) "string").
  - destruct (JSON.parse (toStr data)); apply Hdrop.
  - destruct (truthy data); [apply Hdrop | reflexivity].
Qed.

(** X11. No timer of the program is left behind: a pending watchdog is
    the one [llmTimer] names, and the program is waiting for a response;
    a pending toast timer is the one [errorTimer] names. *)
Theorem timers_accounted (plain : option (string -> option string)) (a : App) (h : nat) :
  reachable host plain a ->
  (pending h Watchdog a -> llmTimer a = Some h /\ waitingForResponse a = true) /\
  (pending h HideToast a -> errorTimer a = Some h).
Proof.
  intros Hreach. apply reachable_Inv in Hreach.
  destruct Hreach as [Hs _ Hw]. split.
  - intros (ms & Hin).
    pose proof (steady_watchdog _ Hs _ Hin eq_refl) as Hllm. cbn [handle] in Hllm.
    split; [exact Hllm |].
    change (waitingForResponse a) with (analysing (state a)).
    destruct (analysing (state a)) eqn:Hst; [reflexivity |].
    rewrite (waiting_timer _ Hw Hst) in Hllm. discriminate.
  - intros (ms & Hin). apply (steady_hideToast _ Hs _ Hin eq_refl).
Qed.

(** X12. A toast that shows has its timer pending, and when that timer
    comes due the toast is hidden, its text kept. *)
Theorem toast_goes (plain : option (string -> option string)) (a : App) (shown : Toast) :
  reachable host plain a -> toast a = Some shown -> toast_show shown = true ->
  exists h, errorTimer a = Some h /\ pending h HideToast a /\
    toast (fire host h a) = Some {| toast_text := toast_text shown; toast_show := false |}.
Proof.
  intros Hreach Htoast Hshow. apply reachable_Inv in Hreach.
  pose proof (inv_steady _ Hreach) as Hs.
  destruct (steady_toast_timer _ Hs _ Htoast Hshow) as (h & ms & Herr & Hin).
  exists h. split; [exact Herr | split; [exists ms; exact Hin |]].
  unfold fire.
  destruct (find (fun t => handle t =? h) (timers a)) as [t |] eqn:Hfind.
  - apply find_some in Hfind. destruct Hfind as [Hint Hh]. apply Nat.eqb_eq in Hh.
    assert (Hcb : callback t = HideToast).
    { apply (steady_err_names _ Hs _ Hint). rewrite Hh. exact Herr. }
    rewrite Hcb. cbn [run]. rewrite clearTimeout_others. fields.
    rewrite Htoast. reflexivity.
  - pose proof (find_none _ _ Hfind _ Hin) as Hno. cbn [handle] in Hno.
    rewrite Nat.eqb_refl in Hno. discriminate.
Qed.

(** X13. The toggles show the settings, and the settings are in the
    store: where the host has one (a store that takes what is written to
    it), a start over the store as it is now loads the settings as they
    are now. *)
Theorem settings_kept (plain : option (string -> option string)) (a : App) :
  reachable host plain a ->
  toggleVoice a = voice (settings a) /\
  toggleHotdog a = hotdog (settings a) /\
  (store a <> None -> settings (started (store a)) = settings a).
Proof.
  intros Hreach. apply reachable_Inv in Hreach.
  pose proof (inv_steady _ Hreach) as Hs.
  destruct (steady_toggles _ Hs) as [Hv Hh].
  split; [exact Hv | split; [exact Hh |]].
  intros Hstore. unfold started, addErrorToast. fields.
  rewrite StorageFacts.loadSettings_settings. apply (steady_store _ Hs Hstore).
Qed.

End WithHost.
End InvariantFacts.

(** ** More on the content filter *)

Module RegExpFacts.
Import JSString RegExp.
Local Open Scope string_scope.

(** A pattern with no word boundary in it. *)
Definition boundary_free (r : regex) : bool :=
  forallb (fun p => match what p with ABoundary => false | _ => true end) r.

(** The repetition of one piece, as [match_here] runs it. *)
Fixpoint many (p : piece) (a : atom) (rest : option ascii -> string -> bool)
    (n : nat) (prev : option ascii) (s : string) {struct s} : bool :=
  if (if (at_least p <=? n)%nat then rest prev s else false) then true
  else match s with
       | String c s' =>
           if below n (at_most p) && accepts a c
           then many p a rest (S n) (Some c) s'
           else false
       | EmptyString => false
       end.

Lemma match_here_cons (p : piece) (r : regex) (prev : option ascii) (s : string) :
  match_here (p :: r) prev s =
  match what p with
  | ABoundary => if xorb (word_before prev) (word_after s) then match_here r prev s else false
  | a => many p a (match_here r) 0 prev s
  end.
Proof.
  cbn [match_here]. destruct (what p) as [c | members |]; [| | reflexivity].
  - generalize 0 as n. revert prev.
    induction s as [| d s IH]; intros prev n; [reflexivity |].
    cbn [many]. rewrite <- IH. reflexivity.
  - generalize 0 as n. revert prev.
    induction s as [| d s IH]; intros prev n; [reflexivity |].
    cbn [many]. rewrite <- IH. reflexivity.
Qed.

Lemma many_extend (p : piece) (a : atom) (rest : option ascii -> string -> bool)
    (post : string) :
  (forall prev prev' s, rest prev s = true -> rest prev' (s ++ post) = true) ->
  forall s n prev prev', many p a rest n prev s = true ->
                         many p a rest n prev' (s ++ post) = true.
Proof.
  intros Hrest. induction s as [| c s IH]; intros n prev prev' H.
  - cbn [many] in H.
    destruct (if (at_least p <=? n)%nat then rest prev "" else false) eqn:Hhere; [| discriminate].
    destruct ((at_least p <=? n)%nat) eqn:Hlo; [| discriminate].
    apply (Hrest prev prev') in Hhere. cbn [append] in Hhere |- *.
    destruct post as [| d post']; cbn [many]; rewrite Hlo, Hhere; reflexivity.
  - cbn [append many] in H |- *.
    destruct (if (at_least p <=? n)%nat then rest prev (String c s) else false) eqn:Hhere.
    + destruct ((at_least p <=? n)%nat) eqn:Hlo; [| discriminate].
      apply (Hrest prev prev') in Hhere. cbn [append] in Hhere. rewrite Hhere. reflexivity.
    + destruct (below n (at_most p) && accepts a c); [| discriminate].
      rewrite (IH _ _ (Some c) H).
      destruct (if (at_least p <=? n)%nat then rest prev' (String c (s ++ post)) else false);
        reflexivity.
Qed.

(** What matches at a place still matches there when text is added behind
    it. *)
Lemma match_here_extend (r : regex) (post : string) :
  boundary_free r = true ->
  forall prev prev' s, match_here r prev s = true -> match_here r prev' (s ++ post) = true.
Proof.
  induction r as [| p r IH]; intros Hfree prev prev' s H; [reflexivity |].
  cbn [boundary_free forallb] in Hfree. apply andb_true_iff in Hfree.
  destruct Hfree as [Hp Hr]. rewrite match_here_cons in H |- *.
  destruct (what p) as [c | members |]; [| | discriminate].
  - apply (many_extend p _ _ post (IH Hr)) with (prev := prev). exact H.
  - apply (many_extend p _ _ post (IH Hr)) with (prev := prev). exact H.
Qed.

Lemma search_eq (r : regex) (prev : option ascii) (s : string) :
  search r prev s =
  if match_here r prev s then true
  else match s with
       | String c s' => search r (Some c) s'
       | EmptyString => false
       end.
Proof. destruct s; reflexivity. Qed.

Lemma search_extend (r : regex) (post : string) :
  boundary_free r = true ->
  forall s prev prev', search r prev s = true -> search r prev' (s ++ post) = true.
Proof.
  intros Hfree. induction s as [| c s IH]; intros prev prev' H.
  - rewrite search_eq in H. rewrite search_eq.
    destruct (match_here r prev "") eqn:Hhere; [| discriminate].
    rewrite (match_here_extend r post Hfree prev prev' _ Hhere). reflexivity.
  - rewrite search_eq in H. rewrite search_eq.
    destruct (match_here r prev (String c s)) eqn:Hhere.
    + rewrite (match_here_extend r post Hfree prev prev' _ Hhere). reflexivity.
    + cbn [append]. rewrite (IH _ (Some c) H).
      destruct (match_here r prev' (String c (s ++ post))); reflexivity.
Qed.

(** A match is found wherever the text that has it is put. *)
Lemma search_inside (r : regex) (pre s post : string) :
  boundary_free r = true ->
  forall prev prev', search r prev s = true -> search r prev' (pre ++ s ++ post) = true.
Proof.
  intros Hfree. induction pre as [| c pre IH]; intros prev prev' H.
  - apply (search_extend r post Hfree s prev prev' H).
  - cbn [append]. rewrite search_eq. rewrite (IH prev (Some c) H).
    destruct (match_here r prev' (String c (pre ++ s ++ post))); reflexivity.
Qed.

End RegExpFacts.

Module OverblockFacts.
Import JSString ProfanityFilter RegExpFacts.
Local Open Scope string_scope.

Lemma map_chars_app (f : ascii -> ascii) (s t : string) :
  map_chars f (s ++ t) = (map_chars f s ++ map_chars f t)%string.
Proof. induction s as [| c s IH]; cbn; [reflexivity | rewrite IH; reflexivity]. Qed.

Lemma remove_spacers_app (s t : string) :
  remove_spacers (s ++ t) = (remove_spacers s ++ remove_spacers t)%string.
Proof.
  induction s as [| c s IH]; cbn [append remove_spacers]; [reflexivity |].
  rewrite IH. destruct (is_space c || Ascii.eqb c "_"%char || Ascii.eqb c "-"%char
                        || Ascii.eqb c "."%char || Ascii.eqb c "*"%char); reflexivity.
Qed.

Lemma normalize_app (s t : string) :
  normalize (s ++ t) = (normalize s ++ normalize t)%string.
Proof.
  unfold normalize, replace_char. rewrite remove_spacers_app, !map_chars_app. reflexivity.
Qed.

Lemma toLowerCase_app (s t : string) :
  toLowerCase (s ++ t) = (toLowerCase s ++ toLowerCase t)%string.
Proof. apply map_chars_app. Qed.

(** The patterns of the second pass have no word boundary. *)
Lemma simplePatterns_free :
  forallb (fun source => match RegExp.compile source with
                         | Some r => boundary_free r
                         | None => true
                         end) simplePatterns = true.
Proof. vm_compute. reflexivity. Qed.

(** The second pass of [check]: the blocked patterns, stripped, on the
    normalized text. *)
Definition second_pass (text : string) : bool :=
  existsb (fun pattern => RegExp.test pattern (normalize (toLowerCase text))) simplePatterns.

Lemma second_pass_inside (pre word post : string) :
  second_pass word = true -> second_pass (pre ++ word ++ post) = true.
Proof.
  unfold second_pass. intros H. apply existsb_exists in H.
  destruct H as (pattern & Hin & Htest). apply existsb_exists.
  exists pattern. split; [exact Hin |].
  pose proof simplePatterns_free as Hfree.
  rewrite forallb_forall in Hfree. specialize (Hfree _ Hin).
  unfold RegExp.test in *. destruct (RegExp.compile pattern) as [r |]; [| discriminate].
  rewrite !toLowerCase_app, !normalize_app.
  apply (search_inside r _ _ _ Hfree None None Htest).
Qed.


End OverblockFacts.

(** ** cyberdeck-ideas: what reaches the request *)

Module FormFacts.
Import JSString ProfanityFilter Cyberdeck EmbeddedFacts.
Local Open Scope string_scope.

(** On a string [check] raises nothing, and only [{clean: true}] is
    clean. *)
Lemma check_string (s : string) :
  exists v, check (VString s) = Some v /\ (clean v = true -> v = ok).
Proof.
  unfold check. destruct (negb (truthy (VString s))); [exists ok; auto |].
  cbv zeta.
  destruct (existsb _ patterns); [exists offensive; split; [reflexivity | discriminate] |].
  destruct (existsb _ simplePatterns);
    [exists offensive; split; [reflexivity | discriminate] |].
  destruct (existsb _ exactPatterns);
    [exists inappropriate; split; [reflexivity | discriminate] | exists ok; auto].
Qed.

Lemma checkAll_strings (title description : string) :
  exists v, checkAll (VString title) (VString description) = Some v /\
    (clean v = true ->
     check (VString title) = Some ok /\ check (VString description) = Some ok).
Proof.
  unfold checkAll.
  destruct (check_string title) as (tv & -> & Htv).
  destruct (clean tv) eqn:Ht; cbn [negb].
  - destruct (check_string description) as (dv & -> & Hdv).
    destruct (clean dv) eqn:Hd; cbn [negb].
    + exists ok. split; [reflexivity |]. intros _.
      rewrite (Htv eq_refl), (Hdv eq_refl). split; reflexivity.
    + exists dv. split; [reflexivity |]. congruence.
  - exists tv. split; [reflexivity |]. congruence.
Qed.

Lemma check_verdicts (text : jsvalue) (v : Verdict) :
  check text = Some v -> v = ok \/ v = offensive \/ v = inappropriate.
Proof.
  unfold check. destruct (negb (truthy text)); [intros [= <-]; auto |].
  destruct text; try discriminate. cbv zeta.
  destruct (existsb _ patterns); [intros [= <-]; auto |].
  destruct (existsb _ simplePatterns); [intros [= <-]; auto |].
  destruct (existsb _ exactPatterns); intros [= <-]; auto.
Qed.

Lemma checkAll_verdicts (title description : jsvalue) (v : Verdict) :
  checkAll title description = Some v -> v = ok \/ v = offensive \/ v = inappropriate.
Proof.
  unfold checkAll. destruct (check title) as [tv |] eqn:Ht; [| discriminate].
  destruct (negb (clean tv)); [intros [= <-]; apply (check_verdicts _ _ Ht) |].
  destruct (check description) as [dv |] eqn:Hd; [| discriminate].
  destruct (negb (clean dv)); [intros [= <-]; apply (check_verdicts _ _ Hd) |].
  intros [= <-]. auto.
Qed.


(** *** [escapeAttr] *)

Lemma without_app (c : ascii) (s t : string) :
  without c (s ++ t) = without c s && without c t.
Proof. apply FenceFacts.all_chars_app. Qed.

Lemma replace_all_gone (c : ascii) (text s : string) :
  without c text = true -> without c (replace_all c text s) = true.
Proof.
  intros Htext. induction s as [| d s IH]; [reflexivity |].
  cbn [replace_all]. destruct (Ascii.eqb d c) eqn:Hd.
  - rewrite without_app, Htext, IH. reflexivity.
  - unfold without in *. cbn [all_chars]. rewrite Hd, IH. reflexivity.
Qed.

Lemma replace_all_keeps (c d : ascii) (text s : string) :
  without c text = true -> without c s = true ->
  without c (replace_all d text s) = true.
Proof.
  intros Htext. induction s as [| e s IH]; [reflexivity |].
  unfold without in *. cbn [all_chars replace_all]. intros H.
  apply andb_true_iff in H. destruct H as [He Hs].
  destruct (Ascii.eqb e d).
  - fold (without c (text ++ replace_all d text s)).
    rewrite without_app. unfold without. rewrite Htext, (IH Hs). reflexivity.
  - cbn [all_chars]. rewrite He, (IH Hs). reflexivity.
Qed.

Lemma replace_all_same (c : ascii) (text s : string) :
  without c s = true -> replace_all c text s = s.
Proof.
  induction s as [| d s IH]; [reflexivity |].
  unfold without in *. cbn [all_chars replace_all]. intros H.
  apply andb_true_iff in H. destruct H as [Hd Hs].
  apply negb_true_iff in Hd. rewrite Hd, (IH Hs). reflexivity.
Qed.

(** X16. What [escapeAttr] returns has no double quote, no single quote
    and no angle bracket left in it, so it cannot end the attribute it is
    written into; a text with none of the four comes back as it is. *)
Theorem escapeAttr_closes_nothing (text : string) :
  (without dquote (escapeAttr text) = true /\
   without "'" (escapeAttr text) = true /\
   without "<" (escapeAttr text) = true /\
   without ">" (escapeAttr text) = true) /\
  (without dquote text = true -> without "'" text = true ->
   without "<" text = true -> without ">" text = true ->
   escapeAttr text = text).
Proof.
  unfold escapeAttr. split; [repeat split |].
  - do 3 (apply replace_all_keeps; [reflexivity |]). apply replace_all_gone. reflexivity.
  - do 2 (apply replace_all_keeps; [reflexivity |]). apply replace_all_gone. reflexivity.
  - apply replace_all_keeps; [reflexivity |]. apply replace_all_gone. reflexivity.
  - apply replace_all_gone. reflexivity.
  - intros Hd Hs Hl Hg.
    rewrite (replace_all_same dquote _ _ Hd), (replace_all_same "'" _ _ Hs),
            (replace_all_same "<" _ _ Hl), (replace_all_same ">" _ _ Hg).
    reflexivity.
Qed.

(** *** The counter of the title field *)

Lemma trimStart_length (s : string) : String.length (trimStart s) <= String.length s.
Proof.
  induction s as [| c s IH]; cbn [trimStart]; [reflexivity |].
  destruct (is_space c); cbn [String.length]; lia.
Qed.

Lemma trimEnd_length (s : string) : String.length (trimEnd s) <= String.length s.
Proof.
  induction s as [| c s IH]; cbn [trimEnd]; [reflexivity |]. cbv zeta.
  destruct (is_space c && is_empty (trimEnd s)); cbn [String.length]; lia.
Qed.

Lemma trim_length (s : string) : String.length (trim s) <= String.length s.
Proof.
  unfold trim. pose proof (trimEnd_length (trimStart s)). pose proof (trimStart_length s). lia.
Qed.

(** X17. The counter under the title field and [submitFeature] agree on
    the limit: a title that the counter does not mark as over is not
    refused as too long; the counter counts the field as typed, the check
    the trimmed title, so a title marked as over may still be taken. *)
Theorem counter_covers_limit (titleValue descValue : string) :
  charCountClass (String.length titleValue) <> "char-count over" ->
  submitFeature titleValue descValue <> Stopped "Title too long (max 150).".
Proof.
  unfold charCountClass, submitFeature. cbv zeta. intros Hcount.
  destruct (TITLE_HARD_LIMIT <? String.length titleValue)%nat eqn:Hover; [congruence |].
  apply Nat.ltb_ge in Hover. pose proof (trim_length titleValue) as Htrim.
  destruct (is_empty (trim titleValue) || (String.length (trim titleValue) <? 3)%nat);
    [discriminate |].
  destruct (TITLE_HARD_LIMIT <? String.length (trim titleValue))%nat eqn:Hlong.
  - apply Nat.ltb_lt in Hlong. lia.
  - destruct (checkAll (VString (trim titleValue)) (VString (trim descValue)))
      as [v |] eqn:Hv; [| discriminate].
    destruct (negb (clean v)); [| discriminate].
    destruct (checkAll_verdicts _ _ _ Hv) as [-> | [-> | ->]]; discriminate.
Qed.

End FormFacts.

(** ** The capture, from the side button *)

Module CaptureFacts.
Import JSString Sleuth SleuthEvents ResponseFacts InvariantFacts.

#[local] Arguments get : simpl never.

Section WithHost.
Variable host : Host.
Context {E : JSON.Engine}.

Lemma showError_shown (msg : string) (a : App) :
  toast a <> None ->
  toast (showError msg a) = Some {| toast_text := msg; toast_show := true |}.
Proof.
  intros Htoast. unfold showError. destruct (toast a); [| congruence].
  unfold setTimeout. rewrite clearTimeout_others. reflexivity.
Qed.

Lemma showError_outbox (msg : string) (a : App) : outbox (showError msg a) = outbox a.
Proof.
  unfold showError. destruct (toast a); [| reflexivity].
  unfold setTimeout. rewrite clearTimeout_others. reflexivity.
Qed.

(** X18. A press of the side button in a camera state while the video
    has no frame: the program is back in the camera state it was in, with
    that screen, the toast says that the camera is not ready, nothing is
    posted, no request is begun and no watchdog is armed. *)
Theorem capture_without_frame (a : App) (now rnd : nat) (frame : option string)
    (post : PostOutcome) :
  state a = CAMERA \/ state a = HD_CAMERA ->
  frame = None \/ frame = Some "" ->
  toast a <> None ->
  let a' := dispatch host (SideClick now rnd frame post) a in
  state a' = state a /\
  screens a' = screenOf (state a) /\
  toast a' = Some {| toast_text := "Camera not ready — try again"; toast_show := true |} /\
  outbox a' = outbox a /\
  activeRequest a' = activeRequest a /\
  llmTimer a' = None.
Proof.
  intros Hcam Hframe Htoast a'.
  assert (Hfail : a' = setState host (state a)
                         (showError "Camera not ready — try again"
                            (setState host (if State_eqb (state a) HD_CAMERA
                                            then HD_ANALYZING else ANALYZING) a))).
  { unfold a'. cbn [dispatch]. unfold onSideClick, doCapture.
    destruct Hcam as [Hs | Hs]; rewrite Hs; cbn [State_eqb]; cbv zeta;
      destruct Hframe as [-> | ->]; reflexivity. }
  rewrite Hfail. rewrite setState_setters. fields.
  destruct (showError_frame "Camera not ready — try again"
              (setState host (if State_eqb (state a) HD_CAMERA
                              then HD_ANALYZING else ANALYZING) a))
    as (_ & _ & _ & _ & Hreq & _).
  rewrite Hreq, showError_outbox, showError_shown.
  - rewrite setState_setters. fields.
    repeat split; try reflexivity.
    destruct Hcam as [-> | ->]; reflexivity.
  - rewrite setState_setters. fields. exact Htoast.
Qed.

(** X19. A press of the side button in a camera state with a frame, on
    the device, the post delivered: one message is posted, the JSON text
    of a payload with the frame as [imageBase64] and, as [message], the
    hot dog prompt in the hot dog camera and the standard one otherwise;
    and the request that is begun is of that flow, with the voice
    setting of the moment. *)
Theorem capture_posts_request (a : App) (now rnd : nat) (imageBase64 : string) :
  transport host = true ->
  state a = CAMERA \/ state a = HD_CAMERA ->
  is_empty imageBase64 = false ->
  let hd := State_eqb (state a) HD_CAMERA in
  let prompt := if hd then PROMPT_HOTDOG host else PROMPT_STANDARD host in
  let a' := dispatch host (SideClick now rnd (Some imageBase64) Delivered) a in
  (exists text, JSON.stringify (requestPayload host imageBase64 prompt) = Some text /\
                outbox a' = outbox a ++ [text]) /\
  get (requestPayload host imageBase64 prompt) "message" = VString prompt /\
  get (requestPayload host imageBase64 prompt) "imageBase64" = VString imageBase64 /\
  state a' = (if hd then HD_ANALYZING else ANALYZING) /\
  exists r, activeRequest a' = Some r /\
            mode r = (if hd then hotdogMode else standard) /\
            voiceToggle r = voice (settings a).
Proof.
  intros Htr Hcam Himg hd prompt a'.
  assert (Hsend : a' = sendToLLM host now rnd Delivered imageBase64 prompt
                         (setState host (if hd then HD_ANALYZING else ANALYZING) a)).
  { unfold a', prompt, hd. cbn [dispatch]. unfold onSideClick, doCapture.
    destruct Hcam as [Hs | Hs]; rewrite Hs; cbn [State_eqb]; cbv zeta;
      rewrite Himg; reflexivity. }
  destruct (TextFacts.stringify_defined (requestPayload host imageBase64 prompt))
    as (text & Htext); [discriminate |].
  rewrite Hsend. unfold sendToLLM. rewrite Htr. cbn [negb]. cbv zeta.
  rewrite Htext. unfold setTimeout, beginRequest.
  rewrite clearTimeout_others, setState_setters. fields.
  split; [exists text; split; reflexivity |].
  split; [reflexivity |].
  split; [unfold requestPayload; rewrite Himg; reflexivity |].
  split; [reflexivity |].
  eexists. split; [reflexivity |]. cbn [mode voiceToggle].
  split; [destruct hd; reflexivity | reflexivity].
Qed.

(** X20. From the first page of a result, scrolling down and then up
    leaves the program as it was, and scrolling down twice leaves the
    result for the camera of the mode the settings name. *)
Theorem paging_round_trip (plain : option (string -> option string)) (a : App) :
  reachable host plain a -> state a = RESULT -> resultPage a = 1 ->
  dispatch host ScrollUp (dispatch host ScrollDown a) = a /\
  resultPage (dispatch host ScrollDown a) = 2 /\
  state (dispatch host ScrollDown (dispatch host ScrollDown a))
    = if hotdog (settings a) then HD_CAMERA else CAMERA.
Proof.
  intros Hreach Hstate Hpage. apply reachable_Inv in Hreach.
  destruct (steady_page _ _ (inv_steady _ _ Hreach)) as (_ & Hdesc & Hfact).
  rewrite Hpage in Hdesc, Hfact. cbn in Hdesc, Hfact.
  assert (Hdown : dispatch host ScrollDown a = showResultPage 2 a).
  { cbn [dispatch]. unfold onScrollDown. rewrite Hstate, Hpage. reflexivity. }
  rewrite Hdown. split; [| split].
  - cbn [dispatch]. unfold onScrollUp, showResultPage. fields. rewrite Hstate. cbn.
    destruct a; cbn in *; subst; reflexivity.
  - reflexivity.
  - cbn [dispatch]. unfold onScrollDown, showResultPage. fields. rewrite Hstate. cbn.
    unfold returnToCamera. rewrite setState_setters. fields. reflexivity.
Qed.

Lemma find_new (l : list Timer) (x : Timer) :
  (forall t, In t l -> handle t < handle x) ->
  find (fun t => handle t =? handle x) (l ++ [x]) = Some x.
Proof.
  induction l as [| t l IH]; intros Hfresh; cbn [app find].
  - rewrite Nat.eqb_refl. reflexivity.
  - assert (Ht : (handle t =? handle x) = false).
    { apply Nat.eqb_neq. pose proof (Hfresh t (or_introl eq_refl)). lia. }
    rewrite Ht. apply IH. intros t' Hin. apply Hfresh. right. exact Hin.
Qed.

(** What the mock timer finds when it comes due after a capture off the
    device. *)
Lemma mock_due (plain : option (string -> option string)) (a : App) (now rnd : nat)
    (imageBase64 : string) (post : PostOutcome) :
  reachable host plain a -> transport host = false ->
  state a = CAMERA \/ state a = HD_CAMERA -> is_empty imageBase64 = false ->
  let next := if State_eqb (state a) HD_CAMERA then HD_ANALYZING else ANALYZING in
  let a1 := dispatch host (SideClick now rnd (Some imageBase64) post) a in
  outbox a1 = outbox a /\
  timers a1 = timers a ++ [{| handle := nextTimer a; callback := MockResponse;
                              delay := 1800 |}] /\
  exists b, dispatch host (TimerDue (nextTimer a)) a1 = handleLLMResponse host (mockResponse b) b
            /\ state b = next /\ accepted b = true /\
            isHotdogFlow b = State_eqb (state a) HD_CAMERA.
Proof.
  intros Hreach Htr Hcam Himg next a1. apply reachable_Inv in Hreach.
  assert (Hsend : a1 = snd (setTimeout MockResponse 1800
                              (beginRequest now rnd
                                 (if State_eqb (state a) HD_CAMERA then PROMPT_HOTDOG host
                                  else PROMPT_STANDARD host) imageBase64
                                 (setState host next a)))).
  { unfold a1, next. cbn [dispatch]. unfold onSideClick, doCapture, sendToLLM.
    destruct Hcam as [Hs | Hs]; rewrite Hs; cbn [State_eqb]; cbv zeta;
      rewrite Himg, Htr; reflexivity. }
  assert (Hnext : analysing next = true).
  { unfold next. destruct (State_eqb (state a) HD_CAMERA); reflexivity. }
  assert (Htimers : timers a1 = timers a ++ [{| handle := nextTimer a;
                                                callback := MockResponse;
                                                delay := 1800 |}]).
  { rewrite Hsend. unfold setTimeout, beginRequest. rewrite setState_setters. fields.
    rewrite Hnext. reflexivity. }
  split; [| split; [exact Htimers |]].
  { rewrite Hsend. unfold setTimeout, beginRequest. rewrite setState_setters. reflexivity. }
  cbn [dispatch]. unfold fire. rewrite Htimers.
  pose proof (find_new (timers a) {| handle := nextTimer a; callback := MockResponse;
                                      delay := 1800 |}
                (steady_fresh _ _ (inv_steady _ _ Hreach))) as Hfind.
  cbn [handle] in Hfind. rewrite Hfind.
  cbn [callback run]. eexists. split; [reflexivity |].
  rewrite clearTimeout_others, Hsend. unfold setTimeout, beginRequest.
  rewrite setState_setters. unfold accepted, isHotdogFlow, waitingForResponse. fields.
  cbn [mode]. fold (analysing next). rewrite Hnext.
  split; [reflexivity | split; [reflexivity |]].
  unfold next. destruct Hcam as [-> | ->]; reflexivity.
Qed.

(** X21. Off the device, where the host has no message handler, a
    capture posts nothing and sets a timer instead; when that timer comes
    due the canned answer is handled as a response would be: the result
    screen shows the mechanical keyboard, the hot dog result screen says
    that it is not a hot dog. *)
Theorem dev_capture_shows_mock (plain : option (string -> option string)) (a : App)
    (now rnd : nat) (imageBase64 : string) (post : PostOutcome) :
  reachable host plain a -> transport host = false ->
  state a = CAMERA \/ state a = HD_CAMERA -> is_empty imageBase64 = false ->
  let a1 := dispatch host (SideClick now rnd (Some imageBase64) post) a in
  let a2 := dispatch host (TimerDue (nextTimer a)) a1 in
  outbox a1 = outbox a /\
  pending (nextTimer a) MockResponse a1 /\
  (state a = CAMERA ->
   state a2 = RESULT /\
   result_name (resultView a2) = "Mechanical Keyboard" /\
   result_category (resultView a2) = "Technology") /\
  (state a = HD_CAMERA ->
   state a2 = HD_RESULT /\
   hd_verdict (hotdogView a2) = "NOT HOT DOG" /\
   hd_reason (hotdogView a2) = "This is a keyboard. Not a hot dog.").
Proof.
  intros Hreach Htr Hcam Himg a1 a2.
  destruct (mock_due plain a now rnd imageBase64 post Hreach Htr Hcam Himg)
    as (Hout & Htimers & b & Hdue & Hstate & Hacc & Hflow).
  fold a1 in Hout, Htimers, Hdue. fold a2 in Hdue.
  split; [exact Hout | split].
  { exists 1800%N. rewrite Htimers. apply in_or_app. right. left. reflexivity. }
  rewrite Hdue, handleLLMResponse_outcome, Hacc, Hflow. unfold mockResponse. rewrite Hstate.
  split; intros Hs; rewrite Hs; cbn [State_eqb].
  - match goal with
    | |- context [outcome ?d true false] =>
        replace (outcome d true false)
          with (StandardResult (VObject
                  [("name", VString "Mechanical Keyboard");
                   ("category", VString "Technology");
                   ("description", VString "A mechanical keyboard uses individual switches beneath each key for tactile feedback. Popular among programmers and gamers.");
                   ("fun_fact", VString "The first computer keyboard was derived from the typewriter, which itself was invented in 1868.")]))
          by (vm_compute; reflexivity)
    end.
    cbn [commit].
    match goal with
    | |- context [showResult host ?p ?x] =>
        destruct (showResult_view host p x) as (Hst & _ & _ & Hview)
    end.
    rewrite Hst, Hview. repeat split; reflexivity.
  - match goal with
    | |- context [outcome ?d true true] =>
        replace (outcome d true true)
          with (HotdogResult (VObject
                  [("result", VString "NOT HOT DOG");
                   ("reason", VString "This is a keyboard. Not a hot dog.")]))
          by (vm_compute; reflexivity)
    end.
    cbn [commit].
    match goal with
    | |- context [showHotdogResult host ?p ?x] =>
        destruct (showHotdogResult_view host p x) as (Hst & _ & Hview)
    end.
    rewrite Hst, Hview. repeat split; reflexivity.
Qed.

End WithHost.
End CaptureFacts.

(** ** The hidden row *)

Module UnlockFacts.
Import JSString Sleuth SleuthEvents ResponseFacts InvariantFacts.

#[local] Arguments get : simpl never.
#[local] Arguments toStr : simpl never.
#[local] Arguments or_else : simpl never.
#[local] Arguments includes : simpl never.
#[local] Arguments toUpperCase : simpl never.

Section WithHost.
Variable host : Host.
Context {E : JSON.Engine}.

Lemma credit_step (a : App) :
  creditClicks (onCredit a) = (if 3 <=? S (creditClicks a) then 0 else S (creditClicks a)) /\
  hotdogRowHidden (onCredit a)
    = (if 3 <=? S (creditClicks a) then false else hotdogRowHidden a).
Proof.
  unfold onCredit, setTimeout. cbv zeta. fields.
  destruct (3 <=? S (creditClicks a)); split; reflexivity.
Qed.

Lemma showError_row (msg : string) (a : App) :
  hotdogRowHidden (showError msg a) = hotdogRowHidden a.
Proof.
  unfold showError. destruct (toast a); [| reflexivity].
  unfold setTimeout. rewrite clearTimeout_others. reflexivity.
Qed.

Lemma setState_row (s : State) (a : App) :
  hotdogRowHidden (setState host s a) = hotdogRowHidden a.
Proof. rewrite setState_setters. reflexivity. Qed.

Lemma handleLLMResponse_row (data : jsvalue) (a : App) :
  hotdogRowHidden (handleLLMResponse host data a) = hotdogRowHidden a.
Proof.
  rewrite handleLLMResponse_outcome.
  destruct (outcome data (accepted a) (isHotdogFlow a)) as [| | parsed | parsed];
    cbn [commit]; unfold settle, endRequest.
  - reflexivity.
  - rewrite setState_row, showError_row, clearTimeout_others. reflexivity.
  - unfold showHotdogResult. rewrite setState_row, clearTimeout_others.
    destruct (borderApi host); reflexivity.
  - unfold showResult, showResultPage. rewrite setState_row, clearTimeout_others.
    reflexivity.
Qed.

Lemma doCapture_row (now rnd : nat) (frame : option string) (post : PostOutcome) (a : App) :
  hotdogRowHidden (doCapture host now rnd frame post a) = hotdogRowHidden a.
Proof.
  unfold doCapture. cbv zeta.
  assert (Hfail : forall msg s s',
            hotdogRowHidden (setState host s (showError msg (setState host s' a)))
            = hotdogRowHidden a).
  { intros msg s s'. rewrite setState_row, showError_row, setState_row. reflexivity. }
  destruct frame as [imageBase64 |]; [| apply Hfail].
  destruct (is_empty imageBase64); [apply Hfail |].
  unfold sendToLLM, beginRequest, endRequest, setTimeout. cbv zeta.
  destruct (transport host); cbn [negb].
  - destruct post as [| message].
    + rewrite clearTimeout_others.
      destruct (JSON.stringify _); fields; apply setState_row.
    + rewrite setState_row, showError_row. fields. apply setState_row.
  - fields. apply setState_row.
Qed.

Lemma dispatch_row (e : Event) (a : App) :
  hotdogRowHidden a = false -> hotdogRowHidden (dispatch host e a) = false.
Proof.
  intros Hrow. destruct e; cbn [dispatch].
  - unfold onSideClick, returnToCamera, closeSettings.
    destruct (state a); rewrite ?doCapture_row, ?setState_row; exact Hrow.
  - unfold onLongPress, returnToCamera, closeSettings.
    destruct (state a); rewrite ?setState_row; exact Hrow.
  - unfold onScrollUp, showResultPage.
    destruct (state a); try exact Hrow. destruct (resultPage a =? 2); exact Hrow.
  - unfold onScrollDown, showResultPage, returnToCamera.
    destruct (state a); try exact Hrow.
    destruct (resultPage a =? 1); [exact Hrow |].
    destruct (resultPage a =? 2); rewrite ?setState_row; exact Hrow.
  - rewrite setState_row. exact Hrow.
  - unfold closeSettings. rewrite setState_row. exact Hrow.
  - unfold returnToCamera. rewrite setState_row. exact Hrow.
  - unfold onToggleVoice, saveSettings. cbv zeta. fields.
    destruct (store a); [destruct (JSON.stringify _) |]; exact Hrow.
  - unfold onToggleHotdog, saveSettings. cbv zeta. fields.
    destruct (store a); [destruct (JSON.stringify _) |]; exact Hrow.
  - rewrite (proj2 (credit_step a)), Hrow.
    destruct (3 <=? S (creditClicks a)); reflexivity.
  - unfold onPluginMsg. rewrite handleLLMResponse_row. exact Hrow.
  - unfold onWindowMessage, onPluginMsg.
    destruct (truthy data && String.eqb (typeof data) "string").
    + destruct (JSON.parse (toStr data)); rewrite handleLLMResponse_row; exact Hrow.
    + destruct (truthy data); rewrite ?handleLLMResponse_row; exact Hrow.
  - unfold fire. destruct (find _ (timers a)) as [t |]; [| exact Hrow].
    destruct (callback t); cbn [run].
    + unfold watchdog.
      destruct (State_eqb _ ANALYZING || State_eqb _ HD_ANALYZING);
        rewrite ?showError_row, clearTimeout_others; exact Hrow.
    + rewrite clearTimeout_others. fields. destruct (toast a); exact Hrow.
    + rewrite handleLLMResponse_row, clearTimeout_others. exact Hrow.
    + rewrite clearTimeout_others. exact Hrow.
Qed.

(** X22. The row of the hot dog toggle: three taps on the credit in a
    row bring it up, wherever the count stood, and no event of the
    program hides it again. *)
Theorem hotdog_row_unlocked (plain : option (string -> option string)) (a : App) :
  reachable host plain a ->
  hotdogRowHidden
    (dispatch host TapCredit (dispatch host TapCredit (dispatch host TapCredit a))) = false /\
  (hotdogRowHidden a = false -> forall e, hotdogRowHidden (dispatch host e a) = false).
Proof.
  intros Hreach. apply reachable_Inv in Hreach.
  pose proof (steady_credit _ _ (inv_steady _ _ Hreach)) as Hcount.
  split; [| intros Hrow e; apply dispatch_row, Hrow].
  cbn [dispatch].
  destruct (credit_step a) as (Hc1 & Hr1).
  destruct (credit_step (onCredit a)) as (Hc2 & Hr2).
  destruct (credit_step (onCredit (onCredit a))) as (_ & Hr3).
  rewrite Hr3, Hr2, Hc2, Hr1, Hc1.
  destruct (creditClicks a) as [| [| [| n]]]; [reflexivity .. | lia].
Qed.

End WithHost.
End UnlockFacts.

(** ** Normalising twice *)

Module ShapeFacts.
Import JSString Sleuth.

(** The object [normalizeStandardPayload] builds. *)
Definition card (n c d f : string) : jsvalue :=
  VObject [("name", VString n); ("category", VString c);
           ("description", VString d); ("fun_fact", VString f)].

Lemma normalize_card (n c d f : string) :
  is_empty n = false -> normalizeStandardPayload (card n c d f) = card n c d f.
Proof.
  intros Hn. destruct n as [| n0 n']; [discriminate |].
  destruct c, d, f; reflexivity.
Qed.

Lemma normalize_shape (value : jsvalue) :
  normalizeStandardPayload value = VNull \/
  exists n c d f, normalizeStandardPayload value = card n c d f.
Proof.
  unfold normalizeStandardPayload.
  destruct (negb (truthy value) || negb (String.eqb (typeof value) "object"));
    [left; reflexivity |].
  cbv zeta.
  match goal with
  | |- (if ?cond then _ else _) = _ \/ _ => destruct cond
  end; [| left; reflexivity].
  right. do 4 eexists. reflexivity.
Qed.


End ShapeFacts.

(** ** More scenarios *)

Module MoreScenarios.
Import JSString Sleuth SleuthEvents Reference Scenarios.
Import ResponseFacts EmbeddedFacts FenceFacts PlainTextFacts.

Definition hotdogResponse : jsvalue :=
  VString (dq "{'result':'HOT DOG','reason':'Sausage in bun.'}").

Lemma standard_payload_shown_witness :
  state (handleLLMResponse host0 mugResponse analyzing) = RESULT /\
  resultPage (handleLLMResponse host0 mugResponse analyzing) = 1 /\
  resultView (handleLLMResponse host0 mugResponse analyzing) =
    {| result_category := "Kitchenware"; result_name := "Mug";
       result_description := "A drinking vessel.";
       result_fact := "Ceramic mugs date back millennia.";
       category_display := "inline-block" |}.
Proof.
  apply (SettleFacts.standard_payload_shown host0 analyzing mugResponse
           "Mug" "Kitchenware" "A drinking vessel." "Ceramic mugs date back millennia.");
    vm_compute; reflexivity.
Defined.


Definition wrapped : jsvalue := VObject [("message", VString "  A mug.  ")].


Definition nl : string := String (ascii_of_nat 10) "".



(** *** Runs of events *)

Definition capture : Event := SideClick 1700 42 (Some frame) Delivered.

Definition run1 : App := dispatch host0 capture (started None).
Definition run2 : App := dispatch host0 (PluginMessage mugResponse) run1.
Definition noFrame : App := dispatch host0 (SideClick 1700 42 None Delivered) (started None).

Definition emptyPlain : option (string -> option string) := Some (fun _ => None).
Definition voiceOn : App := dispatch host0 TapToggleVoice (started emptyPlain).

Lemma page_follows_state_witness :
  screens run2 = screenOf (state run2) /\
  hdOverlayHidden run2 = negb (State_eqb (state run2) HD_CAMERA) /\
  (state run2 <> HD_RESULT -> borderColor run2 = "" \/ borderColor run2 = "#000000") /\
  (state run2 = HD_RESULT -> borderApi host0 = true ->
   borderColor run2 = if String.eqb (hd_verdict (hotdogView run2)) "HOT DOG"
                      then "#22c55e" else "#ef4444") /\
  (resultPage run2 = 1 \/ resultPage run2 = 2) /\
  descPageActive run2 = (resultPage run2 =? 1) /\
  factPageActive run2 = (resultPage run2 =? 2).
Proof.
  apply (InvariantFacts.page_follows_state host0 None run2).
  apply reach_step, reach_step, reach_start.
Defined.


Lemma result_stays_witness :
  activeRequest run2 = None /\
  dispatch host0 (PluginMessage hotdogResponse) run2 = run2 /\
  dispatch host0 (WindowMessage hotdogResponse) run2 = run2.
Proof.
  apply (InvariantFacts.result_stays host0 None run2 hotdogResponse).
  - apply reach_step, reach_step, reach_start.
  - left. vm_compute. reflexivity.
Defined.

Lemma timers_accounted_witness :
  (pending 1 Watchdog run1 -> llmTimer run1 = Some 1 /\ waitingForResponse run1 = true) /\
  (pending 1 HideToast run1 -> errorTimer run1 = Some 1).
Proof.
  apply (InvariantFacts.timers_accounted host0 None run1 1).
  apply reach_step, reach_start.
Defined.

Lemma toast_goes_witness :
  exists h, errorTimer noFrame = Some h /\ pending h HideToast noFrame /\
    toast (fire host0 h noFrame)
      = Some {| toast_text := "Camera not ready — try again"; toast_show := false |}.
Proof.
  apply (InvariantFacts.toast_goes host0 None noFrame
           {| toast_text := "Camera not ready — try again"; toast_show := true |}).
  - apply reach_step, reach_start.
  - vm_compute. reflexivity.
  - reflexivity.
Defined.

Lemma settings_kept_witness :
  toggleVoice voiceOn = true /\
  settings (started (store voiceOn)) = {| voice := true; hotdog := false |}.
Proof.
  destruct (InvariantFacts.settings_kept host0 emptyPlain voiceOn) as (Hv & _ & Hs).
  - apply reach_step, reach_start.
  - split; [rewrite Hv; vm_compute; reflexivity |].
    rewrite Hs; [vm_compute; reflexivity | vm_compute; discriminate].
Defined.

(** *** The filter and the forms *)



Lemma escapeAttr_closes_nothing_witness :
  Cyberdeck.escapeAttr "Dark mode" = "Dark mode".
Proof.
  apply (proj2 (FormFacts.escapeAttr_closes_nothing "Dark mode")); reflexivity.
Defined.

Lemma counter_covers_limit_witness :
  Cyberdeck.charCountClass (String.length "Dark mode") = "char-count" /\
  Cyberdeck.submitFeature "Dark mode" "" <> Cyberdeck.Stopped "Title too long (max 150).".
Proof.
  split; [reflexivity |].
  apply (FormFacts.counter_covers_limit "Dark mode" ""). vm_compute. discriminate.
Defined.

(** *** Captures *)

Lemma capture_without_frame_witness :
  state noFrame = state (started None) /\
  screens noFrame = screenOf (state (started None)) /\
  toast noFrame = Some {| toast_text := "Camera not ready — try again";
                          toast_show := true |} /\
  outbox noFrame = outbox (started None) /\
  activeRequest noFrame = activeRequest (started None) /\
  llmTimer noFrame = None.
Proof.
  exact (CaptureFacts.capture_without_frame host0 (started None) 1700 42 None Delivered
           (or_introl eq_refl) (or_introl eq_refl) ltac:(vm_compute; discriminate)).
Defined.

Lemma capture_posts_request_witness :
  (exists text,
     JSON.stringify (requestPayload host0 frame (PROMPT_STANDARD host0)) = Some text /\
     outbox run1 = outbox (started None) ++ [text]) /\
  get (requestPayload host0 frame (PROMPT_STANDARD host0)) "message"
    = VString (PROMPT_STANDARD host0) /\
  get (requestPayload host0 frame (PROMPT_STANDARD host0)) "imageBase64" = VString frame /\
  state run1 = ANALYZING /\
  exists r, activeRequest run1 = Some r /\ mode r = standard /\
            voiceToggle r = voice (settings (started None)).
Proof.
  exact (CaptureFacts.capture_posts_request host0 (started None) 1700 42 frame
           eq_refl (or_introl eq_refl) eq_refl).
Defined.

Lemma paging_round_trip_witness :
  dispatch host0 ScrollUp (dispatch host0 ScrollDown run2) = run2 /\
  resultPage (dispatch host0 ScrollDown run2) = 2 /\
  state (dispatch host0 ScrollDown (dispatch host0 ScrollDown run2))
    = if hotdog (settings run2) then HD_CAMERA else CAMERA.
Proof.
  apply (CaptureFacts.paging_round_trip host0 None run2).
  - apply reach_step, reach_step, reach_start.
  - vm_compute. reflexivity.
  - vm_compute. reflexivity.
Defined.

Definition devCapture : App := dispatch devHost capture (started None).

Lemma dev_capture_shows_mock_witness :
  outbox devCapture = outbox (started None) /\
  pending (nextTimer (started None)) MockResponse devCapture /\
  (state (started None) = CAMERA ->
   state (dispatch devHost (TimerDue (nextTimer (started None))) devCapture) = RESULT /\
   result_name (resultView (dispatch devHost (TimerDue (nextTimer (started None)))
                              devCapture)) = "Mechanical Keyboard" /\
   result_category (resultView (dispatch devHost (TimerDue (nextTimer (started None)))
                                  devCapture)) = "Technology") /\
  (state (started None) = HD_CAMERA ->
   state (dispatch devHost (TimerDue (nextTimer (started None))) devCapture) = HD_RESULT /\
   hd_verdict (hotdogView (dispatch devHost (TimerDue (nextTimer (started None)))
                             devCapture)) = "NOT HOT DOG" /\
   hd_reason (hotdogView (dispatch devHost (TimerDue (nextTimer (started None)))
                            devCapture)) = "This is a keyboard. Not a hot dog.").
Proof.
  exact (CaptureFacts.dev_capture_shows_mock devHost None (started None) 1700 42 frame
           Delivered (reach_start devHost None) eq_refl (or_introl eq_refl) eq_refl).
Defined.

(** *** The hidden row, and normalising twice *)

Lemma hotdog_row_unlocked_witness :
  hotdogRowHidden (started None) = true /\
  hotdogRowHidden
    (dispatch host0 TapCredit (dispatch host0 TapCredit
       (dispatch host0 TapCredit (started None)))) = false.
Proof.
  split; [reflexivity |].
  apply (proj1 (UnlockFacts.hotdog_row_unlocked host0 None (started None)
                  (reach_start host0 None))).
Defined.


End MoreScenarios.
